(** * Compound-interest calculator: engine, history store and components

    A shallow embedding of [calculatorUtils] (the engine
    [calculateCompoundInterest] with its helpers, and the history store on
    top of [localStorage]) and of the handlers of the components that call
    it (the form, the results table, the history list), together with the
    JavaScript built-ins they use: IEEE-754 numbers, [Date], [JSON] and
    [Storage]. *)

From Stdlib Require Import ZArith Floats Reals Lia Bool String Ascii List.
From Stdlib Require Uint63.
Import ListNotations.

Set Implicit Arguments.
Local Open Scope string_scope.
Local Open Scope Z_scope.

(* ================================================================== *)
(** * JavaScript numbers *)

(** The operations of the JavaScript [number] type that the program uses.
    Integer-valued numbers (literals, [time], the loop counter [year]) enter
    through [of_Z]; [Math.pow] and [Math.exp] are library functions of the
    host. [isFinite] is what [JSON.stringify] tests before it prints a
    number, and [num_eqb] is [===] on numbers, which holds between the two
    zeros of binary64; zero is a finite number. *)
Class Number : Type := {
  num : Type;
  of_Z : Z -> num;
  Infinity : num;
  num_add : num -> num -> num;
  num_sub : num -> num -> num;
  num_mul : num -> num -> num;
  num_div : num -> num -> num;
  Math_pow : num -> num -> num;
  Math_exp : num -> num;
  isFinite : num -> bool;
  num_eqb : num -> num -> bool;
  isFinite_zero : isFinite (of_Z 0) = true
}.

Declare Scope num_scope.
Delimit Scope num_scope with num.
Infix "+" := num_add : num_scope.
Infix "-" := num_sub : num_scope.
Infix "*" := num_mul : num_scope.
Infix "/" := num_div : num_scope.

(** Facts of IEEE-754 binary64 arithmetic (round to nearest) and of the
    ECMAScript definitions of [Math.pow] and [Math.exp] that make some
    results exact: multiplying or dividing by one changes nothing, a finite
    number minus itself is [+0], a finite number times zero is a zero, and
    [Math.pow(b, ±0) = 1], [Math.exp(±0) = 1]; integers up to 2^53 and the
    hundredth of a finite number are finite. *)
Class IEEE754 (N : Number) : Prop := {
  div_1_r : forall x : num, (x / of_Z 1)%num = x;
  mul_1_l : forall x : num, (of_Z 1 * x)%num = x;
  mul_1_r : forall x : num, (x * of_Z 1)%num = x;
  sub_diag : forall x : num, isFinite x = true -> (x - x)%num = of_Z 0;
  pow_zero : forall b x : num,
    isFinite x = true -> Math_pow b (x * of_Z 0)%num = of_Z 1;
  exp_zero : forall x : num,
    isFinite x = true -> Math_exp (x * of_Z 0)%num = of_Z 1;
  of_Z_finite : forall k : Z, Z.abs k <= 2 ^ 53 -> isFinite (of_Z k) = true;
  div_100_finite : forall x : num,
    isFinite x = true -> isFinite (x / of_Z 100)%num = true
}.

(** Binary64 itself, on Rocq's primitive floats. The two library functions
    are left to the host. An integer (below 2^63 in magnitude) becomes the
    nearest double, which is the integer itself up to 2^53. *)
Definition float_of_Z (z : Z) : float :=
  if z <? 0 then (- PrimFloat.of_uint63 (Uint63.of_Z (- z)))%float
  else PrimFloat.of_uint63 (Uint63.of_Z z).

Definition Float64 (pow : float -> float -> float) (exp : float -> float)
  : Number :=
  {| num := float;
     of_Z := float_of_Z;
     Infinity := PrimFloat.infinity;
     num_add := PrimFloat.add;
     num_sub := PrimFloat.sub;
     num_mul := PrimFloat.mul;
     num_div := PrimFloat.div;
     Math_pow := pow;
     Math_exp := exp;
     isFinite := PrimFloat.is_finite;
     num_eqb := PrimFloat.eqb;
     isFinite_zero := eq_refl |}.

(** The real numbers, the arithmetic that binary64 approximates, with
    [Rpower x y = exp (y * ln x)] as the power. No real is infinite:
    [Infinity] is a placeholder here, and the engine reads the periods per
    year of 'continuously' in no computation. *)
Definition Real : Number :=
  {| num := R;
     of_Z := IZR;
     Infinity := 0%R;
     num_add := Rplus;
     num_sub := Rminus;
     num_mul := Rmult;
     num_div := Rdiv;
     Math_pow := Rpower;
     Math_exp := exp;
     isFinite := fun _ => true;
     num_eqb := fun x y => if Req_dec_T x y then true else false;
     isFinite_zero := eq_refl |}.

(* ================================================================== *)
(** * Exceptions *)

Inductive exception : Type :=
| RangeError     (* Date.prototype.toISOString on an invalid date *)
| TypeError      (* property read on undefined or null, call of a non-function *)
| SyntaxError    (* JSON.parse on text that is not JSON *)
| LoopBudget.    (* the loop model ran out of iterations; never reached *)

Inductive outcome (A : Type) : Type :=
| Return (a : A)
| Throw (e : exception).
Arguments Return {A} a.
Arguments Throw {A} e.

Definition bind {A B : Type} (c : outcome A) (k : A -> outcome B)
  : outcome B :=
  match c with
  | Return a => k a
  | Throw e => Throw e
  end.

Declare Scope outcome_scope.
Delimit Scope outcome_scope with outcome.
Notation "'let*' x := c 'in' k" := (bind c (fun x => k))
  (at level 10, x name, c at level 100, k at level 200) : outcome_scope.
Local Open Scope outcome_scope.

(* ================================================================== *)
(** * Strings *)

Definition digit_char (d : Z) : ascii :=
  match d with
  | 0 => "0" | 1 => "1" | 2 => "2" | 3 => "3" | 4 => "4"
  | 5 => "5" | 6 => "6" | 7 => "7" | 8 => "8" | 9 => "9"
  | 10 => "a" | 11 => "b" | 12 => "c" | 13 => "d" | 14 => "e"
  | 15 => "f" | 16 => "g" | 17 => "h" | 18 => "i" | 19 => "j"
  | 20 => "k" | 21 => "l" | 22 => "m" | 23 => "n" | 24 => "o"
  | 25 => "p" | 26 => "q" | 27 => "r" | 28 => "s" | 29 => "t"
  | 30 => "u" | 31 => "v" | 32 => "w" | 33 => "x" | 34 => "y"
  | _ => "z"
  end%char.

(** The last [width] digits of [n] in the given radix, most significant
    first, padded with zeros. *)
Fixpoint pad_radix (radix : Z) (width : nat) (n : Z) : string :=
  match width with
  | O => EmptyString
  | S w => pad_radix radix w (n / radix)
           ++ String (digit_char (n mod radix)) EmptyString
  end.

(** How many digits a positive number has in the given radix (at most
    [fuel]). *)
Fixpoint digits_radix (radix : Z) (fuel : nat) (n : Z) : nat :=
  match fuel with
  | O => O
  | S f => if n <? radix then 1%nat else S (digits_radix radix f (n / radix))
  end.

(** [Number.prototype.toString(radix)] on an integer. *)
Definition Z_toString (radix : Z) (n : Z) : string :=
  let m := Z.abs n in
  let body := pad_radix radix (digits_radix radix (S (Z.to_nat (Z.log2 m))) m) m in
  if n <? 0 then String "-"%char body else body.

(** [s.substring(start)]. *)
Definition substring_from (start : nat) (s : string) : string :=
  String.substring start (String.length s - start) s.

(** [s.split(sep)[0]] for a one-character separator: the characters before
    its first occurrence, the whole string when there is none. *)
Fixpoint split_first (sep : ascii) (s : string) : string :=
  match s with
  | EmptyString => EmptyString
  | String c rest =>
      if Ascii.eqb c sep then EmptyString
      else String c (split_first sep rest)
  end.

(* ================================================================== *)
(** * Dates (ECMA-262, Date objects) *)

Module JSDate.

Definition msPerDay : Z := 86400000.
Definition msPerHour : Z := 3600000.
Definition msPerMinute : Z := 60000.
Definition msPerSecond : Z := 1000.

Definition Day (t : Z) : Z := t / msPerDay.
Definition TimeWithinDay (t : Z) : Z := t mod msPerDay.

Definition DaysInYear (y : Z) : Z :=
  if negb (y mod 4 =? 0) then 365
  else if negb (y mod 100 =? 0) then 366
  else if negb (y mod 400 =? 0) then 365
  else 366.

Definition DayFromYear (y : Z) : Z :=
  365 * (y - 1970) + (y - 1969) / 4 - (y - 1901) / 100 + (y - 1601) / 400.

(** The largest [y] with [DayFromYear y <= d]: an estimate from the mean
    length of a year, corrected by at most one. *)
Definition YearFromDay (d : Z) : Z :=
  let y := 1970 + (400 * d) / 146097 in
  if d <? DayFromYear y then y - 1
  else if DayFromYear (y + 1) <=? d then y + 1
  else y.

Definition YearFromTime (t : Z) : Z := YearFromDay (Day t).

(** 1 in a leap year, 0 otherwise. *)
Definition LeapYear (y : Z) : Z := if DaysInYear y =? 366 then 1 else 0.

Definition InLeapYear (t : Z) : Z := LeapYear (YearFromTime t).

Definition DayWithinYear (t : Z) : Z :=
  Day t - DayFromYear (YearFromTime t).

(** Day number within the year on which month [m] (0 = January) starts. *)
Definition month_start (leap : Z) (m : Z) : Z :=
  match m with
  | 0 => 0
  | 1 => 31
  | 2 => 59 + leap
  | 3 => 90 + leap
  | 4 => 120 + leap
  | 5 => 151 + leap
  | 6 => 181 + leap
  | 7 => 212 + leap
  | 8 => 243 + leap
  | 9 => 273 + leap
  | 10 => 304 + leap
  | _ => 334 + leap
  end.

Definition MonthFromTime (t : Z) : Z :=
  let d := DayWithinYear t in
  let leap := InLeapYear t in
  if d <? 31 then 0
  else if d <? 59 + leap then 1
  else if d <? 90 + leap then 2
  else if d <? 120 + leap then 3
  else if d <? 151 + leap then 4
  else if d <? 181 + leap then 5
  else if d <? 212 + leap then 6
  else if d <? 243 + leap then 7
  else if d <? 273 + leap then 8
  else if d <? 304 + leap then 9
  else if d <? 334 + leap then 10
  else 11.

Definition DateFromTime (t : Z) : Z :=
  DayWithinYear t - month_start (InLeapYear t) (MonthFromTime t) + 1.

Definition HourFromTime (t : Z) : Z := (t / msPerHour) mod 24.
Definition MinFromTime (t : Z) : Z := (t / msPerMinute) mod 60.
Definition SecFromTime (t : Z) : Z := (t / msPerSecond) mod 60.
Definition msFromTime (t : Z) : Z := t mod msPerSecond.

(** [MakeDay]: the day number of the first of the month, plus [date - 1].
    A day of the month past the month's end runs over into the next
    month. *)
Definition MakeDay (year month date : Z) : Z :=
  let ym := year + month / 12 in
  let mn := month mod 12 in
  DayFromYear ym + month_start (LeapYear ym) mn + date - 1.

Definition MakeDate (day time : Z) : Z := day * msPerDay + time.

(** [TimeClip]: a time value further than 8.64e15 ms from the epoch is
    [NaN], here [None]. *)
Definition TimeClip (t : Z) : option Z :=
  if Z.abs t <=? 8640000000000000 then Some t else None.

(** A Date object is its time value: milliseconds since the epoch in UTC,
    or [NaN] ([None], an Invalid Date). *)
Record Date : Type := mkDate { DateValue : option Z }.

Section LocalTime.

(** The host's time zone: [LocalTZA t isUTC] is the offset of local time
    from UTC in milliseconds. *)
Variable LocalTZA : Z -> bool -> Z.

Definition LocalTime (t : Z) : Z := t + LocalTZA t true.
Definition UTC (t : Z) : Z := t - LocalTZA t false.

(** [new Date(value)] on a Date object copies its time value. *)
Definition new_Date (value : Date) : Date := mkDate (DateValue value).

(** [date.getFullYear()]: the year in local time, [NaN] on an invalid
    date. *)
Definition getFullYear (d : Date) : option Z :=
  match DateValue d with
  | None => None
  | Some t => Some (YearFromTime (LocalTime t))
  end.

(** [date.setFullYear(year)]: month, day and time of day are taken in local
    time and kept; the result is converted back to UTC and clipped. *)
Definition setFullYear (d : Date) (year : option Z) : Date :=
  let t := match DateValue d with
           | None => 0
           | Some t => LocalTime t
           end in
  match year with
  | None => mkDate None
  | Some y =>
      let newDate := MakeDay y (MonthFromTime t) (DateFromTime t) in
      mkDate (TimeClip (UTC (MakeDate newDate (TimeWithinDay t))))
  end.

End LocalTime.

(** The year of an ISO string: four digits from 0 to 9999, otherwise a sign
    and six digits. *)
Definition iso_year (y : Z) : string :=
  if (0 <=? y) && (y <=? 9999) then pad_radix 10 4 y
  else String (if y <? 0 then "-"%char else "+"%char)
              (pad_radix 10 6 (Z.abs y)).

Definition iso_date (y m d : Z) : string :=
  iso_year y ++ "-" ++ pad_radix 10 2 m ++ "-" ++ pad_radix 10 2 d.

(** [date.toISOString()]: the UTC fields of the time value; a [RangeError]
    on an invalid date. *)
Definition toISOString (d : Date) : outcome string :=
  match DateValue d with
  | None => Throw RangeError
  | Some t =>
      Return (iso_date (YearFromTime t) (MonthFromTime t + 1) (DateFromTime t)
              ++ "T" ++ pad_radix 10 2 (HourFromTime t)
              ++ ":" ++ pad_radix 10 2 (MinFromTime t)
              ++ ":" ++ pad_radix 10 2 (SecFromTime t)
              ++ "." ++ pad_radix 10 3 (msFromTime t) ++ "Z")
  end.

End JSDate.

(* ================================================================== *)
(** * The engine *)

Inductive CompoundingFrequency : Type :=
| annually
| semi_annually
| quarterly
| monthly
| weekly
| daily
| continuously.

(** The string each frequency is in the source. *)
Definition frequency_string (f : CompoundingFrequency) : string :=
  match f with
  | annually => "annually"
  | semi_annually => "semi-annually"
  | quarterly => "quarterly"
  | monthly => "monthly"
  | weekly => "weekly"
  | daily => "daily"
  | continuously => "continuously"
  end.

(** [frequency === 'continuously']. *)
Definition is_continuously (f : CompoundingFrequency) : bool :=
  match f with
  | continuously => true
  | _ => false
  end.

(** The property [startDate?: Date | null] of the params: missing (or
    [undefined]), [null], or a Date. *)
Inductive StartDate : Type :=
| startDate_undefined
| startDate_null
| startDate_Date (d : JSDate.Date).

(** [time] is a whole number of years and is kept as an integer, like the
    loop counter that counts up to it by one; both enter the arithmetic
    through [of_Z], which is exact on the integers a double counts through
    (up to 2^53), and an array holds the rows of up to 2^32 - 1 years. *)
Record CalculationParams {N : Number} : Type := {
  principal : num;
  rate : num;
  time : Z;
  frequency : CompoundingFrequency;
  startDate_property : StartDate
}.

(** [startDate] as the engine tests it, [if (startDate)]: the Date when the
    property holds one (every Date object is truthy, an Invalid Date
    included), and nothing when it is [null], [undefined] or missing. *)
Definition startDate {N : Number} (params : CalculationParams)
  : option JSDate.Date :=
  match startDate_property params with
  | startDate_Date d => Some d
  | _ => None
  end.

Record YearlyBreakdown {N : Number} : Type := {
  year : Z;
  amount : num;
  interestEarned : num;
  date : option string
}.

Record CalculationResult {N : Number} : Type := {
  finalAmount : num;
  totalInterest : num;
  yearlyBreakdown : list YearlyBreakdown;
  formula : string
}.

(** [array[i]]: [undefined] ([None]) outside the array. *)
Definition array_get {A : Type} (a : list A) (i : Z) : option A :=
  if i <? 0 then None else nth_error a (Z.to_nat i).

Section Engine.

Context {N : Number}.

(** The host's time zone, see [JSDate.LocalTime]. *)
Variable LocalTZA : Z -> bool -> Z.

(** The [default] branch of the [switch] is out of reach of the type. *)
Definition getFrequencyValue (frequency : CompoundingFrequency) : num :=
  match frequency with
  | annually => of_Z 1
  | semi_annually => of_Z 2
  | quarterly => of_Z 4
  | monthly => of_Z 12
  | weekly => of_Z 52
  | daily => of_Z 365
  | continuously => Infinity
  end.

Definition getFormula (frequency : CompoundingFrequency) : string :=
  if is_continuously frequency then "A = P × e^(rt)"
  else "A = P(1 + r/n)^(nt)".

(** The date of a breakdown row: a copy of [startDate] moved to the year
    [getFullYear() + year], printed as an ISO string and cut at its ['T']. *)
Definition date_of_year (startDate : JSDate.Date) (year : Z)
  : outcome string :=
  let date := JSDate.new_Date startDate in
  let date :=
    JSDate.setFullYear LocalTZA date
      (option_map (fun y => y + year) (JSDate.getFullYear LocalTZA date)) in
  let* iso := JSDate.toISOString date in
  Return (split_first "T" iso).

(** The [for] loop of [calculateCompoundInterest], from the current value of
    [year] and of the array; [budget] bounds the iterations left. *)
Fixpoint breakdown_loop (params : CalculationParams) (n : num)
    (budget : nat) (year : Z) (yearlyBreakdown : list YearlyBreakdown)
  : outcome (list YearlyBreakdown) :=
  if year <=? time params then
    match budget with
    | O => Throw LoopBudget
    | S budget' =>
        let yearAmount :=
          if is_continuously (frequency params) then
            (principal params
             * Math_exp ((rate params / of_Z 100) * of_Z year))%num
          else
            (principal params
             * Math_pow (of_Z 1 + (rate params / of_Z 100) / n)
                        (n * of_Z year))%num in
        let* previousAmount :=
          if year =? 1 then Return (principal params)
          else match array_get yearlyBreakdown (year - 2) with
               | Some row => Return (amount row)
               | None => Throw TypeError
               end in
        let interestEarned := (yearAmount - previousAmount)%num in
        let* yearDate :=
          match startDate params with
          | Some d => let* s := date_of_year d year in Return (Some s)
          | None => Return None
          end in
        breakdown_loop params n budget' (year + 1)
          (yearlyBreakdown
           ++ [ {| year := year;
                   amount := yearAmount;
                   interestEarned := interestEarned;
                   date := yearDate |} ])%list
    end
  else Return yearlyBreakdown.

Definition calculateCompoundInterest (params : CalculationParams)
  : outcome CalculationResult :=
  let n := getFrequencyValue (frequency params) in
  let finalAmount :=
    if is_continuously (frequency params) then
      (principal params
       * Math_exp ((rate params / of_Z 100) * of_Z (time params)))%num
    else
      (principal params
       * Math_pow (of_Z 1 + (rate params / of_Z 100) / n)
                  (n * of_Z (time params)))%num in
  let totalInterest := (finalAmount - principal params)%num in
  let formula := getFormula (frequency params) in
  let* yearlyBreakdown :=
    breakdown_loop params n (Z.to_nat (time params)) 1 [] in
  Return {| finalAmount := finalAmount;
            totalInterest := totalInterest;
            yearlyBreakdown := yearlyBreakdown;
            formula := formula |}.

End Engine.

(* ================================================================== *)
(** * JSON and localStorage *)

(** The values that [JSON.parse] returns: [null], booleans, numbers (any
    number: the text [1e999] is read as [Infinity], the text [-0] as the
    negative zero), strings, arrays, and objects as the list of their
    properties in order. *)
#[local] Set Warnings "-register-all".
Inductive JSON {N : Number} : Type :=
| JNull
| JBool (b : bool)
| JNumber (x : num)
| JString (s : string)
| JArray (items : list JSON)
| JObject (members : list (string * JSON)).

(** A string held by the store: either a JSON text, kept as the value that
    [JSON.parse] reads from it, or a string that [JSON.parse] rejects, kept
    as its characters. *)
Inductive StoredString {N : Number} : Type :=
| JSONText (v : JSON)
| NotJSON (s : string).

Definition Storage {N : Number} : Type := string -> option StoredString.

(** The readings [saveCalculation] takes from its host: the clock at
    [Date.now()], the rendering [Math.random().toString(36)] of the draw
    (the digits of a number in a radix other than ten are the host's to
    choose), and the clock at [new Date()]. *)
Record Host : Type := {
  Date_now : Z;
  Math_random_toString36 : string;
  new_Date_now : Z
}.

(** A history item before it is stored: params and result spread into one
    object, with [id] and [createdAt]. *)
Record CalculationHistory {N : Number} : Type := {
  params_of : CalculationParams;
  result_of : CalculationResult;
  id : string;
  createdAt : string
}.

Section Store.

Context {N : Number}.

(** What JSON text keeps of a finite number: the number itself, the
    negative zero being written [0] like the positive one. *)
Definition JSON_number (x : num) : num :=
  if num_eqb x (of_Z 0) then of_Z 0 else x.

(** What [JSON.stringify] writes for a number, as it is read back: [null]
    when the number is not finite. *)
Definition number_toJSON (x : num) : JSON :=
  if isFinite x then JNumber (JSON_number x) else JNull.

(** The value read back from the text that [JSON.stringify] writes for a
    parsed value: the same value, but for the numbers in it. *)
Fixpoint JSON_written (v : JSON) : JSON :=
  match v with
  | JNumber x => number_toJSON x
  | JArray items => JArray (map JSON_written items)
  | JObject members =>
      JObject (map (fun kv => (fst kv, JSON_written (snd kv))) members)
  | _ => v
  end.

(** [JSON.stringify(v)], the text being kept as the value it is read back
    as. *)
Definition JSON_stringify (v : JSON) : StoredString :=
  JSONText (JSON_written v).

Definition JSON_parse (s : StoredString) : outcome JSON :=
  match s with
  | JSONText v => Return v
  | NotJSON _ => Throw SyntaxError
  end.

(** Truthiness of a string: every string but the empty one. *)
Definition truthy (s : StoredString) : bool :=
  match s with
  | JSONText _ => true
  | NotJSON s => negb (String.eqb s "")
  end.

Definition getItem (key : string) (localStorage : Storage)
  : option StoredString :=
  localStorage key.

Definition setItem (key : string) (value : StoredString)
    (localStorage : Storage) : Storage :=
  fun k => if String.eqb k key then Some value else localStorage k.

(** [Date.prototype.toJSON]: the ISO string, [null] for an invalid date. *)
Definition Date_toJSON (d : JSDate.Date) : JSON :=
  match JSDate.toISOString d with
  | Return s => JString s
  | Throw _ => JNull
  end.

(** A property whose value is [undefined] is left out. *)
Definition YearlyBreakdown_toJSON (row : YearlyBreakdown) : JSON :=
  JObject
    ([ ("year", number_toJSON (of_Z (year row)));
       ("amount", number_toJSON (amount row));
       ("interestEarned", number_toJSON (interestEarned row)) ]
     ++ match date row with
        | Some s => [ ("date", JString s) ]
        | None => []
        end)%list.

(** The history item as [JSON.stringify] writes it and [JSON.parse] reads
    it back: the properties of the params, of the result, [id] and
    [createdAt]; [startDate] is left out when it is missing or
    [undefined]. *)
Definition CalculationHistory_toJSON (item : CalculationHistory) : JSON :=
  let p := params_of item in
  let r := result_of item in
  JObject
    ([ ("principal", number_toJSON (principal p));
       ("rate", number_toJSON (rate p));
       ("time", number_toJSON (of_Z (time p)));
       ("frequency", JString (frequency_string (frequency p))) ]
     ++ match startDate_property p with
        | startDate_undefined => []
        | startDate_null => [ ("startDate", JNull) ]
        | startDate_Date d => [ ("startDate", Date_toJSON d) ]
        end
     ++ [ ("finalAmount", number_toJSON (finalAmount r));
          ("totalInterest", number_toJSON (totalInterest r));
          ("yearlyBreakdown",
           JArray (map YearlyBreakdown_toJSON (yearlyBreakdown r)));
          ("formula", JString (formula r));
          ("id", JString (id item));
          ("createdAt", JString (createdAt item)) ])%list.

(** [object[key]] on an object's members. *)
Fixpoint member (key : string) (members : list (string * JSON))
  : option JSON :=
  match members with
  | [] => None
  | (k, v) :: rest => if String.eqb k key then Some v else member key rest
  end.

(** [item.id]: a [TypeError] on [null], [undefined] ([None]) on anything
    that has no such property. *)
Definition get_id (item : JSON) : outcome (option JSON) :=
  match item with
  | JNull => Throw TypeError
  | JObject members => Return (member "id" members)
  | _ => Return None
  end.

(** [item.id !== id]. *)
Definition id_differs (id : string) (item : JSON) : outcome bool :=
  let* v := get_id item in
  Return match v with
         | Some (JString s) => negb (String.eqb s id)
         | _ => true
         end.

(** [array.filter(keep)] with a callback that may throw. *)
Fixpoint filter_array (keep : JSON -> outcome bool) (a : list JSON)
  : outcome (list JSON) :=
  match a with
  | [] => Return []
  | item :: rest =>
      let* b := keep item in
      let* rest' := filter_array keep rest in
      Return (if b then item :: rest' else rest')
  end.

Definition generateId (host : Host) : string :=
  Z_toString 36 (Date_now host)
  ++ substring_from 2 (Math_random_toString36 host).

Definition getCalculationHistory (localStorage : Storage) : outcome JSON :=
  match getItem "calculationHistory" localStorage with
  | Some history =>
      if truthy history then JSON_parse history else Return (JArray [])
  | None => Return (JArray [])
  end.

Definition saveCalculation (host : Host) (params : CalculationParams)
    (result : CalculationResult) (localStorage : Storage)
  : outcome Storage :=
  let id := generateId host in
  let* createdAt :=
    JSDate.toISOString
      (JSDate.mkDate (JSDate.TimeClip (new_Date_now host))) in
  let historyItem :=
    {| params_of := params;
       result_of := result;
       id := id;
       createdAt := createdAt |} in
  let* history := getCalculationHistory localStorage in
  match history with
  | JArray items =>
      Return (setItem "calculationHistory"
                (JSON_stringify
                   (JArray (CalculationHistory_toJSON historyItem :: items)))
                localStorage)
  | _ => Throw TypeError
  end.

Definition deleteCalculation (id : string) (localStorage : Storage)
  : outcome Storage :=
  let* history := getCalculationHistory localStorage in
  match history with
  | JArray items =>
      let* updatedHistory := filter_array (id_differs id) items in
      Return (setItem "calculationHistory"
                (JSON_stringify (JArray updatedHistory)) localStorage)
  | _ => Throw TypeError
  end.

Definition clearCalculationHistory (localStorage : Storage) : Storage :=
  setItem "calculationHistory" (JSON_stringify (JArray [])) localStorage.

End Store.

(* ================================================================== *)
(** * The specification's vocabulary *)

(** Compounding periods per year of the discrete frequencies; continuous
    compounding has none. *)
Definition periods_per_year (f : CompoundingFrequency) : option Z :=
  match f with
  | annually => Some 1
  | semi_annually => Some 2
  | quarterly => Some 4
  | monthly => Some 12
  | weekly => Some 52
  | daily => Some 365
  | continuously => None
  end.

(** The years of the breakdown, [1; ...; k]. *)
Definition years (k : nat) : list Z := map Z.of_nat (seq 1 k).

(** The host zone in which local time is UTC. *)
Definition UTC_zone : Z -> bool -> Z := fun _ _ => 0.

(** Length of month [m] (0 = January) in a year of [days] days. *)
Definition DaysInMonth (days : Z) (m : Z) : Z :=
  match m with
  | 1 => if days =? 366 then 29 else 28
  | 3 | 5 | 8 | 10 => 30
  | _ => 31
  end.

(** [startDate] advanced by [y] whole calendar years, same month and day,
    as [YYYY-MM-DD]; the calendar fields are those of the time value [t] in
    UTC. *)
Definition same_day_years_later (t : Z) (y : Z) : string :=
  JSDate.iso_date (JSDate.YearFromTime t + y)
                  (JSDate.MonthFromTime t + 1) (JSDate.DateFromTime t).

Section Vocabulary.

Context {N : Number}.
Variable LocalTZA : Z -> bool -> Z.

(** amount-at-year(y): the closed form of the frequency at [y] years, and
    [principal] at year 0. *)
Definition amount_at_year (p : CalculationParams) (y : Z) : num :=
  if y =? 0 then principal p
  else match periods_per_year (frequency p) with
       | Some n =>
           (principal p
            * Math_pow (of_Z 1 + (rate p / of_Z 100) / of_Z n)
                       (of_Z n * of_Z y))%num
       | None =>
           (principal p * Math_exp ((rate p / of_Z 100) * of_Z y))%num
       end.

(** Every date of the breakdown can be printed: [startDate], when there is
    one, is not an Invalid Date, and neither is any of its copies moved to a
    later year (a Date holds no instant past the year 275760). *)
Definition dates_representable (p : CalculationParams) : Prop :=
  forall d y,
    startDate p = Some d -> 1 <= y <= time p ->
    exists s, date_of_year LocalTZA d y = Return s.

(** Valid parameters, as far as the engine depends on them: a positive
    whole number of years and a start date that is a calendar date. The
    specification also asks for [principal > 0] and [rate > 0]; nothing
    proved here needs them. *)
Definition valid_params (p : CalculationParams) : Prop :=
  1 <= time p /\ dates_representable p.

(** The row of year [y]. *)
Definition row_of_year (p : CalculationParams) (y : Z) : YearlyBreakdown :=
  {| year := y;
     amount := amount_at_year p y;
     interestEarned := (amount_at_year p y - amount_at_year p (y - 1))%num;
     date := match startDate p with
             | Some d => match date_of_year LocalTZA d y with
                         | Return s => Some s
                         | Throw _ => None
                         end
             | None => None
             end |}.

End Vocabulary.

(** [Math.pow] and [Math.exp] on binary64 where ECMA-262 fixes the result
    outright, an exponent or argument of zero; the other results are
    implementation-approximated and stand as [NaN] here. *)
Definition Math_pow_at_zero (b x : float) : float :=
  if PrimFloat.eqb x 0 then 1%float else PrimFloat.nan.

Definition Math_exp_at_zero (x : float) : float :=
  if PrimFloat.eqb x 0 then 1%float else PrimFloat.nan.

Definition Float64_at_zero : Number :=
  Float64 Math_pow_at_zero Math_exp_at_zero.

(** The specification's example scenarios, on the real numbers: 10000 at
    5% for 3 years compounded annually, and 1000 at 100% for 1 year
    compounded continuously; and the first with a start date,
    2024-01-15T00:00:00Z. *)
Definition scenario_annual : @CalculationParams Real :=
  @Build_CalculationParams Real 10000%R 5%R 3 annually startDate_undefined.

Definition scenario_continuous : @CalculationParams Real :=
  @Build_CalculationParams Real 1000%R 100%R 1 continuously
    startDate_undefined.

Definition scenario_dated : @CalculationParams Real :=
  @Build_CalculationParams Real 10000%R 5%R 3 annually
    (startDate_Date (JSDate.mkDate (Some 1705276800000))).

(** The first scenario for one year from 29 February 2024,
    2024-02-29T00:00:00Z. *)
Definition scenario_leap_day : @CalculationParams Real :=
  @Build_CalculationParams Real 10000%R 5%R 1 annually
    (startDate_Date (JSDate.mkDate (Some 1709164800000))).

(** The first scenario from 2024-03-01T00:00:00Z on a host five hours
    behind UTC, where that instant is the evening of 29 February. *)
Definition UTC_minus_5 : Z -> bool -> Z := fun _ _ => -18000000.

Definition scenario_first_of_march : @CalculationParams Real :=
  @Build_CalculationParams Real 10000%R 5%R 1 annually
    (startDate_Date (JSDate.mkDate (Some 1709251200000))).

(** No years at all: 10000 at 5% compounded monthly on binary64, an
    infinite principal, and an infinite rate compounded continuously. *)
Definition scenario_no_years : @CalculationParams Float64_at_zero :=
  @Build_CalculationParams Float64_at_zero 10000%float 5%float 0 monthly
    startDate_undefined.

Definition scenario_infinite_principal : @CalculationParams Float64_at_zero :=
  @Build_CalculationParams Float64_at_zero
    PrimFloat.infinity 5%float 0 annually startDate_undefined.

Definition scenario_infinite_rate : @CalculationParams Float64_at_zero :=
  @Build_CalculationParams Float64_at_zero
    10000%float PrimFloat.infinity 0 continuously startDate_undefined.

Section StoreVocabulary.

Context {N : Number}.

(** A store that holds nothing. *)
Definition empty_storage : Storage := fun _ => None.

(** The [id] of a stored record, when it has one and it is a string. *)
Definition id_of (item : JSON) : option string :=
  match item with
  | JObject members =>
      match member "id" members with
      | Some (JString s) => Some s
      | _ => None
      end
  | _ => None
  end.

(** The record has this [id]. *)
Definition has_id (id : string) (item : JSON) : bool :=
  match id_of item with
  | Some s => String.eqb s id
  | None => false
  end.

(** A value that [JSON.stringify] and [JSON.parse] hand back as it is:
    every number in it is finite and no negative zero. Such is every value
    that was read from a text written by [JSON.stringify]. *)
Definition as_written (v : JSON) : Prop := JSON_written v = v.

(** An element that is not [null] and is not written as [null]: anything
    but [null] and the numbers that are not finite. The filter of a delete
    reads the [id] of such an element, before and after it was written. *)
Definition written_not_null (item : JSON) : Prop :=
  JSON_written item <> JNull.

(** A row read back with its numbers, each as JSON text keeps it. *)
Definition YearlyBreakdown_exactly (row : YearlyBreakdown) : JSON :=
  JObject
    ([ ("year", JNumber (JSON_number (of_Z (year row))));
       ("amount", JNumber (JSON_number (amount row)));
       ("interestEarned", JNumber (JSON_number (interestEarned row))) ]
     ++ match date row with
        | Some s => [ ("date", JString s) ]
        | None => []
        end)%list.

(** The record carries the fields of [p] and of [r]: each number as JSON
    text keeps it (the number itself, [0] for the negative zero), the
    frequency and the formula as their strings, the rows in order, and the
    start date as JSON has it: the ISO string of a Date ([null] for an
    Invalid Date), [null] for [null], and no property when [p] has none. *)
Definition carries_params_and_result (item : JSON) (p : CalculationParams)
    (r : CalculationResult) : Prop :=
  match item with
  | JObject members =>
      member "principal" members = Some (JNumber (JSON_number (principal p)))
      /\ member "rate" members = Some (JNumber (JSON_number (rate p)))
      /\ member "time" members
         = Some (JNumber (JSON_number (of_Z (time p))))
      /\ member "frequency" members
         = Some (JString (frequency_string (frequency p)))
      /\ member "startDate" members
         = match startDate_property p with
           | startDate_undefined => None
           | startDate_null => Some JNull
           | startDate_Date d => Some (Date_toJSON d)
           end
      /\ member "finalAmount" members
         = Some (JNumber (JSON_number (finalAmount r)))
      /\ member "totalInterest" members
         = Some (JNumber (JSON_number (totalInterest r)))
      /\ member "yearlyBreakdown" members
         = Some (JArray (map YearlyBreakdown_exactly (yearlyBreakdown r)))
      /\ member "formula" members = Some (JString (formula r))
  | _ => False
  end.

(** Every number of [p] and [r] is finite. *)
Definition finite_numbers (p : CalculationParams) (r : CalculationResult)
  : Prop :=
  isFinite (principal p) = true
  /\ isFinite (rate p) = true
  /\ isFinite (of_Z (time p)) = true
  /\ isFinite (finalAmount r) = true
  /\ isFinite (totalInterest r) = true
  /\ Forall (fun row => isFinite (of_Z (year row)) = true
                        /\ isFinite (amount row) = true
                        /\ isFinite (interestEarned row) = true)
            (yearlyBreakdown r).

End StoreVocabulary.

(** Store scenarios on binary64. A host read at 2023-11-14T22:13:20Z whose
    random draw is one half, [0.i] in base 36; a valid calculation that
    overflows, 2^1023 at 100% for one year; a store whose history is not
    JSON; a history of two records, saved three milliseconds apart with
    draws of a half and a quarter. *)
Definition host_2023 : Host :=
  {| Date_now := 1700000000000;
     Math_random_toString36 := "0.i";
     new_Date_now := 1700000000000 |}.

Definition overflow_params : @CalculationParams Float64_at_zero :=
  @Build_CalculationParams Float64_at_zero 0x1p+1023%float 100%float 1
    annually startDate_null.

Definition overflow_result : @CalculationResult Float64_at_zero :=
  @Build_CalculationResult Float64_at_zero
    PrimFloat.infinity PrimFloat.infinity
    [ @Build_YearlyBreakdown Float64_at_zero
        1 PrimFloat.infinity PrimFloat.infinity None ]
    "A = P(1 + r/n)^(nt)".

Definition finite_params : @CalculationParams Float64_at_zero :=
  @Build_CalculationParams Float64_at_zero 10000%float 5%float 1
    annually startDate_null.

Definition finite_result : @CalculationResult Float64_at_zero :=
  @Build_CalculationResult Float64_at_zero
    10500%float 500%float
    [ @Build_YearlyBreakdown Float64_at_zero 1 10500%float 500%float None ]
    "A = P(1 + r/n)^(nt)".

Definition corrupted_storage : @Storage Float64_at_zero :=
  setItem "calculationHistory" (NotJSON "{") empty_storage.

(** A principal of negative zero; and a store whose history is the text
    [[{"id":"a","finalAmount":1e999}]], which no save wrote: its number is
    read as [Infinity]. *)
Definition negative_zero_params : @CalculationParams Float64_at_zero :=
  @Build_CalculationParams Float64_at_zero (-0)%float 5%float 1
    annually startDate_undefined.

Definition record_of_1e999 : @JSON Float64_at_zero :=
  JObject [ ("id", JString "a");
            ("finalAmount", @JNumber Float64_at_zero PrimFloat.infinity) ].

Definition storage_of_1e999 : @Storage Float64_at_zero :=
  setItem "calculationHistory" (JSONText (JArray [ record_of_1e999 ]))
    empty_storage.

Definition two_records : list (@JSON Float64_at_zero) :=
  [ JObject [ ("id", JString "loyw3v28i") ];
    JObject [ ("id", JString "loyw3v2b9") ] ].

Definition two_records_storage : @Storage Float64_at_zero :=
  setItem "calculationHistory" (JSON_stringify (JArray two_records))
    empty_storage.

(* ================================================================== *)
(** * Proof vocabulary *)

(** A specification float that is a zero or has a mantissa. *)
Definition SF_finite (x : spec_float) : Prop :=
  match x with
  | S754_zero _ | S754_finite _ _ _ => True
  | _ => False
  end.

(** No character of [s] is [c]. *)
Fixpoint lacks (c : ascii) (s : string) : Prop :=
  match s with
  | EmptyString => True
  | String a rest => a <> c /\ lacks c rest
  end.

(** The twelve months, one by one. *)
Ltac month_cases m :=
  let E := fresh "E" in
  assert (E : m = 0 \/ m = 1 \/ m = 2 \/ m = 3 \/ m = 4 \/ m = 5 \/ m = 6
              \/ m = 7 \/ m = 8 \/ m = 9 \/ m = 10 \/ m = 11) by lia;
  repeat destruct E as [-> | E]; try subst m.



(* ================================================================== *)
(** * The components around the engine and the store *)

(** ** ResultsDisplay: the breakdown table and the worked formula *)

Section ResultsDisplay.

Context {N : Number}.

(** The display's own table of periods per year, on the frequency as a
    string; 'continuously' falls to the [default] branch, like every string
    that is no frequency. *)
Definition getFrequencyNumber (frequency : string) : num :=
  if String.eqb frequency "annually" then of_Z 1
  else if String.eqb frequency "semi-annually" then of_Z 2
  else if String.eqb frequency "quarterly" then of_Z 4
  else if String.eqb frequency "monthly" then of_Z 12
  else if String.eqb frequency "weekly" then of_Z 52
  else if String.eqb frequency "daily" then of_Z 365
  else of_Z 1.

(** The cell 'Total Interest' of a breakdown row. *)
Definition totalInterestToDate (params : CalculationParams)
    (row : YearlyBreakdown) : num :=
  (principal params - principal params + amount row - principal params)%num.

End ResultsDisplay.

(** ** Numbers as the components test them, on binary64 *)

(** [Number.isInteger(x)]: finite, and its value a whole number. *)
Definition Number_isInteger (x : float) : bool :=
  match Prim2SF x with
  | S754_zero _ => true
  | S754_finite _ m e =>
      if 0 <=? e then true else Z.pos m mod 2 ^ (- e) =? 0
  | _ => false
  end.

(** The integer part of a finite number, which is its value when it is
    integral; 0 stands in for the numbers that are not finite. *)
Definition integer_value (x : float) : Z :=
  match Prim2SF x with
  | S754_finite s m e =>
      cond_Zopp s (if 0 <=? e then Z.pos m * 2 ^ e else Z.pos m / 2 ^ (- e))
  | _ => 0
  end.

(** [ToBoolean] on a number: false on [+0], [-0] and [NaN]. *)
Definition Number_ToBoolean (x : float) : bool :=
  negb (PrimFloat.eqb x 0) && negb (PrimFloat.is_nan x).

(** The negative zero, which JSON text does not keep. *)
Definition is_negative_zero (x : float) : bool :=
  match Prim2SF x with
  | S754_zero true => true
  | _ => false
  end.

(** A number as it comes back from JSON text: the number itself, and [0]
    for the negative zero. *)
Definition number_kept (x : float) : float :=
  if is_negative_zero x then 0%float else x.

(** ** Date.parse *)

Definition and_then {A B : Type} (o : option A) (k : A -> option B)
  : option B :=
  match o with
  | Some a => k a
  | None => None
  end.

Declare Scope option_scope.
Delimit Scope option_scope with option.
Notation "'let?' x := c 'in' k" := (and_then c (fun x => k))
  (at level 10, x pattern, c at level 100, k at level 200) : option_scope.

Definition digit_value (c : ascii) : option Z :=
  let n := Z.of_N (N_of_ascii c) in
  if (48 <=? n) && (n <=? 57) then Some (n - 48) else None.

(** Exactly [n] decimal digits at the head of [s]: their value on top of
    [acc], and the rest of the string. *)
Fixpoint take_digits (n : nat) (s : string) (acc : Z)
  : option (Z * string) :=
  match n with
  | O => Some (acc, s)
  | S n' =>
      match s with
      | EmptyString => None
      | String c rest =>
          match digit_value c with
          | Some d => take_digits n' rest (10 * acc + d)
          | None => None
          end
      end
  end.

(** The character [c] at the head of [s]: the rest of the string. *)
Definition expect (c : ascii) (s : string) : option string :=
  match s with
  | EmptyString => None
  | String a rest => if Ascii.eqb a c then Some rest else None
  end.

(** The year of the Date Time String Format: [YYYY], or a sign and
    [YYYYYY]; [-000000] is no year. *)
Definition parse_year (s : string) : option (Z * string) :=
  match s with
  | EmptyString => None
  | String c rest =>
      if Ascii.eqb c "+" then take_digits 6 rest 0
      else if Ascii.eqb c "-" then
        match take_digits 6 rest 0 with
        | Some (y, rest') => if y =? 0 then None else Some (- y, rest')
        | None => None
        end
      else take_digits 4 s 0
  end.

(** [MakeTime] on whole numbers. *)
Definition MakeTime (hour min sec ms : Z) : Z :=
  hour * JSDate.msPerHour + min * JSDate.msPerMinute
  + sec * JSDate.msPerSecond + ms.

(** The two forms of the Date Time String Format that this program meets,
    with a day that its month has: the date-only form [YYYY-MM-DD], which a
    date input gives and which is read as UTC, and the form
    [YYYY-MM-DDTHH:mm:ss.sssZ] that [toISOString] writes. [None] on every
    other string. *)
Definition parse_date_time (s : string) : option Z :=
  (let? (y, s) := parse_year s in
   let? s := expect "-" s in
   let? (m, s) := take_digits 2 s 0 in
   let? s := expect "-" s in
   let? (d, s) := take_digits 2 s 0 in
   if (1 <=? m) && (m <=? 12) && (1 <=? d)
      && (d <=? DaysInMonth (JSDate.DaysInYear y) (m - 1))
   then
     let day := JSDate.MakeDay y (m - 1) d in
     match s with
     | EmptyString => Some (JSDate.MakeDate day 0)
     | _ =>
         let? s := expect "T" s in
         let? (hh, s) := take_digits 2 s 0 in
         let? s := expect ":" s in
         let? (mm, s) := take_digits 2 s 0 in
         let? s := expect ":" s in
         let? (ss, s) := take_digits 2 s 0 in
         let? s := expect "." s in
         let? (ms, s) := take_digits 3 s 0 in
         let? s := expect "Z" s in
         match s with
         | EmptyString =>
             if (hh <=? 23) && (mm <=? 59) && (ss <=? 59)
             then Some (JSDate.MakeDate day (MakeTime hh mm ss ms))
             else None
         | _ => None
         end
     end
   else None)%option.

Section DateParse.

(** What the host's [Date.parse] answers on a string that is outside the
    two forms above: the other forms of the format, and whatever else the
    implementation recognises. *)
Variable Date_parse_host : string -> option Z.

(** [Date.parse(s)], [NaN] being [None]. *)
Definition Date_parse (s : string) : option Z :=
  match parse_date_time s with
  | Some t => JSDate.TimeClip t
  | None => Date_parse_host s
  end.

(** [new Date(s)] on a string. *)
Definition new_Date_string (s : string) : JSDate.Date :=
  JSDate.mkDate (Date_parse s).

End DateParse.

(** ** CalculatorForm *)

(** The form's state [params], with numbers in its three number fields
    (any numbers, whole or not) as [handleChange] leaves them. *)
Record FormParams : Type := {
  principal_value : float;
  rate_value : float;
  time_value : float;
  frequency_value : CompoundingFrequency;
  startDate_value : option JSDate.Date
}.

(** The names of the inputs that [handleChange] serves. *)
Inductive InputName : Type :=
| principal_input
| rate_input
| time_input
| startDate_input.

Record Toast : Type := {
  title : string;
  description : string;
  destructive : bool
}.

Section Components.

Variable pow : float -> float -> float.
Variable exp : float -> float.

(** The host: its time zone, its [parseFloat], its [Date.parse] outside the
    modelled forms, and its [Date] constructor on a value that is no
    string. *)
Variable LocalTZA : Z -> bool -> Z.
Variable parseFloat : string -> float.
Variable Date_parse_host : string -> option Z.
Variable new_Date_other : @JSON (Float64 pow exp) -> JSDate.Date.

(** The params that the history hands to the page: four properties as
    they are read from a stored item ([None] for [undefined]), and the
    start date made from the fifth. *)
Record SelectedParams : Type := {
  selected_principal : option (@JSON (Float64 pow exp));
  selected_rate : option (@JSON (Float64 pow exp));
  selected_time : option (@JSON (Float64 pow exp));
  selected_frequency : option (@JSON (Float64 pow exp));
  selected_startDate : option JSDate.Date
}.

(** What a handler does to its surroundings: a toast, or the parameters
    handed to the page ([onCalculate] from the form, [onSelectHistory] from
    the history, both the page's [handleCalculate]). *)
Inductive UIEffect : Type :=
| ShowToast (t : Toast)
| OnCalculate (params : FormParams)
| OnSelectHistory (params : SelectedParams).

(** The params as the engine's model takes them: [time] as the integer it
    is once validated, which [of_Z] turns back into the number (below
    2^63), and [startDate] as the form holds it, a Date or [null]. *)
Definition engine_params (params : FormParams)
  : @CalculationParams (Float64 pow exp) :=
  @Build_CalculationParams (Float64 pow exp)
    (principal_value params) (rate_value params)
    (integer_value (time_value params))
    (frequency_value params)
    (match startDate_value params with
     | Some d => startDate_Date d
     | None => startDate_null
     end).

(** [handleChange]: [new Date(value)] for the date input,
    [parseFloat(value) || 0] for the three number inputs. *)
Definition handleChange (name : InputName) (value : string)
    (prev : FormParams) : FormParams :=
  let number :=
    let x := parseFloat value in
    if Number_ToBoolean x then x else 0%float in
  match name with
  | principal_input =>
      {| principal_value := number;
         rate_value := rate_value prev;
         time_value := time_value prev;
         frequency_value := frequency_value prev;
         startDate_value := startDate_value prev |}
  | rate_input =>
      {| principal_value := principal_value prev;
         rate_value := number;
         time_value := time_value prev;
         frequency_value := frequency_value prev;
         startDate_value := startDate_value prev |}
  | time_input =>
      {| principal_value := principal_value prev;
         rate_value := rate_value prev;
         time_value := number;
         frequency_value := frequency_value prev;
         startDate_value := startDate_value prev |}
  | startDate_input =>
      {| principal_value := principal_value prev;
         rate_value := rate_value prev;
         time_value := time_value prev;
         frequency_value := frequency_value prev;
         startDate_value := Some (new_Date_string Date_parse_host value) |}
  end.

(** The value shown in the date input:
    [params.startDate ? params.startDate.toISOString().split('T')[0] : '']. *)
Definition startDate_input_value (params : FormParams) : outcome string :=
  match startDate_value params with
  | Some d => let* iso := JSDate.toISOString d in
              Return (split_first "T" iso)
  | None => Return ""
  end.

(** [handleSubmit]: three checks, each ending the handler with a toast;
    then the engine, the save, the page's callback and a last toast. An
    exception of the engine or of the save ends the handler where it is
    thrown, before anything was written or shown. *)
Definition handleSubmit (host : Host) (params : FormParams)
    (localStorage : @Storage (Float64 pow exp))
  : outcome (@Storage (Float64 pow exp) * list UIEffect) :=
  if PrimFloat.leb (principal_value params) 0 then
    Return (localStorage,
            [ ShowToast
                {| title := "Invalid Principal";
                   description := "Principal amount must be greater than 0";
                   destructive := true |} ])
  else if PrimFloat.leb (rate_value params) 0 then
    Return (localStorage,
            [ ShowToast
                {| title := "Invalid Interest Rate";
                   description := "Interest rate must be greater than 0";
                   destructive := true |} ])
  else if PrimFloat.leb (time_value params) 0
          || negb (Number_isInteger (time_value params)) then
    Return (localStorage,
            [ ShowToast
                {| title := "Invalid Time Period";
                   description := "Time period must be a positive integer";
                   destructive := true |} ])
  else
    let* result := calculateCompoundInterest LocalTZA (engine_params params) in
    let* localStorage' :=
      saveCalculation host (engine_params params) result localStorage in
    Return (localStorage',
            [ OnCalculate params;
              ShowToast
                {| title := "Calculation Complete";
                   description :=
                     "Your compound interest has been calculated successfully.";
                   destructive := false |} ]).

(** ** CalculationHistory, the component *)

(** Its state: the list it shows, as [getCalculationHistory] returned it,
    and the selected item, [JNull] for [null]. *)
Record HistoryState : Type := {
  history : @JSON (Float64 pow exp);
  selectedItem : @JSON (Float64 pow exp)
}.

Definition loadHistory (state : HistoryState)
    (localStorage : @Storage (Float64 pow exp)) : outcome HistoryState :=
  let* calculationHistory := getCalculationHistory localStorage in
  Return {| history := calculationHistory;
            selectedItem := selectedItem state |}.

(** [selectedItem?.id === id]. *)
Definition selected_has_id (id : string)
    (selectedItem : @JSON (Float64 pow exp)) : bool :=
  match selectedItem with
  | JObject members =>
      match member "id" members with
      | Some (JString s) => String.eqb s id
      | _ => false
      end
  | _ => false
  end.

Definition handleDelete (id : string) (state : HistoryState)
    (localStorage : @Storage (Float64 pow exp))
  : outcome (@Storage (Float64 pow exp) * HistoryState * list UIEffect) :=
  let* localStorage' := deleteCalculation id localStorage in
  let* state' := loadHistory state localStorage' in
  let state'' :=
    if selected_has_id id (selectedItem state)
    then {| history := history state'; selectedItem := JNull |}
    else state' in
  Return (localStorage', state'',
          [ ShowToast
              {| title := "Calculation deleted";
                 description :=
                   "The calculation has been removed from history.";
                 destructive := false |} ]).

Definition handleClearAll (state : HistoryState)
    (localStorage : @Storage (Float64 pow exp))
  : outcome (@Storage (Float64 pow exp) * HistoryState * list UIEffect) :=
  let localStorage' :=
    setItem "calculationHistory" (JSON_stringify (JArray [])) localStorage in
  let* state' := loadHistory state localStorage' in
  Return (localStorage',
          {| history := history state'; selectedItem := JNull |},
          [ ShowToast
              {| title := "History cleared";
                 description :=
                   "All calculations have been deleted from history.";
                 destructive := false |} ]).

(** [item.key]: a [TypeError] on [null], [undefined] ([None]) where there
    is no such property. *)
Definition property (key : string) (item : @JSON (Float64 pow exp))
  : outcome (option (@JSON (Float64 pow exp))) :=
  match item with
  | JNull => Throw TypeError
  | JObject members => Return (member key members)
  | _ => Return None
  end.

(** [ToBoolean] on what a property read gives. *)
Definition ToBoolean (v : option (@JSON (Float64 pow exp))) : bool :=
  match v with
  | None => false
  | Some JNull => false
  | Some (JBool b) => b
  | Some (JNumber x) => Number_ToBoolean x
  | Some (JString s) => negb (String.eqb s "")
  | Some (JArray _) => true
  | Some (JObject _) => true
  end.

(** [new Date(v)] on a value read from an item. *)
Definition new_Date_value (v : @JSON (Float64 pow exp)) : JSDate.Date :=
  match v with
  | JString s => new_Date_string Date_parse_host s
  | _ => new_Date_other v
  end.

Definition handleItemClick (item : @JSON (Float64 pow exp))
    (state : HistoryState)
  : outcome (HistoryState * list UIEffect) :=
  let* principal := property "principal" item in
  let* rate := property "rate" item in
  let* time := property "time" item in
  let* frequency := property "frequency" item in
  let* startDate := property "startDate" item in
  Return ({| history := history state; selectedItem := item |},
          [ OnSelectHistory
              {| selected_principal := principal;
                 selected_rate := rate;
                 selected_time := time;
                 selected_frequency := frequency;
                 selected_startDate :=
                   if ToBoolean startDate
                   then match startDate with
                        | Some v => Some (new_Date_value v)
                        | None => None
                        end
                   else None |} ]).

(** The host's [toLocaleDateString], which depends on its locale. *)
Variable toLocaleDateString : JSDate.Date -> string.

(** [formatDate], the day shown for a record's [createdAt]. *)
Definition formatDate (dateString : string) : string :=
  toLocaleDateString (new_Date_string Date_parse_host dateString).

End Components.

(** ** Saves in a row *)

Section SaveEach.

Context {N : Number}.

(** One [saveCalculation] after another, each with the readings its host
    gave it, as one submit after another makes them. *)
Fixpoint save_each
    (saves : list (Host * CalculationParams * CalculationResult))
    (localStorage : Storage) : outcome Storage :=
  match saves with
  | [] => Return localStorage
  | (host, params, result) :: rest =>
      let* localStorage' :=
        saveCalculation host params result localStorage in
      save_each rest localStorage'
  end.

End SaveEach.

(** ** What the history component keeps true *)

Section HistoryVocabulary.

Variable pow : float -> float -> float.
Variable exp : float -> float.

(** The list shown is the list stored. *)
Definition view_current (state : HistoryState pow exp)
    (localStorage : @Storage (Float64 pow exp)) : Prop :=
  getCalculationHistory localStorage = Return (history state).

(** The selected item is none, or one of the stored records. *)
Definition selection_stored (state : HistoryState pow exp)
    (localStorage : @Storage (Float64 pow exp)) : Prop :=
  selectedItem state = JNull
  \/ exists items,
       getCalculationHistory localStorage = Return (JArray items)
       /\ In (selectedItem state) items.

End HistoryVocabulary.

(** ** Scenarios for the components, on binary64 *)

(** The first scenario over five years instead of three, and with an
    Invalid Date as start date. *)
Definition scenario_annual_five : @CalculationParams Real :=
  @Build_CalculationParams Real 10000%R 5%R 5 annually
    startDate_undefined.

Definition scenario_invalid_date : @CalculationParams Float64_at_zero :=
  @Build_CalculationParams Float64_at_zero 10000%float 5%float 3 annually
    (startDate_Date (JSDate.mkDate None)).

(** The form as it opens (10000 at 5% for 10 years, compounded annually),
    and the same with its date input emptied. *)
Definition form_defaults : FormParams :=
  {| principal_value := 10000%float;
     rate_value := 5%float;
     time_value := 10%float;
     frequency_value := annually;
     startDate_value := None |}.

Definition form_emptied_date : FormParams :=
  {| principal_value := 10000%float;
     rate_value := 5%float;
     time_value := 10%float;
     frequency_value := annually;
     startDate_value := Some (JSDate.mkDate None) |}.

(** A form with half a year as its time. *)
Definition form_half_year : FormParams :=
  {| principal_value := 10000%float;
     rate_value := 5%float;
     time_value := 0.5%float;
     frequency_value := annually;
     startDate_value := None |}.

(** A host's [parseFloat] as far as the text '2500' goes ([NaN] stands
    for what it reads elsewhere), a
    [Date.parse] that knows no form beyond the modelled ones, a [Date]
    constructor that makes an Invalid Date of anything that is no string,
    and a locale that shows a Date as its ISO day. *)
Definition parseFloat_2500 (s : string) : float :=
  if String.eqb s "2500" then 2500%float else nan.

Definition Date_parse_strict (s : string) : option Z := None.

Definition new_Date_other_invalid (v : @JSON Float64_at_zero)
  : JSDate.Date :=
  JSDate.mkDate None.

Definition toLocaleDateString_ISO (d : JSDate.Date) : string :=
  match JSDate.toISOString d with
  | Return s => split_first "T" s
  | Throw _ => "Invalid Date"
  end.

(** A saved calculation with 2024-01-15 as start date. *)
Definition dated_params : @CalculationParams Float64_at_zero :=
  @Build_CalculationParams Float64_at_zero 10000%float 5%float 1 annually
    (startDate_Date (JSDate.mkDate (Some 1705276800000))).

(** The history component showing the two records, the second selected. *)
Definition second_record_selected
  : HistoryState Math_pow_at_zero Math_exp_at_zero :=
  @Build_HistoryState Math_pow_at_zero Math_exp_at_zero
    (JArray two_records) (JObject [ ("id", JString "loyw3v2b9") ]).

(** A history in which the two records occur twice, and a history of the
    second record alone. *)
Definition two_records_twice : list (@JSON Float64_at_zero) :=
  (two_records ++ two_records)%list.

Definition two_records_twice_storage : @Storage Float64_at_zero :=
  setItem "calculationHistory" (JSON_stringify (JArray two_records_twice))
    empty_storage.

Definition one_record : list (@JSON Float64_at_zero) :=
  [ JObject [ ("id", JString "loyw3v2b9") ] ].

Definition one_record_storage : @Storage Float64_at_zero :=
  setItem "calculationHistory" (JSON_stringify (JArray one_record))
    empty_storage.

(** A second host, read at 2024-03-09T16:00:00Z, with a draw of one
    quarter. *)
Definition host_2024 : Host :=
  {| Date_now := 1710000000000;
     Math_random_toString36 := "0.9";
     new_Date_now := 1710000000000 |}.

(** ** Dates off UTC *)

(** The date, [YYYY-MM-DD], of the day of number [day] (days since the
    epoch, in UTC). *)
Definition iso_date_of_day (day : Z) : string :=
  let t := day * JSDate.msPerDay in
  JSDate.iso_date (JSDate.YearFromTime t) (JSDate.MonthFromTime t + 1)
    (JSDate.DateFromTime t).
(* ================================================================== *)
(** * The built-ins at known values *)

Example toISOString_epoch :
  JSDate.toISOString (JSDate.mkDate (Some 0))
  = Return "1970-01-01T00:00:00.000Z".
Proof. reflexivity. Qed.

Example toISOString_before_epoch :
  JSDate.toISOString (JSDate.mkDate (Some (-1)))
  = Return "1969-12-31T23:59:59.999Z".
Proof. reflexivity. Qed.

Example toISOString_leap_day :
  JSDate.toISOString (JSDate.mkDate (Some 1709164800000))
  = Return "2024-02-29T00:00:00.000Z".
Proof. reflexivity. Qed.

Example toISOString_last_instant :
  JSDate.toISOString (JSDate.mkDate (JSDate.TimeClip 8640000000000000))
  = Return "+275760-09-13T00:00:00.000Z".
Proof. vm_compute. reflexivity. Qed.

Example toISOString_invalid :
  JSDate.toISOString (JSDate.mkDate (JSDate.TimeClip 8640000000000001))
  = Throw RangeError.
Proof. reflexivity. Qed.

Example setFullYear_past_the_end :
  JSDate.setFullYear UTC_zone (JSDate.mkDate (Some 8640000000000000))
    (Some 275761)
  = JSDate.mkDate None.
Proof. vm_compute. reflexivity. Qed.

Example Z_toString_36_clock : Z_toString 36 1700000000000 = "loyw3v28".
Proof. reflexivity. Qed.

Example Z_toString_36_small :
  Z_toString 36 0 = "0" /\ Z_toString 36 35 = "z"
  /\ Z_toString 36 36 = "10" /\ Z_toString 36 (-37) = "-11".
Proof. repeat split. Qed.

Example generateId_host_2023 : generateId host_2023 = "loyw3v28i".
Proof. reflexivity. Qed.

Example generateId_zero_draw :
  generateId {| Date_now := 1700000000000;
                Math_random_toString36 := "0";
                new_Date_now := 1700000000000 |}
  = "loyw3v28".
Proof. reflexivity. Qed.

Example float_of_Z_exact :
  float_of_Z 365 = 365%float /\ float_of_Z (-100) = (-100)%float
  /\ float_of_Z 0 = 0%float.
Proof. repeat split. Qed.

Example binary64_overflow :
  (0x1p+1023 * 2)%float = PrimFloat.infinity
  /\ (PrimFloat.infinity - PrimFloat.infinity)%float = PrimFloat.nan.
Proof. split; reflexivity. Qed.

Example binary64_one_is_exact :
  (5 / 100 / 1 = 5 / 100)%float /\ (1 * 3 = 3)%float
  /\ (10000 * 1 = 10000)%float /\ (10000 - 10000 = 0)%float.
Proof. repeat split. Qed.

(* ================================================================== *)
(** * Lists and arrays *)

Lemma years_length (k : nat) : length (years k) = k.
Proof. unfold years. now rewrite length_map, length_seq. Qed.

Lemma years_S (k : nat) : years (S k) = (years k ++ [Z.of_nat (S k)])%list.
Proof. unfold years. now rewrite seq_S, map_app. Qed.

Lemma years_nth (k i : nat) :
  (i < k)%nat -> nth_error (years k) i = Some (Z.of_nat (S i)).
Proof.
  intros Hi. unfold years.
  rewrite nth_error_map, nth_error_seq.
  destruct (Nat.ltb_spec i k); [reflexivity | lia].
Qed.

Lemma array_get_map_years {A : Type} (f : Z -> A) (k : nat) (i : Z) :
  0 <= i < Z.of_nat k ->
  array_get (map f (years k)) i = Some (f (i + 1)).
Proof.
  intros Hi. unfold array_get.
  destruct (Z.ltb_spec i 0); [lia |].
  rewrite nth_error_map, years_nth by lia.
  cbn. do 2 f_equal. lia.
Qed.

(* ================================================================== *)
(** * The engine returns the rows of the years 1 to [time] *)

Section EngineFacts.

Context {N : Number}.
Variable LocalTZA : Z -> bool -> Z.

(** The closed form the code evaluates at a year other than 0 is
    amount-at-year. *)
Lemma yearAmount_eq (p : CalculationParams) (y : Z) :
  y <> 0 ->
  (if is_continuously (frequency p) then
     (principal p * Math_exp ((rate p / of_Z 100) * of_Z y))%num
   else
     (principal p
      * Math_pow (of_Z 1
                  + (rate p / of_Z 100) / getFrequencyValue (frequency p))
                 (getFrequencyValue (frequency p) * of_Z y))%num)
  = amount_at_year p y.
Proof.
  intros Hy. unfold amount_at_year.
  destruct (Z.eqb_spec y 0) as [E | _]; [contradiction |].
  destruct (frequency p); reflexivity.
Qed.

(** Loop invariant: on entry with [year = k + 1] the array holds the rows of
    the years 1 to [k]; the loop ends with the rows of the years 1 to
    [time], within its budget. *)
Lemma breakdown_loop_rows (p : CalculationParams) :
  dates_representable LocalTZA p ->
  forall (budget k : nat),
    (k <= Z.to_nat (time p))%nat ->
    (Z.to_nat (time p) - k <= budget)%nat ->
    breakdown_loop LocalTZA p (getFrequencyValue (frequency p)) budget
      (Z.of_nat k + 1) (map (row_of_year LocalTZA p) (years k))
    = Return (map (row_of_year LocalTZA p) (years (Z.to_nat (time p)))).
Proof.
  intros Hdates budget.
  induction budget as [| budget IH]; intros k Hk Hbudget.
  - cbn [breakdown_loop].
    destruct (Z.leb_spec (Z.of_nat k + 1) (time p)) as [Hle | Hgt]; [lia |].
    replace k with (Z.to_nat (time p)) by lia. reflexivity.
  - cbn [breakdown_loop].
    destruct (Z.leb_spec (Z.of_nat k + 1) (time p)) as [Hle | Hgt].
    + rewrite yearAmount_eq by lia.
      assert (Hprev :
        (if Z.of_nat k + 1 =? 1 then Return (principal p)
         else match array_get (map (row_of_year LocalTZA p) (years k)) (Z.of_nat k + 1 - 2) with
              | Some r => Return (amount r)
              | None => Throw TypeError
              end) = Return (amount_at_year p (Z.of_nat k + 1 - 1))).
      { destruct (Z.eqb_spec (Z.of_nat k + 1) 1) as [E | NE].
        - replace (Z.of_nat k + 1 - 1) with 0 by lia. reflexivity.
        - rewrite array_get_map_years by lia. cbn [amount row_of_year].
          do 2 f_equal. lia. }
      rewrite Hprev. cbn [bind].
      assert (Hdate :
        match startDate p with
        | Some d => let* s := date_of_year LocalTZA d (Z.of_nat k + 1) in
                    Return (Some s)
        | None => Return None
        end = Return (date (row_of_year LocalTZA p (Z.of_nat k + 1)))).
      { cbn [date row_of_year].
        destruct (startDate p) as [d |] eqn:Hsd; [| reflexivity].
        destruct (Hdates d (Z.of_nat k + 1) Hsd ltac:(lia)) as [s Hs].
        rewrite Hs. reflexivity. }
      rewrite Hdate. cbn [bind].
      replace (Z.of_nat k + 1 + 1) with (Z.of_nat (S k) + 1) by lia.
      replace (Z.of_nat k + 1) with (Z.of_nat (S k)) by lia.
      specialize (IH (S k) ltac:(lia) ltac:(lia)).
      rewrite years_S, map_app in IH. cbn [map] in IH.
      exact IH.
    + replace k with (Z.to_nat (time p)) by lia. reflexivity.
Qed.

(** The engine returns, and what it returns. *)
Lemma calculateCompoundInterest_returns (p : CalculationParams) :
  dates_representable LocalTZA p ->
  calculateCompoundInterest LocalTZA p
  = Return
      {| finalAmount :=
           if is_continuously (frequency p) then
             (principal p
              * Math_exp ((rate p / of_Z 100) * of_Z (time p)))%num
           else
             (principal p
              * Math_pow (of_Z 1 + (rate p / of_Z 100)
                                   / getFrequencyValue (frequency p))
                         (getFrequencyValue (frequency p)
                          * of_Z (time p)))%num;
         totalInterest :=
           ((if is_continuously (frequency p) then
               (principal p
                * Math_exp ((rate p / of_Z 100) * of_Z (time p)))%num
             else
               (principal p
                * Math_pow (of_Z 1 + (rate p / of_Z 100)
                                     / getFrequencyValue (frequency p))
                           (getFrequencyValue (frequency p)
                            * of_Z (time p)))%num)
            - principal p)%num;
         yearlyBreakdown := map (row_of_year LocalTZA p) (years (Z.to_nat (time p)));
         formula := getFormula (frequency p) |}.
Proof.
  intros Hdates. unfold calculateCompoundInterest.
  pose proof (@breakdown_loop_rows p Hdates (Z.to_nat (time p)) 0%nat
                ltac:(lia) ltac:(lia)) as Hloop.
  cbn [years seq map Z.of_nat Z.add] in Hloop.
  rewrite Hloop. reflexivity.
Qed.

(** Whatever the dates, the engine either returns or stops at a date that
    cannot be printed: the loop never exhausts its budget and never reads
    outside the array. *)
Lemma date_of_year_outcome (d : JSDate.Date) (y : Z) :
  (exists s, date_of_year LocalTZA d y = Return s)
  \/ date_of_year LocalTZA d y = Throw RangeError.
Proof.
  unfold date_of_year, JSDate.toISOString.
  destruct (JSDate.DateValue _) as [t |]; cbn [bind]; eauto.
Qed.

Lemma breakdown_loop_outcome (p : CalculationParams) :
  forall (budget k : nat),
    (k <= Z.to_nat (time p))%nat ->
    (Z.to_nat (time p) - k <= budget)%nat ->
    (exists rows,
       breakdown_loop LocalTZA p (getFrequencyValue (frequency p)) budget
         (Z.of_nat k + 1) (map (row_of_year LocalTZA p) (years k))
       = Return rows)
    \/ breakdown_loop LocalTZA p (getFrequencyValue (frequency p)) budget
         (Z.of_nat k + 1) (map (row_of_year LocalTZA p) (years k))
       = Throw RangeError.
Proof.
  intros budget.
  induction budget as [| budget IH]; intros k Hk Hbudget;
    cbn [breakdown_loop];
    destruct (Z.leb_spec (Z.of_nat k + 1) (time p)) as [Hle | Hgt];
    try lia; eauto.
  rewrite yearAmount_eq by lia.
  assert (Hprev :
    (if Z.of_nat k + 1 =? 1 then Return (principal p)
     else match array_get (map (row_of_year LocalTZA p) (years k))
                  (Z.of_nat k + 1 - 2) with
          | Some r => Return (amount r)
          | None => Throw TypeError
          end) = Return (amount_at_year p (Z.of_nat k + 1 - 1))).
  { destruct (Z.eqb_spec (Z.of_nat k + 1) 1) as [E | NE].
    - replace (Z.of_nat k + 1 - 1) with 0 by lia. reflexivity.
    - rewrite array_get_map_years by lia. cbn [amount row_of_year].
      do 2 f_equal. lia. }
  rewrite Hprev. cbn [bind].
  specialize (IH (S k) ltac:(lia) ltac:(lia)).
  rewrite years_S, map_app in IH. cbn [map] in IH.
  replace (Z.of_nat (S k) + 1) with (Z.of_nat k + 1 + 1) in IH by lia.
  replace (Z.of_nat (S k)) with (Z.of_nat k + 1) in IH by lia.
  unfold row_of_year at 2 4 in IH.
  destruct (startDate p) as [d |]; cbn [bind]; [| exact IH].
  destruct (date_of_year_outcome d (Z.of_nat k + 1)) as [[s Hs] | Hs];
    rewrite Hs in *; cbn [bind]; [exact IH | now right].
Qed.

Lemma calculateCompoundInterest_outcome (p : CalculationParams) :
  (exists r, calculateCompoundInterest LocalTZA p = Return r)
  \/ calculateCompoundInterest LocalTZA p = Throw RangeError.
Proof.
  unfold calculateCompoundInterest.
  destruct (@breakdown_loop_outcome p (Z.to_nat (time p)) 0%nat
              ltac:(lia) ltac:(lia)) as [[rows Hrows] | Hthrow];
    cbn [years seq map Z.of_nat Z.add] in *.
  - rewrite Hrows. cbn [bind]. eauto.
  - rewrite Hthrow. now right.
Qed.

End EngineFacts.

(* ================================================================== *)
(** * Binary64 satisfies the exactness facts *)

(** ** One, zero and the diagonal *)

Lemma canonical_fexp m e :
  SpecFloat.bounded prec emax m e = true ->
  fexp prec emax (Z.pos (digits2_pos m) + e) = e /\ e <= emax - prec.
Proof.
  unfold SpecFloat.bounded, canonical_mantissa. intros H.
  apply andb_prop in H. destruct H as [H1 H2].
  split; [now apply Z.eqb_eq | now apply Z.leb_le].
Qed.

(** A canonical number passes through rounding unchanged. *)
Lemma binary_round_aux_canonical s m e :
  SpecFloat.bounded prec emax m e = true ->
  binary_round_aux prec emax s (Z.pos m) e loc_Exact = S754_finite s m e.
Proof.
  intros V. destruct (@canonical_fexp m e V) as [Hc He].
  unfold binary_round_aux, shr_fexp.
  cbn [Zdigits2]. rewrite Hc, Z.sub_diag.
  cbn [shr shr_record_of_loc shr_m loc_of_shr_record round_nearest_even].
  cbn [Zdigits2]. rewrite Hc, Z.sub_diag. cbn [shr shr_m].
  apply Z.leb_le in He. now rewrite He.
Qed.

Lemma float_mul_1_r (x : float) : (x * 1)%float = x.
Proof.
  apply Prim2SF_inj. rewrite FloatAxioms.mul_spec.
  change (Prim2SF 1) with (S754_finite false 4503599627370496 (-52)).
  pose proof (Prim2SF_valid x) as V.
  destruct (Prim2SF x) as [s | s | | s m e]; cbn [valid_binary] in V.
  - cbn. now destruct s.
  - cbn. now destruct s.
  - reflexivity.
  - destruct (@canonical_fexp m e V) as [Hc He].
    unfold SF64mul, SFmul.
    rewrite xorb_false_r.
    rewrite Pos.mul_comm.
    cbn [Pos.mul].
    unfold binary_round_aux, shr_fexp.
    cbn [Zdigits2 digits2_pos].
    rewrite !Pos2Z.inj_succ.
    replace (fexp prec emax (_ + (e + -52)) - (e + -52)) with 52.
    2:{ match goal with |- 52 = fexp _ _ ?a - _ => replace a with (Z.pos (digits2_pos m) + e) by lia end.
        rewrite Hc. lia. }
    cbn [shr shr_record_of_loc SpecFloat.iter_pos shr_1 orb shr_m loc_of_shr_record round_nearest_even].
    replace (e + -52 + 52) with e by lia.
    cbn [Zdigits2]. rewrite Hc, Z.sub_diag. cbn [shr shr_m].
    apply Z.leb_le in He. now rewrite He.
Qed.

Lemma float_mul_1_l (x : float) : (1 * x)%float = x.
Proof.
  apply Prim2SF_inj. rewrite FloatAxioms.mul_spec.
  change (Prim2SF 1) with (S754_finite false 4503599627370496 (-52)).
  pose proof (Prim2SF_valid x) as V.
  destruct (Prim2SF x) as [s | s | | s m e]; cbn [valid_binary] in V;
    try reflexivity.
  destruct (@canonical_fexp m e V) as [Hc He].
  unfold SF64mul, SFmul.
  cbn [xorb Pos.mul].
  unfold binary_round_aux, shr_fexp.
  cbn [Zdigits2 digits2_pos].
  rewrite !Pos2Z.inj_succ.
  replace (fexp prec emax (_ + (-52 + e)) - (-52 + e)) with 52.
  2:{ match goal with |- 52 = fexp _ _ ?a - _ => replace a with (Z.pos (digits2_pos m) + e) by lia end.
      rewrite Hc. lia. }
  cbn [shr shr_record_of_loc SpecFloat.iter_pos shr_1 orb shr_m loc_of_shr_record round_nearest_even].
  replace (-52 + e + 52) with e by lia.
  cbn [Zdigits2]. rewrite Hc, Z.sub_diag. cbn [shr shr_m].
  apply Z.leb_le in He. now rewrite He.
Qed.

Lemma float_sub_diag (x : float) :
  PrimFloat.is_finite x = true -> (x - x)%float = 0%float.
Proof.
  intros F. apply Prim2SF_inj. rewrite FloatAxioms.sub_spec.
  change (Prim2SF 0) with (S754_zero false).
  unfold PrimFloat.is_finite, PrimFloat.is_nan, PrimFloat.is_infinity in F.
  rewrite !FloatAxioms.eqb_spec, FloatAxioms.abs_spec in F.
  change (Prim2SF infinity) with (S754_infinity false) in F.
  destruct (Prim2SF x) as [s | s | | s m e].
  - cbn. now destruct s.
  - destruct s; cbn in F; discriminate F.
  - cbn in F. discriminate F.
  - unfold SF64sub, SFsub. rewrite Z.min_id.
    unfold shl_align. rewrite !Z.sub_diag. reflexivity.
Qed.

(** What is finite: the zeros and the numbers with a mantissa. *)
Lemma is_finite_spec (x : float) :
  PrimFloat.is_finite x = true <->
  match Prim2SF x with
  | S754_zero _ | S754_finite _ _ _ => True
  | _ => False
  end.
Proof.
  unfold PrimFloat.is_finite, PrimFloat.is_nan, PrimFloat.is_infinity.
  rewrite !FloatAxioms.eqb_spec, FloatAxioms.abs_spec.
  change (Prim2SF infinity) with (S754_infinity false).
  destruct (Prim2SF x) as [s | s | | s m e]; cbn.
  - tauto.
  - destruct s; cbn; (split; [discriminate | tauto]).
  - split; [discriminate | tauto].
  - unfold SFeqb, SFcompare.
    rewrite Z.compare_refl, Pos.compare_cont_refl.
    destruct s; cbn; tauto.
Qed.

(** A finite number times zero is a zero. *)
Lemma float_mul_0_r (x : float) :
  PrimFloat.is_finite x = true ->
  exists s, Prim2SF (x * 0)%float = S754_zero s.
Proof.
  intros F. apply is_finite_spec in F. rewrite FloatAxioms.mul_spec.
  change (Prim2SF 0) with (S754_zero false).
  destruct (Prim2SF x) as [s | s | | s m e]; try contradiction; cbn; eauto.
Qed.

Lemma div_eucl_exact (q b : Z) : 0 < b -> Z.div_eucl (q * b) b = (q, 0).
Proof.
  intros Hb.
  pose proof (Z.div_mul q b ltac:(lia)) as Hq.
  pose proof (Z.mod_mul q b ltac:(lia)) as Hr.
  unfold Z.div, Z.modulo in Hq, Hr.
  destruct (Z.div_eucl (q * b) b) as [q' r']. congruence.
Qed.

(** Twice a canonical mantissa, one exponent lower, rounds back to it. *)
Lemma binary_round_aux_double s m e :
  SpecFloat.bounded prec emax m e = true ->
  binary_round_aux prec emax s (Z.pos m~0) (e - 1) loc_Exact
  = S754_finite s m e.
Proof.
  intros V. destruct (@canonical_fexp m e V) as [Hc He].
  unfold binary_round_aux, shr_fexp.
  cbn [Zdigits2 digits2_pos]. rewrite Pos2Z.inj_succ.
  replace (Z.succ (Z.pos (digits2_pos m)) + (e - 1))
    with (Z.pos (digits2_pos m) + e) by lia.
  rewrite Hc. replace (e - (e - 1)) with 1 by lia.
  cbn [shr shr_record_of_loc SpecFloat.iter_pos shr_1 orb shr_m loc_of_shr_record
       round_nearest_even].
  replace (e - 1 + 1) with e by lia.
  cbn [Zdigits2]. rewrite Hc, Z.sub_diag. cbn [shr shr_m].
  apply Z.leb_le in He. now rewrite He.
Qed.

Lemma float_div_1_r (x : float) : (x / 1)%float = x.
Proof.
  apply Prim2SF_inj. rewrite FloatAxioms.div_spec.
  change (Prim2SF 1) with (S754_finite false 4503599627370496 (-52)).
  pose proof (Prim2SF_valid x) as V.
  destruct (Prim2SF x) as [s | s | | s m e]; cbn [valid_binary] in V.
  - cbn. now destruct s.
  - cbn. now destruct s.
  - reflexivity.
  - destruct (@canonical_fexp m e V) as [Hc He].
    unfold SF64div, SFdiv, SFdiv_core_binary.
    rewrite xorb_false_r.
    cbn [Zdigits2 digits2_pos Pos.succ].
    change (Z.pos 53 + -52) with 1.
    unfold fexp in Hc |- *. unfold emin, prec, emax in Hc |- *.
    change (3 - 1024 - 53) with (-1074) in *.
    destruct (Z.eq_dec e (-1074)) as [Emin | Enot].
    + (* the least exponent: the quotient is the mantissa *)
      replace (Z.min (Z.max (Z.pos (digits2_pos m) + e - 1 - 53) (-1074))
                     (e - -52)) with e by lia.
      replace (e - -52 - e) with 52 by lia.
      cbv beta iota.
      rewrite Z.shiftl_mul_pow2 by lia.
      change (2 ^ 52) with 4503599627370496.
      rewrite div_eucl_exact by lia.
      change (new_location 4503599627370496 0) with loc_Exact.
      now apply binary_round_aux_canonical.
    + (* above it: the quotient is twice the mantissa, one exponent lower *)
      replace (Z.min (Z.max (Z.pos (digits2_pos m) + e - 1 - 53) (-1074))
                     (e - -52)) with (e - 1) by lia.
      replace (e - -52 - (e - 1)) with 53 by lia.
      cbv beta iota.
      rewrite Z.shiftl_mul_pow2 by lia.
      replace (Z.pos m * 2 ^ 53) with (Z.pos m~0 * 4503599627370496) by lia.
      rewrite div_eucl_exact by lia.
      change (new_location 4503599627370496 0) with loc_Exact.
      now apply binary_round_aux_double.
Qed.

(** ** Magnitudes *)

Lemma digits2_pos_size (p : positive) : digits2_pos p = Pos.size p.
Proof. induction p as [p IH | p IH |]; cbn; now rewrite ?IH. Qed.

Lemma Zdigits2_nonneg (m : Z) : 0 <= m -> 0 <= Zdigits2 m.
Proof. destruct m; cbn; lia. Qed.

Lemma Zdigits2_gt (m : Z) : 0 <= m -> m < 2 ^ Zdigits2 m.
Proof.
  destruct m as [| p | p]; cbn; [lia | | lia]. intros _.
  rewrite digits2_pos_size.
  pose proof (Pos.size_gt p) as H.
  apply Pos2Z.pos_lt_pos in H. now rewrite Pos2Z.inj_pow in H.
Qed.

Lemma Zdigits2_le (m k : Z) : 0 <= k -> 0 <= m < 2 ^ k -> Zdigits2 m <= k.
Proof.
  intros Hk [Hm Hlt]. destruct m as [| p | p]; cbn; [lia | | lia].
  rewrite digits2_pos_size.
  pose proof (Pos.size_le p) as H.
  apply Pos2Z.pos_le_pos in H. rewrite Pos2Z.inj_pow in H.
  destruct (Z.le_gt_cases (Z.pos (Pos.size p)) k) as [| Hgt]; [assumption |].
  exfalso.
  assert (2 ^ (k + 1) <= 2 ^ Z.pos (Pos.size p))
    by (apply Z.pow_le_mono_r; lia).
  rewrite Z.pow_add_r, Z.pow_1_r in H0 by lia.
  change (Z.pos p~0) with (2 * Z.pos p) in H. lia.
Qed.

Lemma fexp_le (n : Z) : n <= 1024 -> fexp prec emax n <= 971.
Proof. unfold fexp, emin, prec, emax. lia. Qed.

(** ** Shifting right *)

Lemma shr_1_m (mrs : shr_record) :
  0 <= shr_m mrs -> shr_m (shr_1 mrs) = shr_m mrs / 2.
Proof.
  destruct mrs as [m r s]. cbn [shr_m shr_1]. intros Hm.
  destruct m as [| [p | p |] | p]; cbn [shr_m]; try lia.
  - reflexivity.
  - change (Z.pos p~1) with (2 * Z.pos p + 1).
    apply Z.div_unique with 1; lia.
  - change (Z.pos p~0) with (2 * Z.pos p).
    apply Z.div_unique with 0; lia.
  - reflexivity.
Qed.

Lemma iter_pos_nat {A : Type} (f : A -> A) (p : positive) (x : A) :
  SpecFloat.iter_pos f p x = Nat.iter (Pos.to_nat p) f x.
Proof.
  revert x. induction p as [p IH | p IH |]; intros x; cbn [SpecFloat.iter_pos].
  - rewrite !IH, Pos2Nat.inj_xI.
    replace (S (2 * Pos.to_nat p)) with (Pos.to_nat p + (Pos.to_nat p + 1))%nat
      by lia.
    rewrite !Nat.iter_add. cbn. reflexivity.
  - rewrite !IH, Pos2Nat.inj_xO.
    replace (2 * Pos.to_nat p)%nat with (Pos.to_nat p + Pos.to_nat p)%nat
      by lia.
    now rewrite Nat.iter_add.
  - reflexivity.
Qed.

Lemma iter_shr_1_m (k : nat) (mrs : shr_record) :
  0 <= shr_m mrs ->
  shr_m (Nat.iter k shr_1 mrs) = shr_m mrs / 2 ^ Z.of_nat k.
Proof.
  intros Hm. induction k as [| k IH].
  - cbn. now rewrite Z.div_1_r.
  - change (Nat.iter (S k) shr_1 mrs) with (shr_1 (Nat.iter k shr_1 mrs)).
    rewrite shr_1_m.
    + rewrite IH, Nat2Z.inj_succ, Z.pow_succ_r by lia.
      rewrite Z.div_div by lia. f_equal. lia.
    + rewrite IH. apply Z.div_pos; lia.
Qed.

(** [shr] by [n] divides the mantissa by [2^n] and adds [n] to the
    exponent, and does nothing for [n <= 0]. *)
Lemma shr_spec (mrs : shr_record) (e n : Z) :
  0 <= shr_m mrs ->
  shr_m (fst (shr mrs e n)) = shr_m mrs / 2 ^ Z.max n 0
  /\ snd (shr mrs e n) = e + Z.max n 0.
Proof.
  intros Hm. destruct n as [| p | p]; cbn [shr fst snd Z.max].
  - rewrite Z.div_1_r. split; [reflexivity | lia].
  - rewrite iter_pos_nat, iter_shr_1_m by assumption.
    rewrite positive_nat_Z.
    replace (Z.max (Z.pos p) 0) with (Z.pos p) by lia. split; reflexivity.
  - replace (Z.max (Z.neg p) 0) with 0 by lia.
    rewrite Z.div_1_r. split; [reflexivity | lia].
Qed.

Lemma shr_record_of_loc_m (m : Z) (l : location) :
  shr_m (shr_record_of_loc m l) = m.
Proof. destruct l as [| []]; reflexivity. Qed.

Lemma round_nearest_even_bounds (m : Z) (l : location) :
  m <= round_nearest_even m l <= m + 1.
Proof.
  unfold round_nearest_even.
  destruct l as [| []]; try destruct (Z.even m); lia.
Qed.

Lemma div_pow2_lt (m k n : Z) :
  0 <= k -> 0 <= n -> 0 <= m < 2 ^ k ->
  0 <= m / 2 ^ n < 2 ^ Z.max (k - n) 0.
Proof.
  intros Hk Hn [Hm Hlt].
  assert (Hp : 0 < 2 ^ n) by (apply Z.pow_pos_nonneg; lia).
  split; [apply Z.div_pos; lia |].
  destruct (Z.le_gt_cases n k) as [Hle | Hgt].
  - replace (Z.max (k - n) 0) with (k - n) by lia.
    apply Z.div_lt_upper_bound; [lia |].
    rewrite <- Z.pow_add_r by lia. now replace (n + (k - n)) with k by lia.
  - replace (Z.max (k - n) 0) with 0 by lia.
    rewrite Z.div_small; [cbn; lia |].
    split; [lia |].
    apply Z.lt_le_trans with (2 ^ k); [lia |].
    apply Z.pow_le_mono_r; lia.
Qed.

(** Rounding a magnitude below [2^1023] never overflows. *)
Lemma binary_round_aux_finite (s : bool) (m e : Z) (l : location) (k : Z) :
  0 <= k -> 0 <= m < 2 ^ k -> k + e <= 1023 -> e <= 971 ->
  SF_finite (binary_round_aux prec emax s m e l).
Proof.
  intros Hk Hm Hke He.
  unfold binary_round_aux, shr_fexp.
  pose proof (@Zdigits2_le m k Hk Hm) as Hd.
  pose proof (@Zdigits2_nonneg m ltac:(lia)) as Hd0.
  set (n1 := fexp prec emax (Zdigits2 m + e) - e).
  assert (Hn1 : e + Z.max n1 0 <= 971 /\ (0 < n1 -> e + n1 <= 970)).
  { unfold n1, fexp, emin, prec, emax. lia. }
  destruct (@shr_spec (shr_record_of_loc m l) e n1
              ltac:(rewrite shr_record_of_loc_m; lia)) as [Hm1 He1].
  rewrite shr_record_of_loc_m in Hm1.
  destruct (shr (shr_record_of_loc m l) e n1) as [mrs' e'].
  cbn [fst snd] in Hm1, He1.
  pose proof (@div_pow2_lt m k (Z.max n1 0) Hk ltac:(lia) Hm) as Hb1.
  rewrite <- Hm1 in Hb1.
  pose proof (@round_nearest_even_bounds (shr_m mrs') (loc_of_shr_record mrs'))
    as Hr.
  set (m1 := round_nearest_even (shr_m mrs') (loc_of_shr_record mrs')) in *.
  set (k1 := Z.max (k - Z.max n1 0) 0) in *.
  assert (Hm1b : 0 <= m1 < 2 ^ (k1 + 1)).
  { rewrite Z.pow_add_r, Z.pow_1_r by lia. lia. }
  pose proof (@Zdigits2_le m1 (k1 + 1) ltac:(lia) Hm1b) as Hd1.
  set (n2 := fexp prec emax (Zdigits2 m1 + e') - e').
  assert (Hn2 : e' + Z.max n2 0 <= 971).
  { assert (Zdigits2 m1 + e' <= 1024) by lia.
    pose proof (@fexp_le _ H). lia. }
  destruct (@shr_spec (shr_record_of_loc m1 loc_Exact) e' n2
              ltac:(cbn; lia)) as [Hm2 He2].
  destruct (shr (shr_record_of_loc m1 loc_Exact) e' n2) as [mrs'' e''].
  cbn [fst snd shr_record_of_loc shr_m] in Hm2, He2.
  assert (H2 : 0 <= shr_m mrs'').
  { rewrite Hm2. apply Z.div_pos; [lia |]. apply Z.pow_pos_nonneg; lia. }
  destruct (shr_m mrs'') as [| q | q]; [exact I | | lia].
  destruct (Z.leb_spec e'' (emax - prec)) as [_ | Hover]; [exact I |].
  unfold emax, prec in Hover. lia.
Qed.

(** ** Integers and hundredths *)

Lemma Zpos_iter_xO (p d : positive) :
  Z.pos (Pos.iter xO p d) = Z.pos p * 2 ^ Z.pos d.
Proof.
  induction d as [| d IH] using Pos.peano_ind.
  - cbn [Pos.iter]. change (Z.pos p~0) with (2 * Z.pos p). lia.
  - rewrite Pos.iter_succ, Pos2Z.inj_succ, Z.pow_succ_r by lia.
    change (Z.pos (Pos.iter xO p d)~0) with (2 * Z.pos (Pos.iter xO p d)).
    rewrite IH. lia.
Qed.

Lemma binary_normalize_finite (z : Z) :
  0 <= z <= 2 ^ 53 -> SF_finite (binary_normalize prec emax z 0 false).
Proof.
  intros Hz. destruct z as [| p | p]; [exact I | | lia].
  unfold binary_normalize, binary_round, shl_align.
  pose proof (@Zdigits2_le (Z.pos p) 54 ltac:(lia) ltac:(lia)) as Hd.
  cbn [Zdigits2] in Hd.
  set (f := fexp prec emax (Z.pos (digits2_pos p) + 0)).
  assert (Hf : -52 <= f <= 1) by (unfold f, fexp, emin, prec, emax; lia).
  destruct (f - 0) as [| q | q] eqn:Hq.
  - apply binary_round_aux_finite with 54; lia.
  - apply binary_round_aux_finite with 54; lia.
  - apply binary_round_aux_finite with (54 + Z.pos q); try lia.
    rewrite Zpos_iter_xO. rewrite Z.pow_add_r by lia.
    assert (0 < 2 ^ Z.pos q) by (apply Z.pow_pos_nonneg; lia).
    split; [lia |]. apply Z.mul_lt_mono_pos_r; lia.
Qed.

Lemma SF_finite_is_finite (x : float) :
  SF_finite (Prim2SF x) -> PrimFloat.is_finite x = true.
Proof. intros H. apply is_finite_spec. unfold SF_finite in H. exact H. Qed.

Lemma float_of_Z_finite (k : Z) :
  Z.abs k <= 2 ^ 53 -> PrimFloat.is_finite (float_of_Z k) = true.
Proof.
  intros Hk. apply SF_finite_is_finite. unfold float_of_Z.
  assert (Hspec : forall z, 0 <= z <= 2 ^ 53 ->
            SF_finite (Prim2SF (PrimFloat.of_uint63 (Uint63.of_Z z)))).
  { intros z Hz. rewrite FloatAxioms.of_uint63_spec, Uint63.of_Z_spec.
    rewrite Z.mod_small by (unfold Uint63.wB, Uint63.size; cbn; lia).
    now apply binary_normalize_finite. }
  destruct (Z.ltb_spec k 0).
  - rewrite FloatAxioms.opp_spec. specialize (Hspec (- k) ltac:(lia)).
    destruct (Prim2SF _); cbn in *; tauto.
  - apply Hspec. lia.
Qed.

Lemma shifted_mantissa (m1 : positive) (s : Z) :
  0 <= s ->
  match s with
  | Z.pos _ => Z.shiftl (Z.pos m1) s
  | 0 => Z.pos m1
  | Z.neg _ => 0
  end = Z.pos m1 * 2 ^ s.
Proof.
  intros Hs. destruct s as [| p | p]; [cbn; lia | | lia].
  now rewrite Z.shiftl_mul_pow2 by lia.
Qed.

(** A hundredth of a finite number is finite. *)
Lemma float_div_100_finite (x : float) :
  PrimFloat.is_finite x = true ->
  PrimFloat.is_finite (x / float_of_Z 100)%float = true.
Proof.
  intros F. apply is_finite_spec in F. apply SF_finite_is_finite.
  rewrite FloatAxioms.div_spec.
  change (Prim2SF (float_of_Z 100))
    with (S754_finite false 7036874417766400 (-46)).
  pose proof (Prim2SF_valid x) as V.
  destruct (Prim2SF x) as [s | s | | s m1 e1]; try contradiction;
    [exact I |].
  cbn [valid_binary] in V. destruct (@canonical_fexp m1 e1 V) as [Hc He].
  unfold SF64div, SFdiv, SFdiv_core_binary.
  cbn [Zdigits2]. change (Z.pos (digits2_pos 7036874417766400) + -46) with 7.
  pose proof (@Zdigits2_gt (Z.pos m1) ltac:(lia)) as Hm1. cbn [Zdigits2] in Hm1.
  set (d1 := Z.pos (digits2_pos m1)) in *.
  assert (Hd1 : 1 <= d1 /\ d1 + e1 <= 1024)
    by (unfold d1, fexp, emin, prec, emax in *; lia).
  set (e' := Z.min (fexp prec emax (d1 + e1 - 7)) (e1 - -46)).
  assert (He' : e' <= 964 /\ e' <= e1 + 46)
    by (unfold e', fexp, emin, prec, emax; lia).
  set (s' := e1 - -46 - e').
  assert (Hs' : 0 <= s') by (unfold s'; lia).
  rewrite (@shifted_mantissa m1 s' Hs').
  set (m' := Z.pos m1 * 2 ^ s').
  assert (Hm' : 0 <= m' < 2 ^ (d1 + s')).
  { unfold m'. rewrite Z.pow_add_r by lia.
    assert (0 < 2 ^ s') by (apply Z.pow_pos_nonneg; lia).
    split; [lia |]. apply Z.mul_lt_mono_pos_r; lia. }
  assert (Hq : Z.div_eucl m' 7036874417766400
               = (m' / 7036874417766400, m' mod 7036874417766400)).
  { unfold Z.div, Z.modulo. now destruct (Z.div_eucl m' 7036874417766400). }
  rewrite Hq.
  set (k := Z.max (d1 + s' - 52) 0).
  apply binary_round_aux_finite with k; try (unfold k, s' in *; lia).
  pose proof (@div_pow2_lt m' (d1 + s') 52 ltac:(lia) ltac:(lia) Hm') as Hb.
  fold k in Hb.
  split; [apply Z.div_pos; lia |].
  apply Z.le_lt_trans with (m' / 2 ^ 52); [| lia].
  apply Z.div_le_compat_l; lia.
Qed.

(** The two zeros are the numbers whose specification is a zero. *)
Lemma zero_cases (z : float) (s : bool) :
  Prim2SF z = S754_zero s -> z = 0%float \/ z = (-0)%float.
Proof.
  intros H. rewrite <- (SF2Prim_Prim2SF z), H.
  destruct s; [right | left]; reflexivity.
Qed.

(** Binary64 with a host [Math.pow] and [Math.exp] that answer 1 at an
    exponent or argument of zero, as ECMA-262 has them do. *)
Lemma Float64_IEEE754 (pow : float -> float -> float)
    (exp : float -> float) :
  (forall b, pow b 0%float = 1%float /\ pow b (-0)%float = 1%float) ->
  exp 0%float = 1%float /\ exp (-0)%float = 1%float ->
  IEEE754 (Float64 pow exp).
Proof.
  intros Hpow Hexp. split; cbn [num of_Z num_div num_mul num_sub Math_pow
                               Math_exp isFinite Float64].
  - exact float_div_1_r.
  - exact float_mul_1_l.
  - exact float_mul_1_r.
  - exact float_sub_diag.
  - intros b x Hx. destruct (@float_mul_0_r x Hx) as [s Hs].
    change (float_of_Z 0) with 0%float.
    destruct (@zero_cases _ _ Hs) as [-> | ->]; apply Hpow.
  - intros x Hx. destruct (@float_mul_0_r x Hx) as [s Hs].
    change (float_of_Z 0) with 0%float.
    destruct (@zero_cases _ _ Hs) as [-> | ->]; apply Hexp.
  - exact float_of_Z_finite.
  - exact float_div_100_finite.
Qed.

Lemma Float64_at_zero_IEEE754 : IEEE754 Float64_at_zero.
Proof. apply Float64_IEEE754; [intros b |]; split; reflexivity. Qed.


(* ================================================================== *)
(** * Whole numbers on binary64 *)

(** A number that is not [<= 0]: [NaN], [+Infinity], or positive. *)
Lemma leb_zero_false (x : float) :
  PrimFloat.leb x 0 = false ->
  Prim2SF x = S754_nan \/ Prim2SF x = S754_infinity false
  \/ exists m e, Prim2SF x = S754_finite false m e.
Proof.
  rewrite FloatAxioms.leb_spec.
  change (Prim2SF 0) with (S754_zero false).
  destruct (Prim2SF x) as [s | [] | | [] m e]; cbn; try discriminate; eauto.
Qed.

Lemma digits2_pos_bounds (p : positive) :
  2 ^ (Z.pos (digits2_pos p) - 1) <= Z.pos p < 2 ^ Z.pos (digits2_pos p).
Proof.
  rewrite digits2_pos_size.
  pose proof (Pos.size_gt p) as Hgt. pose proof (Pos.size_le p) as Hle.
  apply Pos2Z.pos_lt_pos in Hgt. apply Pos2Z.pos_le_pos in Hle.
  rewrite Pos2Z.inj_pow in Hgt, Hle.
  change (Z.pos p~0) with (2 * Z.pos p) in Hle.
  replace (Z.pos (Pos.size p)) with (Z.succ (Z.pos (Pos.size p) - 1)) in Hle
    by lia.
  rewrite Z.pow_succ_r in Hle by lia. lia.
Qed.

Lemma digits2_pos_unique (p : positive) (d : Z) :
  2 ^ (d - 1) <= Z.pos p < 2 ^ d -> Z.pos (digits2_pos p) = d.
Proof.
  intros [Hlo Hhi]. pose proof (digits2_pos_bounds p) as [Blo Bhi].
  set (k := Z.pos (digits2_pos p)) in *.
  assert (Hk : 0 < k) by (unfold k; lia).
  assert (Hd : 0 < d).
  { destruct (Z.lt_trichotomy d 0) as [Hneg | [-> | Hpos]];
      [| cbn in Hhi; lia | exact Hpos].
    rewrite (Z.pow_neg_r 2 d) in Hhi by lia. lia. }
  destruct (Z.lt_trichotomy k d) as [Hlt | [Heq | Hgt]]; [| exact Heq |].
  - assert (2 ^ k <= 2 ^ (d - 1)) by (apply Z.pow_le_mono_r; lia). lia.
  - assert (2 ^ d <= 2 ^ (k - 1)) by (apply Z.pow_le_mono_r; lia). lia.
Qed.

(** The digits of a mantissa shifted left. *)
Lemma digits2_pos_shift (p q : positive) (k : Z) :
  0 <= k -> Z.pos q = Z.pos p * 2 ^ k ->
  Z.pos (digits2_pos q) = Z.pos (digits2_pos p) + k.
Proof.
  intros Hk Hq. apply digits2_pos_unique.
  pose proof (digits2_pos_bounds p) as [Blo Bhi].
  rewrite Hq.
  replace (Z.pos (digits2_pos p) + k - 1)
    with (Z.pos (digits2_pos p) - 1 + k) by lia.
  rewrite !Z.pow_add_r by lia.
  assert (0 < 2 ^ k) by (apply Z.pow_pos_nonneg; lia).
  split; [apply Z.mul_le_mono_nonneg_r; lia | apply Z.mul_lt_mono_pos_r; lia].
Qed.

(** Shifting right what was shifted left loses nothing. *)
Lemma iter_shr_1_exact (n : nat) (m : positive) (q : positive) :
  Z.pos q = Z.pos m * 2 ^ Z.of_nat n ->
  Nat.iter n shr_1 {| shr_m := Z.pos q; shr_r := false; shr_s := false |}
  = {| shr_m := Z.pos m; shr_r := false; shr_s := false |}.
Proof.
  revert m q. induction n as [| n IH]; intros m q Hq.
  - cbn [Nat.iter]. change (2 ^ Z.of_nat 0) with 1 in Hq.
    rewrite Z.mul_1_r in Hq. now injection Hq as ->.
  - change (Nat.iter (S n) shr_1 ?x) with (shr_1 (Nat.iter n shr_1 x)).
    rewrite (IH (m~0)%positive q).
    + reflexivity.
    + rewrite Hq, Nat2Z.inj_succ, Z.pow_succ_r by lia.
      change (Z.pos m~0) with (2 * Z.pos m). lia.
Qed.

(** A canonical mantissa shifted left by [k], with the exponent lowered by
    [k], rounds back to the canonical number. *)
Lemma binary_round_aux_shifted (s : bool) (m q : positive) (e k : Z) :
  SpecFloat.bounded prec emax m e = true ->
  0 <= k -> Z.pos q = Z.pos m * 2 ^ k ->
  binary_round_aux prec emax s (Z.pos q) (e - k) loc_Exact
  = S754_finite s m e.
Proof.
  intros V Hk Hq. destruct (@canonical_fexp m e V) as [Hc He].
  destruct k as [| kp | kp]; [| | lia].
  - assert (q = m) by (cbn in Hq; lia). subst q.
    rewrite Z.sub_0_r. now apply binary_round_aux_canonical.
  - unfold binary_round_aux, shr_fexp.
    cbn [Zdigits2].
    rewrite (@digits2_pos_shift m q (Z.pos kp) ltac:(lia) Hq).
    replace (Z.pos (digits2_pos m) + Z.pos kp + (e - Z.pos kp))
      with (Z.pos (digits2_pos m) + e) by lia.
    rewrite Hc. replace (e - (e - Z.pos kp)) with (Z.pos kp) by lia.
    cbn [shr shr_record_of_loc].
    rewrite iter_pos_nat.
    rewrite (@iter_shr_1_exact (Pos.to_nat kp) m q)
      by (now rewrite positive_nat_Z).
    cbn [shr_m loc_of_shr_record round_nearest_even].
    replace (e - Z.pos kp + Z.pos kp) with e by lia.
    cbn [Zdigits2]. rewrite Hc, Z.sub_diag. cbn [shr shr_m].
    apply Z.leb_le in He. now rewrite He.
Qed.

(** The integer that a positive integral number is converts back to the
    number. *)
Lemma binary_normalize_integer (m : positive) (e : Z) :
  SpecFloat.bounded prec emax m e = true ->
  (if 0 <=? e then true else Z.pos m mod 2 ^ (- e) =? 0) = true ->
  binary_normalize prec emax
    (if 0 <=? e then Z.pos m * 2 ^ e else Z.pos m / 2 ^ (- e)) 0 false
  = S754_finite false m e
  /\ 1 <= (if 0 <=? e then Z.pos m * 2 ^ e else Z.pos m / 2 ^ (- e)).
Proof.
  intros V Hint. destruct (@canonical_fexp m e V) as [Hc He].
  destruct (Z.leb_spec 0 e) as [Hpos | Hneg].
  - assert (H2 : 0 < 2 ^ e) by (apply Z.pow_pos_nonneg; lia).
    destruct (Z.pos m * 2 ^ e) as [| q | q] eqn:Hq; try lia.
    split; [| lia].
    unfold binary_normalize, binary_round, shl_align.
    rewrite Z.add_0_r, Z.sub_0_r.
    symmetry in Hq.
    rewrite (@digits2_pos_shift m q e Hpos Hq), Hc.
    replace (match e with Z.neg d => (Pos.iter xO q d, e) | _ => (q, 0) end)
      with (q, 0) by (destruct e; [reflexivity | reflexivity | lia]).
    replace 0 with (e - e) at 1 by lia.
    now apply binary_round_aux_shifted.
  - apply Z.eqb_eq in Hint.
    assert (H2 : 0 < 2 ^ (- e)) by (apply Z.pow_pos_nonneg; lia).
    assert (Hm : Z.pos m = Z.pos m / 2 ^ (- e) * 2 ^ (- e)).
    { pose proof (Z.div_mod (Z.pos m) (2 ^ (- e)) ltac:(lia)). lia. }
    destruct (Z.pos m / 2 ^ (- e)) as [| q | q] eqn:Hq; try lia.
    split; [| lia].
    unfold binary_normalize, binary_round, shl_align.
    rewrite Z.add_0_r, Z.sub_0_r.
    assert (Hd : Z.pos (digits2_pos q) = Z.pos (digits2_pos m) + e).
    { pose proof (@digits2_pos_shift q m (- e) ltac:(lia) Hm). lia. }
    rewrite Hd, Hc.
    destruct e as [| ep | ep]; try lia.
    assert (Pos.iter xO q ep = m) as ->.
    { apply Pos2Z.inj. rewrite Zpos_iter_xO.
      change (- Z.neg ep) with (Z.pos ep) in Hm. lia. }
    now apply binary_round_aux_canonical.
Qed.

(** A validated time is a whole number of years, at least one: the number
    is the double of its integer. *)
Lemma float_of_integer_value (t : float) :
  PrimFloat.leb t 0 = false -> Number_isInteger t = true ->
  integer_value t < 2 ^ 63 ->
  1 <= integer_value t /\ float_of_Z (integer_value t) = t.
Proof.
  intros Hle Hint Hlt.
  pose proof (Prim2SF_valid t) as V.
  unfold Number_isInteger in Hint. unfold integer_value in *.
  destruct (@leb_zero_false t Hle) as [E | [E | (m & e & E)]];
    rewrite E in *; try discriminate.
  cbn [valid_binary cond_Zopp] in *.
  destruct (@binary_normalize_integer m e V Hint) as [Hn H1].
  split; [exact H1 |].
  apply Prim2SF_inj. rewrite E. unfold float_of_Z.
  destruct (Z.ltb_spec
              (if 0 <=? e then Z.pos m * 2 ^ e else Z.pos m / 2 ^ (- e)) 0);
    [lia |].
  rewrite FloatAxioms.of_uint63_spec, Uint63.of_Z_spec.
  rewrite Z.mod_small; [exact Hn |].
  split; [lia |]. exact Hlt.
Qed.

(** Every whole number from 1 to below 2^53 is a number that passes the
    test of the time field, and it is its own integer. *)
Lemma integer_value_of_Z (n : Z) :
  1 <= n < 2 ^ 53 ->
  PrimFloat.leb (float_of_Z n) 0 = false
  /\ Number_isInteger (float_of_Z n) = true
  /\ integer_value (float_of_Z n) = n.
Proof.
  intros Hn.
  assert (Hspec : exists m e,
            Prim2SF (float_of_Z n) = S754_finite false m e
            /\ (if 0 <=? e then true else Z.pos m mod 2 ^ (- e) =? 0) = true
            /\ (if 0 <=? e then Z.pos m * 2 ^ e else Z.pos m / 2 ^ (- e))
               = n).
  { unfold float_of_Z. destruct (Z.ltb_spec n 0); [lia |].
    rewrite FloatAxioms.of_uint63_spec, Uint63.of_Z_spec.
    rewrite Z.mod_small
      by (unfold Uint63.wB, Uint63.size;
          assert (2 ^ 53 < 2 ^ Z.of_nat 63) by (cbn; lia); lia).
    destruct n as [| p | p]; try lia.
    unfold binary_normalize, binary_round, shl_align.
    rewrite Z.add_0_r, Z.sub_0_r.
    pose proof (digits2_pos_bounds p) as [Blo Bhi].
    set (d := Z.pos (digits2_pos p)) in *.
    assert (Hd : 1 <= d <= 53).
    { split; [unfold d; lia |].
      destruct (Z.leb_spec d 53); [assumption |].
      assert (2 ^ 53 <= 2 ^ (d - 1)) by (apply Z.pow_le_mono_r; lia). lia. }
    assert (Hf : fexp prec emax d = d - 53)
      by (unfold fexp, emin, prec, emax; lia).
    rewrite Hf.
    destruct (d - 53) as [| k | k] eqn:Hk; try lia.
    - assert (V : SpecFloat.bounded prec emax p 0 = true).
      { unfold SpecFloat.bounded, canonical_mantissa.
        fold d. rewrite Z.add_0_r, Hf. reflexivity. }
      rewrite (@binary_round_aux_canonical false _ _ V).
      exists p, 0. split; [reflexivity |]. split; [reflexivity |].
      cbn. lia.
    - set (q := Pos.iter xO p k).
      assert (Hq : Z.pos q = Z.pos p * 2 ^ Z.pos k)
        by apply Zpos_iter_xO.
      assert (Hdq : Z.pos (digits2_pos q) = 53).
      { rewrite (@digits2_pos_shift p q (Z.pos k) ltac:(lia) Hq).
        fold d. lia. }
      assert (V : SpecFloat.bounded prec emax q (Z.neg k) = true).
      { unfold SpecFloat.bounded, canonical_mantissa. rewrite Hdq.
        apply andb_true_intro. split.
        - apply Z.eqb_eq. unfold fexp, emin, prec, emax. lia.
        - apply Z.leb_le. unfold prec, emax. lia. }
      rewrite (@binary_round_aux_canonical false _ _ V).
      exists q, (Z.neg k). split; [reflexivity |].
      change (0 <=? Z.neg k) with false. cbn iota.
      change (- Z.neg k) with (Z.pos k). rewrite Hq.
      assert (0 < 2 ^ Z.pos k) by (apply Z.pow_pos_nonneg; lia).
      split.
      + apply Z.eqb_eq. apply Z.mod_mul. lia.
      + apply Z.div_mul. lia. }
  destruct Hspec as (m & e & E & Hint & Hval).
  unfold Number_isInteger, integer_value.
  rewrite FloatAxioms.leb_spec, E.
  cbn [cond_Zopp]. repeat split; assumption.
Qed.

Lemma integer_value_positive (t : float) :
  PrimFloat.leb t 0 = false -> Number_isInteger t = true ->
  1 <= integer_value t.
Proof.
  intros Hle Hint.
  pose proof (Prim2SF_valid t) as V.
  unfold Number_isInteger in Hint. unfold integer_value.
  destruct (@leb_zero_false t Hle) as [E | [E | (m & e & E)]];
    rewrite E in *; try discriminate.
  cbn [valid_binary cond_Zopp] in *.
  now destruct (@binary_normalize_integer m e V Hint).
Qed.

(** A number that is neither [<= 0] nor [NaN] is positive. *)
Lemma ltb_zero_of_leb (x : float) :
  PrimFloat.leb x 0 = false -> PrimFloat.is_nan x = false ->
  PrimFloat.ltb 0 x = true.
Proof.
  intros Hle Hnan.
  rewrite FloatAxioms.ltb_spec.
  change (Prim2SF 0) with (S754_zero false).
  destruct (@leb_zero_false x Hle) as [E | [E | (m & e & E)]];
    rewrite E; try reflexivity.
  exfalso.
  assert (Hx : x = nan).
  { apply Prim2SF_inj. rewrite E. reflexivity. }
  subst x. discriminate Hnan.
Qed.

(** On binary64 JSON text keeps every finite number but the negative zero,
    which it keeps as [0]. *)
Lemma JSON_number_binary64 (pow : float -> float -> float)
    (exp : float -> float) (x : float) :
  @JSON_number (Float64 pow exp) x = number_kept x.
Proof.
  unfold JSON_number, number_kept, is_negative_zero.
  cbn [num_eqb of_Z Float64].
  change (float_of_Z 0) with 0%float.
  rewrite FloatAxioms.eqb_spec.
  change (Prim2SF 0) with (S754_zero false).
  destruct (Prim2SF x) as [[|] | s | | s m e] eqn:Hx; try reflexivity.
  - cbn. rewrite <- (SF2Prim_Prim2SF x), Hx. reflexivity.
  - now destruct s.
  - now destruct s.
Qed.
(* ================================================================== *)
(** * The calendar *)

Section Calendar.

Import JSDate.

Lemma DaysInYear_cases y : DaysInYear y = 365 \/ DaysInYear y = 366.
Proof.
  unfold DaysInYear.
  repeat match goal with |- context [if ?b then _ else _] => destruct b end;
    auto.
Qed.

Lemma DayFromYear_succ y : DayFromYear (y + 1) = DayFromYear y + DaysInYear y.
Proof.
  unfold DayFromYear, DaysInYear.
  repeat match goal with
         | |- context [negb (?a =? ?b)] =>
             destruct (Z.eqb_spec a b); cbn [negb]
         end.
  all: Z.div_mod_to_equations; lia.
Qed.

Lemma YearFromDay_bounds d :
  DayFromYear (YearFromDay d) <= d < DayFromYear (YearFromDay d + 1).
Proof.
  unfold YearFromDay.
  set (y := 1970 + 400 * d / 146097).
  assert (Hlo : DayFromYear (y - 1) <= d)
    by (unfold DayFromYear, y; Z.div_mod_to_equations; lia).
  assert (Hhi : d < DayFromYear (y + 2))
    by (unfold DayFromYear, y; Z.div_mod_to_equations; lia).
  destruct (Z.ltb_spec d (DayFromYear y)).
  - replace (y - 1 + 1) with y by lia. lia.
  - destruct (Z.leb_spec (DayFromYear (y + 1)) d).
    + replace (y + 1 + 1) with (y + 2) by lia. lia.
    + lia.
Qed.

Lemma DayFromYear_mono a b : a <= b -> DayFromYear a <= DayFromYear b.
Proof. unfold DayFromYear. intros. Z.div_mod_to_equations. lia. Qed.

Lemma YearFromDay_unique y d :
  DayFromYear y <= d < DayFromYear (y + 1) -> YearFromDay d = y.
Proof.
  intros H. pose proof (YearFromDay_bounds d) as B.
  set (z := YearFromDay d) in *.
  destruct (Z.lt_trichotomy z y) as [L | [E | G]]; [ | exact E | ].
  - pose proof (@DayFromYear_mono (z + 1) y ltac:(lia)). lia.
  - pose proof (@DayFromYear_mono (y + 1) z ltac:(lia)). lia.
Qed.


Lemma month_start_bound y m dd :
  0 <= m <= 11 -> 1 <= dd <= DaysInMonth (DaysInYear y) m ->
  0 <= month_start (LeapYear y) m + dd - 1 < DaysInYear y.
Proof.
  intros Hm Hd. unfold LeapYear in *.
  assert (E : m = 0 \/ m = 1 \/ m = 2 \/ m = 3 \/ m = 4 \/ m = 5 \/ m = 6
              \/ m = 7 \/ m = 8 \/ m = 9 \/ m = 10 \/ m = 11) by lia.
  destruct (DaysInYear_cases y) as [D | D]; rewrite D in *;
  repeat destruct E as [-> | E]; try subst m;
  cbv beta iota delta [month_start DaysInMonth Z.eqb Pos.eqb] in *; lia.
Qed.

(** Year, month and day of a day number put together from them. *)
Lemma fields_of_day (t y m dd : Z) :
  0 <= m <= 11 -> 1 <= dd <= DaysInMonth (DaysInYear y) m ->
  Day t = DayFromYear y + month_start (LeapYear y) m + dd - 1 ->
  YearFromTime t = y /\ MonthFromTime t = m /\ DateFromTime t = dd.
Proof.
  intros Hm Hd HDay.
  pose proof (month_start_bound y Hm Hd) as Hb.
  assert (Hy : YearFromTime t = y).
  { unfold YearFromTime. apply YearFromDay_unique.
    rewrite DayFromYear_succ. lia. }
  assert (Hw : DayWithinYear t = month_start (LeapYear y) m + dd - 1)
    by (unfold DayWithinYear; rewrite Hy; lia).
  assert (Hl : InLeapYear t = LeapYear y)
    by (unfold InLeapYear; now rewrite Hy).
  split; [exact Hy |].
  unfold DateFromTime, MonthFromTime. rewrite Hw, Hl.
  unfold LeapYear in *.
  assert (E : m = 0 \/ m = 1 \/ m = 2 \/ m = 3 \/ m = 4 \/ m = 5 \/ m = 6
              \/ m = 7 \/ m = 8 \/ m = 9 \/ m = 10 \/ m = 11) by lia.
  destruct (DaysInYear_cases y) as [D | D]; rewrite D in *;
  repeat destruct E as [-> | E]; try subst m;
  cbv beta iota delta [month_start DaysInMonth Z.eqb Pos.eqb] in *;
  repeat match goal with
         | |- context [?a <? ?b] => destruct (Z.ltb_spec a b); try lia
         end;
  cbv beta iota delta [month_start]; lia.
Qed.

(** Every time value decomposes into its year, month and day. *)
Lemma day_of_fields (t : Z) :
  0 <= MonthFromTime t <= 11
  /\ 1 <= DateFromTime t
       <= DaysInMonth (DaysInYear (YearFromTime t)) (MonthFromTime t)
  /\ Day t = DayFromYear (YearFromTime t)
             + month_start (LeapYear (YearFromTime t)) (MonthFromTime t)
             + DateFromTime t - 1.
Proof.
  pose proof (YearFromDay_bounds (Day t)) as B.
  fold (YearFromTime t) in B. rewrite DayFromYear_succ in B.
  unfold DateFromTime, MonthFromTime, InLeapYear, LeapYear, DayWithinYear.
  set (y := YearFromTime t) in *.
  set (w := Day t - DayFromYear y).
  assert (Hw : 0 <= w < DaysInYear y) by (unfold w; lia).
  assert (HD : Day t = DayFromYear y + w) by (unfold w; lia).
  rewrite HD. clearbody w. clear HD B.
  destruct (DaysInYear_cases y) as [D | D]; rewrite D in *;
  cbv beta iota delta [Z.eqb Pos.eqb];
  repeat match goal with
         | |- context [?a <? ?b] => destruct (Z.ltb_spec a b)
         end;
  cbv beta iota delta [month_start DaysInMonth Z.eqb Pos.eqb]; lia.
Qed.

Lemma TimeWithinDay_range t : 0 <= TimeWithinDay t < msPerDay.
Proof. unfold TimeWithinDay, msPerDay. apply Z.mod_pos_bound. lia. Qed.

Lemma Day_MakeDate day tod :
  0 <= tod < msPerDay -> Day (MakeDate day tod) = day.
Proof.
  unfold Day, MakeDate, msPerDay. intros H.
  Z.div_mod_to_equations. lia.
Qed.

Lemma DayFromYear_range y :
  0 <= y <= 9999 -> -719528 <= DayFromYear y <= 2932896.
Proof. unfold DayFromYear. intros H. Z.div_mod_to_equations. lia. Qed.

Lemma month_start_range l m :
  0 <= l <= 1 -> 0 <= m <= 11 -> 0 <= month_start l m <= 335.
Proof.
  intros Hl Hm. month_cases m; cbv beta iota delta [month_start]; lia.
Qed.

Lemma LeapYear_range y : 0 <= LeapYear y <= 1.
Proof. unfold LeapYear. destruct (DaysInYear y =? 366); lia. Qed.

Lemma DaysInMonth_range D m : 28 <= DaysInMonth D m <= 31.
Proof.
  unfold DaysInMonth.
  repeat match goal with
         | |- context [match ?x with _ => _ end] => destruct x
         end; lia.
Qed.

(** The one day that a year may lack: 29 February. *)
Lemma day_missing D D' m dd :
  D = 365 \/ D = 366 -> 0 <= m <= 11 ->
  1 <= dd <= DaysInMonth D' m -> DaysInMonth D m < dd ->
  m = 1 /\ dd = 29 /\ D = 365.
Proof.
  intros HD Hm Hd Hover.
  month_cases m;
    cbv beta iota delta [DaysInMonth] in Hd, Hover;
    destruct (D' =? 366); destruct HD as [-> | ->];
    cbv beta iota delta [Z.eqb Pos.eqb] in Hover; lia.
Qed.

Lemma lacks_app c s1 s2 : lacks c s1 -> lacks c s2 -> lacks c (s1 ++ s2).
Proof.
  induction s1 as [| a s1 IH]; cbn; [auto |].
  intros [Ha Hs] H2. split; auto.
Qed.

Lemma split_first_app c s1 s2 :
  lacks c s1 -> split_first c (s1 ++ String c s2) = s1.
Proof.
  induction s1 as [| a s1 IH]; cbn.
  - intros _. now rewrite Ascii.eqb_refl.
  - intros [Ha Hs]. destruct (Ascii.eqb_spec a c); [contradiction |].
    now rewrite IH.
Qed.

Lemma digit_char_not_T (d : Z) : digit_char d <> "T"%char.
Proof.
  destruct d as [| q | q]; try discriminate.
  do 6 (try (destruct q as [q | q |])); discriminate.
Qed.

Lemma pad_radix_lacks_T radix width n : lacks "T" (pad_radix radix width n).
Proof.
  revert n. induction width as [| w IH]; intros n; cbn [pad_radix].
  - exact I.
  - apply lacks_app; [apply IH |]. cbn. split; [apply digit_char_not_T | exact I].
Qed.

Lemma iso_year_lacks_T y : lacks "T" (iso_year y).
Proof.
  unfold iso_year. destruct (_ && _).
  - apply pad_radix_lacks_T.
  - split; [destruct (y <? 0); discriminate | apply pad_radix_lacks_T].
Qed.

Lemma iso_date_lacks_T y m d : lacks "T" (iso_date y m d).
Proof.
  unfold iso_date.
  repeat first
    [ apply iso_year_lacks_T
    | apply pad_radix_lacks_T
    | apply lacks_app
    | split; [discriminate | exact I] ].
Qed.

Section UTCHost.

(** A host whose local time is UTC. *)
Variable LocalTZA : Z -> bool -> Z.
Hypothesis LocalTZA_zero : forall t b, LocalTZA t b = 0.

(** [setFullYear] on a valid date keeps month and day when the day exists
    in the new year, and turns 29 February into 1 March when it does not. *)
Lemma setFullYear_UTC (t y : Z) :
  0 <= y <= 9999 ->
  exists t',
    DateValue (setFullYear LocalTZA (mkDate (Some t)) (Some y)) = Some t'
    /\ YearFromTime t' = y
    /\ (if DateFromTime t <=? DaysInMonth (DaysInYear y) (MonthFromTime t)
        then MonthFromTime t' = MonthFromTime t
             /\ DateFromTime t' = DateFromTime t
        else MonthFromTime t' = 2 /\ DateFromTime t' = 1).
Proof.
  intros Hy.
  destruct (day_of_fields t) as (Hm & Hd & _).
  unfold setFullYear, LocalTime, UTC. cbn [DateValue].
  rewrite !LocalTZA_zero, Z.add_0_r, Z.sub_0_r.
  revert Hm Hd. generalize (DateFromTime t) (MonthFromTime t).
  intros dd m Hm Hd.
  set (t' := MakeDate (MakeDay y m dd) (TimeWithinDay t)).
  pose proof (TimeWithinDay_range t) as Htod.
  assert (HDay : Day t' = MakeDay y m dd) by (apply Day_MakeDate; exact Htod).
  assert (HMake : MakeDay y m dd
                  = DayFromYear y + month_start (LeapYear y) m + dd - 1).
  { unfold MakeDay. rewrite Z.div_small, Z.mod_small by lia.
    now rewrite Z.add_0_r. }
  pose proof (DaysInMonth_range (DaysInYear (YearFromTime t)) m) as Hdim.
  pose proof (month_start_range (LeapYear_range y) Hm) as Hms.
  pose proof (DayFromYear_range Hy) as HDFY.
  exists t'. split.
  - unfold TimeClip.
    destruct (Z.leb_spec (Z.abs t') 8640000000000000) as [_ | Hbig];
      [reflexivity |].
    exfalso. unfold t', MakeDate in Hbig. rewrite HMake in Hbig.
    unfold msPerDay in *. lia.
  - destruct (Z.leb_spec dd (DaysInMonth (DaysInYear y) m)) as [Hfit | Hover].
    + rewrite HMake in HDay.
      destruct (@fields_of_day t' y m dd Hm ltac:(lia) HDay) as (A & B & C).
      auto.
    + destruct (@day_missing _ _ _ _ (DaysInYear_cases y) Hm Hd Hover)
        as (-> & -> & D).
      assert (HDay' : Day t' = DayFromYear y + month_start (LeapYear y) 2
                               + 1 - 1).
      { rewrite HDay, HMake. unfold LeapYear. rewrite D.
        cbv beta iota delta [month_start Z.eqb Pos.eqb]. lia. }
      destruct (@fields_of_day t' y 2 1 ltac:(lia)
                  ltac:(cbv beta iota delta [DaysInMonth]; lia) HDay')
        as (A & B & C).
      auto.
Qed.

(** The row date: the same day [k] years later, and 1 March for a
    29 February that the later year lacks. *)
Lemma date_of_year_UTC (t k : Z) :
  0 <= YearFromTime t + k <= 9999 ->
  date_of_year LocalTZA (mkDate (Some t)) k
  = Return
      (if DateFromTime t
          <=? DaysInMonth (DaysInYear (YearFromTime t + k)) (MonthFromTime t)
       then same_day_years_later t k
       else iso_date (YearFromTime t + k) 3 1).
Proof.
  intros Hy. unfold date_of_year, new_Date, getFullYear. cbn [DateValue option_map].
  unfold LocalTime at 1. rewrite LocalTZA_zero, Z.add_0_r.
  destruct (setFullYear_UTC t Hy) as (t' & Hv & HY & HMD).
  unfold toISOString. rewrite Hv. cbn [bind]. f_equal.
  rewrite HY.
  destruct (DateFromTime t <=? _); destruct HMD as [-> ->];
    cbn [String.append]; unfold same_day_years_later;
    apply split_first_app, iso_date_lacks_T.
Qed.

End UTCHost.

End Calendar.


(* ================================================================== *)
(** * Reading dates back: [Date.parse] on what [toISOString] writes *)

Lemma string_app_assoc (a b c : string) : (a ++ b) ++ c = a ++ (b ++ c).
Proof. induction a as [| x a IH]; cbn; [reflexivity | now rewrite IH]. Qed.

Lemma digit_value_digit_char (d : Z) :
  0 <= d <= 9 -> digit_value (digit_char d) = Some d.
Proof.
  intros H.
  assert (E : d = 0 \/ d = 1 \/ d = 2 \/ d = 3 \/ d = 4 \/ d = 5 \/ d = 6
              \/ d = 7 \/ d = 8 \/ d = 9) by lia.
  repeat destruct E as [-> | E]; try subst d; reflexivity.
Qed.

(** The digits of [pad_radix], first digit first. *)
Lemma pad_radix_head (radix : Z) (w : nat) (n : Z) :
  0 < radix ->
  pad_radix radix (S w) n
  = String (digit_char ((n / radix ^ Z.of_nat w) mod radix))
      (pad_radix radix w n).
Proof.
  intros Hr. revert n. induction w as [| w IH]; intros n.
  - cbn [pad_radix String.append Z.of_nat]. now rewrite Z.pow_0_r, Z.div_1_r.
  - change (pad_radix radix (S (S w)) n)
      with (pad_radix radix (S w) (n / radix)
            ++ String (digit_char (n mod radix)) EmptyString).
    rewrite IH. cbn [String.append]. f_equal.
    rewrite Nat2Z.inj_succ, Z.pow_succ_r by lia.
    rewrite Z.div_div by (try apply Z.pow_pos_nonneg; lia). reflexivity.
Qed.

Lemma take_digits_pad (w : nat) (n : Z) (rest : string) (acc : Z) :
  take_digits w (pad_radix 10 w n ++ rest) acc
  = Some (acc * 10 ^ Z.of_nat w + n mod 10 ^ Z.of_nat w, rest).
Proof.
  revert acc. induction w as [| w IH]; intros acc.
  - cbn [take_digits pad_radix String.append Z.of_nat].
    rewrite Z.pow_0_r, Z.mod_1_r. do 2 f_equal. lia.
  - rewrite pad_radix_head by lia. cbn [String.append take_digits].
    assert (Hd : 0 <= (n / 10 ^ Z.of_nat w) mod 10 <= 9)
      by (pose proof (Z.mod_pos_bound (n / 10 ^ Z.of_nat w) 10 ltac:(lia));
          lia).
    rewrite (digit_value_digit_char Hd), IH. do 2 f_equal.
    rewrite Nat2Z.inj_succ, Z.pow_succ_r by lia.
    assert (Hp : 0 < 10 ^ Z.of_nat w) by (apply Z.pow_pos_nonneg; lia).
    rewrite (Z.mul_comm 10 (10 ^ Z.of_nat w)).
    rewrite (Z.rem_mul_r n (10 ^ Z.of_nat w) 10) by lia.
    lia.
Qed.

Lemma parse_year_digit (s : string) (d : Z) (r : string) :
  s = String (digit_char d) r -> 0 <= d <= 9 ->
  parse_year s = take_digits 4 s 0.
Proof.
  intros -> H. unfold parse_year.
  assert (E : d = 0 \/ d = 1 \/ d = 2 \/ d = 3 \/ d = 4 \/ d = 5 \/ d = 6
              \/ d = 7 \/ d = 8 \/ d = 9) by lia.
  repeat destruct E as [-> | E]; try subst d; reflexivity.
Qed.

(** The year that [toISOString] writes is the year that is read. *)
Lemma parse_year_iso_year (y : Z) (rest : string) :
  -999999 <= y <= 999999 ->
  parse_year (JSDate.iso_year y ++ rest) = Some (y, rest).
Proof.
  intros Hy. unfold JSDate.iso_year.
  destruct (Z.leb_spec 0 y) as [H0 | H0];
    [destruct (Z.leb_spec y 9999) as [H1 | H1] |]; cbn [andb].
  - rewrite (@parse_year_digit (pad_radix 10 4 y ++ rest)
               ((y / 10 ^ Z.of_nat 3) mod 10)
               (pad_radix 10 3 y ++ rest)).
    + rewrite take_digits_pad. do 2 f_equal.
      rewrite Z.mod_small by (cbn; lia). lia.
    + now rewrite pad_radix_head by lia.
    + pose proof (Z.mod_pos_bound (y / 10 ^ Z.of_nat 3) 10 ltac:(lia)). lia.
  - destruct (Z.ltb_spec y 0); [lia |].
    cbn [String.append]. unfold parse_year.
    change (Ascii.eqb "+" "+") with true. cbn iota.
    rewrite take_digits_pad. do 2 f_equal.
    rewrite Z.mod_small by (cbn; lia). lia.
  - destruct (Z.ltb_spec y 0); [| lia].
    cbn [String.append]. unfold parse_year.
    change (Ascii.eqb "-" "+") with false.
    change (Ascii.eqb "-" "-") with true. cbn iota.
    rewrite take_digits_pad.
    rewrite Z.mod_small by (cbn; lia).
    destruct (Z.eqb_spec (0 * 10 ^ Z.of_nat 6 + Z.abs y) 0); [lia |].
    do 2 f_equal. lia.
Qed.

Lemma take_two_digits (n : Z) (rest : string) :
  0 <= n <= 99 ->
  take_digits 2 (pad_radix 10 2 n ++ rest) 0 = Some (n, rest).
Proof.
  intros H. rewrite take_digits_pad. do 2 f_equal.
  rewrite Z.mod_small by (cbn; lia). lia.
Qed.

Lemma take_three_digits (n : Z) (rest : string) :
  0 <= n <= 999 ->
  take_digits 3 (pad_radix 10 3 n ++ rest) 0 = Some (n, rest).
Proof.
  intros H. rewrite take_digits_pad. do 2 f_equal.
  rewrite Z.mod_small by (cbn; lia). lia.
Qed.

(** A time value a Date can hold lies in a year of at most six digits. *)
Lemma YearFromTime_range (t : Z) :
  Z.abs t <= 8640000000000000 ->
  -271821 <= JSDate.YearFromTime t <= 275760.
Proof.
  intros Ht.
  pose proof (YearFromDay_bounds (JSDate.Day t)) as B.
  fold (JSDate.YearFromTime t) in B.
  assert (HD : -100000000 <= JSDate.Day t <= 100000000)
    by (unfold JSDate.Day, JSDate.msPerDay; Z.div_mod_to_equations; lia).
  set (y := JSDate.YearFromTime t) in *.
  unfold JSDate.DayFromYear in B.
  Z.div_mod_to_equations. lia.
Qed.

(** Reading a date and a midnight (or nothing) after it. *)
Lemma parse_date_time_date (y m d : Z) (rest : string) :
  -999999 <= y <= 999999 -> 1 <= m <= 12 ->
  1 <= d <= DaysInMonth (JSDate.DaysInYear y) (m - 1) ->
  parse_date_time (JSDate.iso_date y m d ++ rest)
  = let day := JSDate.MakeDay y (m - 1) d in
    match rest with
    | EmptyString => Some (JSDate.MakeDate day 0)
    | _ =>
        (let? s := expect "T" rest in
         let? (hh, s) := take_digits 2 s 0 in
         let? s := expect ":" s in
         let? (mm, s) := take_digits 2 s 0 in
         let? s := expect ":" s in
         let? (ss, s) := take_digits 2 s 0 in
         let? s := expect "." s in
         let? (ms, s) := take_digits 3 s 0 in
         let? s := expect "Z" s in
         match s with
         | EmptyString =>
             if (hh <=? 23) && (mm <=? 59) && (ss <=? 59)
             then Some (JSDate.MakeDate day (MakeTime hh mm ss ms))
             else None
         | _ => None
         end)%option
    end.
Proof.
  intros Hy Hm Hd.
  pose proof (DaysInMonth_range (JSDate.DaysInYear y) (m - 1)) as Hdim.
  unfold parse_date_time, JSDate.iso_date.
  rewrite !string_app_assoc.
  rewrite parse_year_iso_year by exact Hy.
  cbn [and_then String.append expect].
  change (Ascii.eqb "-" "-") with true. cbn iota. cbn [and_then].
  rewrite take_two_digits by lia.
  cbn [and_then String.append expect].
  change (Ascii.eqb "-" "-") with true. cbn iota. cbn [and_then].
  rewrite take_two_digits by lia.
  cbn [and_then].
  destruct (Z.leb_spec 1 m); [| lia].
  destruct (Z.leb_spec m 12); [| lia].
  destruct (Z.leb_spec 1 d); [| lia].
  destruct (Z.leb_spec d (DaysInMonth (JSDate.DaysInYear y) (m - 1)));
    [| lia].
  reflexivity.
Qed.

Lemma string_app_nil_r (s : string) : s ++ "" = s.
Proof. induction s as [| c s IH]; cbn; [reflexivity | now rewrite IH]. Qed.

(** [Date.parse] reads back what [toISOString] writes. *)
Lemma parse_toISOString (t : Z) :
  Z.abs t <= 8640000000000000 ->
  exists s,
    JSDate.toISOString (JSDate.mkDate (Some t)) = Return s
    /\ parse_date_time s = Some t.
Proof.
  intros Ht. eexists. split; [reflexivity |].
  destruct (day_of_fields t) as (Hm & Hd & HDay).
  pose proof (YearFromTime_range t Ht) as Hy.
  rewrite parse_date_time_date;
    [| lia | lia | now replace (JSDate.MonthFromTime t + 1 - 1)
                     with (JSDate.MonthFromTime t) by lia].
  cbn zeta. cbn [String.append expect and_then].
  change (Ascii.eqb "T" "T") with true. cbn iota. cbn [and_then].
  unfold JSDate.HourFromTime, JSDate.MinFromTime, JSDate.SecFromTime,
    JSDate.msFromTime, JSDate.msPerHour, JSDate.msPerMinute,
    JSDate.msPerSecond.
  set (hh := (t / 3600000) mod 24).
  set (mm := (t / 60000) mod 60).
  set (ss := (t / 1000) mod 60).
  set (ms := t mod 1000).
  assert (Hhh : 0 <= hh <= 23)
    by (pose proof (Z.mod_pos_bound (t / 3600000) 24 ltac:(lia));
        unfold hh; lia).
  assert (Hmm : 0 <= mm <= 59)
    by (pose proof (Z.mod_pos_bound (t / 60000) 60 ltac:(lia));
        unfold mm; lia).
  assert (Hss : 0 <= ss <= 59)
    by (pose proof (Z.mod_pos_bound (t / 1000) 60 ltac:(lia));
        unfold ss; lia).
  assert (Hms : 0 <= ms <= 999)
    by (pose proof (Z.mod_pos_bound t 1000 ltac:(lia)); unfold ms; lia).
  rewrite take_two_digits by lia.
  cbn [and_then String.append expect].
  change (Ascii.eqb ":" ":") with true. cbn iota. cbn [and_then].
  rewrite take_two_digits by lia.
  cbn [and_then String.append expect].
  change (Ascii.eqb ":" ":") with true. cbn iota. cbn [and_then].
  rewrite take_two_digits by lia.
  cbn [and_then String.append expect].
  change (Ascii.eqb "." ".") with true. cbn iota. cbn [and_then].
  rewrite take_three_digits by lia.
  cbn [and_then String.append expect].
  change (Ascii.eqb "Z" "Z") with true. cbn iota. cbn [and_then].
  destruct (Z.leb_spec hh 23); [| lia].
  destruct (Z.leb_spec mm 59); [| lia].
  destruct (Z.leb_spec ss 59); [| lia].
  cbn [andb]. f_equal.
  replace (JSDate.MonthFromTime t + 1 - 1) with (JSDate.MonthFromTime t)
    by lia.
  unfold JSDate.MakeDay.
  rewrite Z.div_small, Z.mod_small, Z.add_0_r by lia.
  rewrite <- HDay.
  unfold JSDate.MakeDate, MakeTime, JSDate.Day, JSDate.msPerDay,
    JSDate.msPerHour, JSDate.msPerMinute, JSDate.msPerSecond,
    hh, mm, ss, ms.
  Z.div_mod_to_equations. lia.
Qed.

(** A date-only string is read as the midnight, UTC, of its day. *)
Lemma parse_iso_date (y m d : Z) :
  -999999 <= y <= 999999 -> 1 <= m <= 12 ->
  1 <= d <= DaysInMonth (JSDate.DaysInYear y) (m - 1) ->
  parse_date_time (JSDate.iso_date y m d)
  = Some (JSDate.MakeDate (JSDate.MakeDay y (m - 1) d) 0).
Proof.
  intros Hy Hm Hd.
  rewrite <- (string_app_nil_r (JSDate.iso_date y m d)) at 1.
  now rewrite parse_date_time_date.
Qed.

(** The fields of the midnight of a day. *)
Lemma fields_of_date (y m d : Z) :
  1 <= m <= 12 ->
  1 <= d <= DaysInMonth (JSDate.DaysInYear y) (m - 1) ->
  let t := JSDate.MakeDate (JSDate.MakeDay y (m - 1) d) 0 in
  JSDate.YearFromTime t = y /\ JSDate.MonthFromTime t = m - 1
  /\ JSDate.DateFromTime t = d.
Proof.
  intros Hm Hd t.
  apply fields_of_day; [lia | exact Hd |].
  unfold t. rewrite Day_MakeDate by (unfold JSDate.msPerDay; lia).
  unfold JSDate.MakeDay.
  now rewrite Z.div_small, Z.mod_small, Z.add_0_r by lia.
Qed.
(* ================================================================== *)
(** * Identifiers: the clock in base 36 *)

Lemma length_append (s1 s2 : string) :
  String.length (s1 ++ s2) = (String.length s1 + String.length s2)%nat.
Proof. induction s1 as [| a s1 IH]; cbn; [reflexivity | now rewrite IH]. Qed.

Lemma append_inj (s1 s2 t1 t2 : string) :
  String.length s1 = String.length s2 ->
  s1 ++ t1 = s2 ++ t2 -> s1 = s2 /\ t1 = t2.
Proof.
  revert s2. induction s1 as [| a s1 IH]; intros [| b s2] Hlen H;
    try discriminate Hlen.
  - split; [reflexivity | exact H].
  - cbn in H, Hlen. injection H as -> H. injection Hlen as Hlen.
    destruct (IH s2 Hlen H) as [-> ->]. split; reflexivity.
Qed.

Lemma pad_radix_length radix width n :
  String.length (pad_radix radix width n) = width.
Proof.
  revert n. induction width as [| w IH]; intros n; cbn [pad_radix].
  - reflexivity.
  - rewrite length_append, IH. cbn. lia.
Qed.

(** The character code of a base-36 digit. *)
Lemma digit_char_code (d : Z) :
  0 <= d < 36 ->
  Z.of_N (N_of_ascii (digit_char d)) = if d <? 10 then 48 + d else 87 + d.
Proof.
  intros Hd. destruct d as [| q | q]; [reflexivity | | lia].
  do 6 (try (destruct q as [q | q |])); try lia; reflexivity.
Qed.

Lemma digit_char_inj (a b : Z) :
  0 <= a < 36 -> 0 <= b < 36 -> digit_char a = digit_char b -> a = b.
Proof.
  intros Ha Hb H.
  pose proof (digit_char_code Ha) as Ca. pose proof (digit_char_code Hb) as Cb.
  rewrite H in Ca. rewrite Ca in Cb.
  destruct (a <? 10) eqn:Ea; destruct (b <? 10) eqn:Eb; lia.
Qed.

Lemma pad_radix_inj (width : nat) (n m : Z) :
  0 <= n < 36 ^ Z.of_nat width -> 0 <= m < 36 ^ Z.of_nat width ->
  pad_radix 36 width n = pad_radix 36 width m -> n = m.
Proof.
  revert n m. induction width as [| w IH]; intros n m Hn Hm H.
  - cbn in Hn, Hm. lia.
  - rewrite Nat2Z.inj_succ, Z.pow_succ_r in Hn, Hm by lia.
    cbn [pad_radix] in H.
    apply append_inj in H; [| now rewrite !pad_radix_length].
    destruct H as [Hq Hr]. injection Hr as Hr.
    apply IH in Hq;
      [| split; [apply Z.div_pos | apply Z.div_lt_upper_bound]; lia ..].
    apply digit_char_inj in Hr; [| apply Z.mod_pos_bound; lia ..].
    rewrite (Z.div_mod n 36), (Z.div_mod m 36) by lia. congruence.
Qed.

Lemma digits_radix_exact (d fuel : nat) (n : Z) :
  (S d <= fuel)%nat ->
  36 ^ Z.of_nat d <= n < 36 ^ Z.of_nat (S d) ->
  digits_radix 36 fuel n = S d.
Proof.
  revert fuel n. induction d as [| d IH]; intros [| fuel] n Hfuel Hn;
    try lia; cbn [digits_radix].
  - cbn in Hn. destruct (Z.ltb_spec n 36); [reflexivity | lia].
  - rewrite !Nat2Z.inj_succ, !Z.pow_succ_r in Hn by lia.
    assert (Hpos : 0 < 36 ^ Z.of_nat d) by (apply Z.pow_pos_nonneg; lia).
    destruct (Z.ltb_spec n 36); [nia |].
    f_equal. apply IH; [lia |].
    rewrite Nat2Z.inj_succ, Z.pow_succ_r by lia.
    split; [apply Z.div_le_lower_bound | apply Z.div_lt_upper_bound]; lia.
Qed.

(** From mid-1972 to mid-2059 the clock has eight base-36 digits. *)
Lemma Z_toString_36_eight (n : Z) :
  36 ^ 7 <= n < 36 ^ 8 -> Z_toString 36 n = pad_radix 36 8 n.
Proof.
  intros Hn. unfold Z_toString.
  destruct (Z.ltb_spec n 0); [lia |].
  rewrite Z.abs_eq by lia.
  rewrite (@digits_radix_exact 7); [reflexivity | | exact Hn].
  assert (36 <= Z.log2 n); [| lia].
  change 36 with (Z.log2 (36 ^ 7)). apply Z.log2_le_mono. lia.
Qed.

(** Two ids agree only when both the clock and the digits of the draw
    do. *)
Lemma generateId_inj (h1 h2 : Host) :
  36 ^ 7 <= Date_now h1 < 36 ^ 8 -> 36 ^ 7 <= Date_now h2 < 36 ^ 8 ->
  generateId h1 = generateId h2 ->
  Date_now h1 = Date_now h2
  /\ substring_from 2 (Math_random_toString36 h1)
     = substring_from 2 (Math_random_toString36 h2).
Proof.
  intros H1 H2 H. unfold generateId in H.
  rewrite !Z_toString_36_eight in H by assumption.
  apply append_inj in H; [| now rewrite !pad_radix_length].
  destruct H as [Hclock Hdraw]. split; [| exact Hdraw].
  apply (@pad_radix_inj 8);
    [change (Z.of_nat 8) with 8; lia .. | exact Hclock].
Qed.

(* ================================================================== *)
(** * The real numbers satisfy the exactness facts *)

Lemma Real_IEEE754 : IEEE754 Real.
Proof.
  split; cbn; intros.
  - field.
  - ring.
  - ring.
  - ring.
  - unfold Rpower. replace (x * 0 * ln b)%R with 0%R by ring. apply exp_0.
  - replace (x * 0)%R with 0%R by ring. apply exp_0.
  - reflexivity.
  - reflexivity.
Qed.

(* ================================================================== *)
(** * When every date of the breakdown can be printed *)

Section Representable.

Context {N : Number}.
Variable LocalTZA : Z -> bool -> Z.

Lemma dates_representable_without_date (p : CalculationParams) :
  startDate p = None -> dates_representable LocalTZA p.
Proof. intros Hnone d y Hsome. congruence. Qed.

(** On a host whose local time is UTC, a start date in the year [Y] with
    [0 <= Y + 1] and [Y + time <= 9999] will do. *)
Lemma dates_representable_UTC (p : CalculationParams) (t : Z) :
  (forall t b, LocalTZA t b = 0) ->
  startDate p = Some (JSDate.mkDate (Some t)) ->
  0 <= JSDate.YearFromTime t + 1 ->
  JSDate.YearFromTime t + time p <= 9999 ->
  dates_representable LocalTZA p.
Proof.
  intros Hzone Hsd Hlo Hhi d y Hd Hy.
  rewrite Hsd in Hd. injection Hd as <-.
  rewrite (@date_of_year_UTC LocalTZA Hzone t y) by lia.
  eexists. reflexivity.
Qed.

End Representable.

(* ================================================================== *)
(** * The engine: final amount, formula, breakdown *)

Section EngineProperties.

Context {N : Number}.
Variable LocalTZA : Z -> bool -> Z.

(** C1: for valid params with a discrete frequency of [n] periods per year
    (1, 2, 4, 12, 52, 365), the engine returns
    finalAmount = principal × (1 + (rate/100)/n)^(n × time); for 'annually'
    this is principal × (1 + rate/100)^time, exactly, as dividing and
    multiplying by one are exact. *)
Theorem finalAmount_discrete (p : CalculationParams) (n : Z) :
  valid_params LocalTZA p ->
  periods_per_year (frequency p) = Some n ->
  exists r,
    calculateCompoundInterest LocalTZA p = Return r
    /\ finalAmount r
       = (principal p
          * Math_pow (of_Z 1 + (rate p / of_Z 100) / of_Z n)
                     (of_Z n * of_Z (time p)))%num
    /\ (IEEE754 N -> frequency p = annually ->
        finalAmount r
        = (principal p
           * Math_pow (of_Z 1 + rate p / of_Z 100) (of_Z (time p)))%num).
Proof.
  intros [_ Hdates] Hn.
  eexists. split; [apply (calculateCompoundInterest_returns Hdates) |].
  cbn [finalAmount].
  split.
  - destruct (frequency p); cbn in Hn |- *;
      try discriminate Hn; injection Hn as <-; reflexivity.
  - intros L Ha. rewrite Ha. cbn [is_continuously getFrequencyValue].
    now rewrite div_1_r, mul_1_l.
Qed.

(** C2: for valid params with frequency 'continuously' the engine returns
    finalAmount = principal × e^((rate/100) × time) and the formula
    'A = P × e^(rt)'; for every discrete frequency the formula is
    'A = P(1 + r/n)^(nt)'. *)
Theorem finalAmount_continuous_and_formula (p : CalculationParams) :
  valid_params LocalTZA p ->
  exists r,
    calculateCompoundInterest LocalTZA p = Return r
    /\ (frequency p = continuously ->
        finalAmount r
        = (principal p * Math_exp ((rate p / of_Z 100) * of_Z (time p)))%num
        /\ formula r = "A = P × e^(rt)")
    /\ (frequency p <> continuously -> formula r = "A = P(1 + r/n)^(nt)").
Proof.
  intros [_ Hdates].
  eexists. split; [apply (calculateCompoundInterest_returns Hdates) |].
  cbn [finalAmount formula]. split.
  - intros ->. split; reflexivity.
  - intros Hf. destruct (frequency p); try reflexivity. now elim Hf.
Qed.

(** C3: for valid params the breakdown has exactly [time] rows, and the row
    at index [i] (from 0 to time−1) has year [i + 1]. *)
Theorem yearlyBreakdown_length_and_years (p : CalculationParams) :
  valid_params LocalTZA p ->
  exists r,
    calculateCompoundInterest LocalTZA p = Return r
    /\ Z.of_nat (length (yearlyBreakdown r)) = time p
    /\ forall i, 0 <= i < time p ->
         exists row,
           array_get (yearlyBreakdown r) i = Some row /\ year row = i + 1.
Proof.
  intros [Htime Hdates].
  eexists. split; [apply (calculateCompoundInterest_returns Hdates) |].
  cbn [yearlyBreakdown]. split.
  - rewrite length_map, years_length. lia.
  - intros i Hi. eexists. split.
    + apply array_get_map_years. lia.
    + reflexivity.
Qed.

(** C4: for valid params totalInterest = finalAmount − principal; the row
    of year [y] holds amount-at-year(y) and
    interestEarned = amount-at-year(y) − amount-at-year(y−1), with
    amount-at-year(0) = principal; so the first row has
    interestEarned = amount − principal. *)
Theorem totalInterest_and_interestEarned (p : CalculationParams) :
  valid_params LocalTZA p ->
  exists r,
    calculateCompoundInterest LocalTZA p = Return r
    /\ totalInterest r = (finalAmount r - principal p)%num
    /\ (forall y, 1 <= y <= time p ->
          exists row,
            array_get (yearlyBreakdown r) (y - 1) = Some row
            /\ amount row = amount_at_year p y
            /\ interestEarned row
               = (amount_at_year p y - amount_at_year p (y - 1))%num)
    /\ amount_at_year p 0 = principal p
    /\ exists row0,
         array_get (yearlyBreakdown r) 0 = Some row0
         /\ interestEarned row0 = (amount row0 - principal p)%num.
Proof.
  intros [Htime Hdates].
  eexists. split; [apply (calculateCompoundInterest_returns Hdates) |].
  cbn [yearlyBreakdown totalInterest finalAmount].
  split; [reflexivity |]. split; [| split; [reflexivity |]].
  - intros y Hy. eexists. split.
    + apply array_get_map_years. lia.
    + replace (y - 1 + 1) with y by lia. split; reflexivity.
  - eexists. split.
    + apply array_get_map_years. lia.
    + reflexivity.
Qed.

(** C5: for valid params and each of the seven frequencies the last row's
    amount is the final amount, the same number bit for bit: both are the
    one closed form evaluated at the same arguments. *)
Theorem last_row_is_finalAmount (p : CalculationParams) :
  valid_params LocalTZA p ->
  exists r,
    calculateCompoundInterest LocalTZA p = Return r
    /\ exists row,
         array_get (yearlyBreakdown r) (time p - 1) = Some row
         /\ amount row = finalAmount r.
Proof.
  intros [Htime Hdates].
  eexists. split; [apply (calculateCompoundInterest_returns Hdates) |].
  cbn [yearlyBreakdown finalAmount].
  eexists. split.
  - apply array_get_map_years. lia.
  - cbn [amount row_of_year].
    replace (time p - 1 + 1) with (time p) by lia.
    symmetry. apply yearAmount_eq. lia.
Qed.

(** C10, amended: with [time = 0] the engine returns, for every frequency,
    principal and rate, with an empty breakdown; finalAmount = principal
    for every discrete frequency, whatever principal and rate are, and for
    'continuously' when rate is finite; and totalInterest = 0 when moreover
    principal is finite. *)
Theorem no_years_no_interest (p : CalculationParams) :
  time p = 0 ->
  exists r,
    calculateCompoundInterest LocalTZA p = Return r
    /\ yearlyBreakdown r = []
    /\ (IEEE754 N ->
        frequency p <> continuously \/ isFinite (rate p) = true ->
        finalAmount r = principal p
        /\ (isFinite (principal p) = true -> totalInterest r = of_Z 0)).
Proof.
  intros Ht.
  assert (Hdates : dates_representable LocalTZA p)
    by (intros d y _ Hy; lia).
  eexists. split; [apply (calculateCompoundInterest_returns Hdates) |].
  cbn [yearlyBreakdown finalAmount totalInterest]. rewrite Ht.
  split; [reflexivity |].
  intros L Hr.
  assert (E :
    (if is_continuously (frequency p) then
       (principal p * Math_exp ((rate p / of_Z 100) * of_Z 0))%num
     else
       (principal p
        * Math_pow (of_Z 1 + (rate p / of_Z 100)
                             / getFrequencyValue (frequency p))
                   (getFrequencyValue (frequency p) * of_Z 0))%num)
    = principal p).
  { destruct (is_continuously (frequency p)) eqn:Hc.
    - assert (Hrate : isFinite (rate p) = true).
      { destruct Hr as [Hf | Hr]; [| exact Hr].
        destruct (frequency p); try discriminate Hc. now elim Hf. }
      rewrite exp_zero by (apply div_100_finite; exact Hrate).
      apply mul_1_r.
    - rewrite pow_zero; [apply mul_1_r |].
      destruct (frequency p); try discriminate Hc;
        apply of_Z_finite; cbn; lia. }
  rewrite E. split; [reflexivity | apply sub_diag].
Qed.

(** C9, amended: for valid params every row has a date iff startDate was
    supplied; on a host whose local time is UTC, and while the year stays
    within 0..9999, the date of the row of year [y] is startDate's calendar
    day [y] years later as YYYY-MM-DD, except that a 29 February becomes
    1 March when that later year has none. *)
Theorem breakdown_dates (p : CalculationParams) :
  valid_params LocalTZA p ->
  exists r,
    calculateCompoundInterest LocalTZA p = Return r
    /\ forall y, 1 <= y <= time p ->
         exists row,
           array_get (yearlyBreakdown r) (y - 1) = Some row
           /\ (date row = None <-> startDate p = None)
           /\ ((forall t b, LocalTZA t b = 0) ->
               forall t,
                 startDate p = Some (JSDate.mkDate (Some t)) ->
                 0 <= JSDate.YearFromTime t + y <= 9999 ->
                 date row
                 = Some
                     (if JSDate.DateFromTime t
                         <=? DaysInMonth
                               (JSDate.DaysInYear (JSDate.YearFromTime t + y))
                               (JSDate.MonthFromTime t)
                      then same_day_years_later t y
                      else JSDate.iso_date (JSDate.YearFromTime t + y) 3 1)).
Proof.
  intros [Htime Hdates].
  eexists. split; [apply (calculateCompoundInterest_returns Hdates) |].
  cbn [yearlyBreakdown]. intros y Hy.
  eexists. split; [apply array_get_map_years; lia |].
  replace (y - 1 + 1) with y by lia. cbn [date row_of_year].
  split.
  - destruct (startDate p) as [d |] eqn:Hsd; [| tauto].
    destruct (Hdates d y Hsd Hy) as [s ->].
    split; discriminate.
  - intros Hzone t Hsd Hrange. rewrite Hsd.
    now rewrite (@date_of_year_UTC LocalTZA Hzone t y Hrange).
Qed.

End EngineProperties.

(* ================================================================== *)
(** * The engine at the example scenarios *)

Lemma finalAmount_discrete_witness :
  valid_params UTC_zone scenario_annual
  /\ periods_per_year (frequency scenario_annual) = Some 1
  /\ exists r,
       calculateCompoundInterest UTC_zone scenario_annual = Return r
       /\ finalAmount r = (10000 * Rpower (1 + 5 / 100 / 1) (1 * 3))%R
       /\ finalAmount r = (10000 * Rpower (1 + 5 / 100) 3)%R.
Proof.
  assert (V : valid_params UTC_zone scenario_annual)
    by (split; [cbn; lia | intros d y H; discriminate H]).
  split; [exact V |]. split; [reflexivity |].
  destruct (@finalAmount_discrete Real UTC_zone scenario_annual 1 V eq_refl)
    as (r & Hr & Hn & Ha).
  exists r. split; [exact Hr |]. split; [exact Hn |].
  apply Ha; [exact Real_IEEE754 | reflexivity].
Defined.

Lemma finalAmount_continuous_and_formula_witness :
  valid_params UTC_zone scenario_continuous
  /\ exists r,
       calculateCompoundInterest UTC_zone scenario_continuous = Return r
       /\ finalAmount r = (1000 * exp (100 / 100 * 1))%R
       /\ formula r = "A = P × e^(rt)".
Proof.
  assert (V : valid_params UTC_zone scenario_continuous)
    by (split; [cbn; lia | intros d y H; discriminate H]).
  split; [exact V |].
  destruct (@finalAmount_continuous_and_formula Real UTC_zone
              scenario_continuous V) as (r & Hr & Hc & _).
  exists r. split; [exact Hr |]. exact (Hc eq_refl).
Defined.

Lemma yearlyBreakdown_length_and_years_witness :
  valid_params UTC_zone scenario_annual
  /\ exists r,
       calculateCompoundInterest UTC_zone scenario_annual = Return r
       /\ Z.of_nat (length (yearlyBreakdown r)) = 3
       /\ forall i, 0 <= i < 3 ->
            exists row,
              array_get (yearlyBreakdown r) i = Some row
              /\ year row = i + 1.
Proof.
  assert (V : valid_params UTC_zone scenario_annual)
    by (split; [cbn; lia | intros d y H; discriminate H]).
  split; [exact V |].
  exact (@yearlyBreakdown_length_and_years Real UTC_zone scenario_annual V).
Defined.

Lemma totalInterest_and_interestEarned_witness :
  valid_params UTC_zone scenario_annual
  /\ exists r,
       calculateCompoundInterest UTC_zone scenario_annual = Return r
       /\ totalInterest r = (finalAmount r - 10000)%R
       /\ exists row0,
            array_get (yearlyBreakdown r) 0 = Some row0
            /\ interestEarned row0 = (amount row0 - 10000)%R.
Proof.
  assert (V : valid_params UTC_zone scenario_annual)
    by (split; [cbn; lia | intros d y H; discriminate H]).
  split; [exact V |].
  destruct (@totalInterest_and_interestEarned Real UTC_zone
              scenario_annual V) as (r & Hr & Ht & _ & _ & H0).
  exists r. split; [exact Hr |]. split; [exact Ht | exact H0].
Defined.

Lemma last_row_is_finalAmount_witness :
  valid_params UTC_zone scenario_annual
  /\ exists r,
       calculateCompoundInterest UTC_zone scenario_annual = Return r
       /\ exists row,
            array_get (yearlyBreakdown r) 2 = Some row
            /\ amount row = finalAmount r.
Proof.
  assert (V : valid_params UTC_zone scenario_annual)
    by (split; [cbn; lia | intros d y H; discriminate H]).
  split; [exact V |].
  exact (@last_row_is_finalAmount Real UTC_zone scenario_annual V).
Defined.

Lemma breakdown_dates_witness :
  valid_params UTC_zone scenario_dated
  /\ exists r,
       calculateCompoundInterest UTC_zone scenario_dated = Return r
       /\ exists row,
            array_get (yearlyBreakdown r) 0 = Some row
            /\ date row = Some "2025-01-15".
Proof.
  assert (V : valid_params UTC_zone scenario_dated).
  { split; [cbn; lia |].
    intros d y H Hy. cbn in H, Hy. injection H as <-.
    assert (E : y = 1 \/ y = 2 \/ y = 3) by lia.
    destruct E as [-> | [-> | ->]]; eexists; vm_compute; reflexivity. }
  split; [exact V |].
  destruct (@breakdown_dates Real UTC_zone scenario_dated V) as (r & Hr & H).
  exists r. split; [exact Hr |].
  destruct (H 1 ltac:(cbn; lia)) as (row & Hrow & _ & Hdate).
  exists row. split; [exact Hrow |].
  rewrite (Hdate (fun _ _ => eq_refl) 1705276800000 eq_refl
             ltac:(vm_compute; split; discriminate)).
  vm_compute. reflexivity.
Defined.

Lemma no_years_no_interest_witness :
  time scenario_no_years = 0
  /\ exists r,
       calculateCompoundInterest UTC_zone scenario_no_years = Return r
       /\ yearlyBreakdown r = []
       /\ finalAmount r = 10000%float /\ totalInterest r = 0%float.
Proof.
  split; [reflexivity |].
  destruct (@no_years_no_interest Float64_at_zero UTC_zone scenario_no_years
              eq_refl) as (r & Hr & Hb & Hf).
  exists r. split; [exact Hr |]. split; [exact Hb |].
  destruct (Hf Float64_at_zero_IEEE754 (or_intror eq_refl)) as [Hfinal Hzero].
  split; [exact Hfinal | exact (Hzero eq_refl)].
Defined.

(* ================================================================== *)
(** * Where the engine leaves the specification *)

(** C9 as stated fails: in the UTC zone, one year after 2024-02-29 the
    row's date is 2025-03-01, not the same month and day a year later. *)
Lemma leap_day_counterexample :
  exists r row,
    calculateCompoundInterest UTC_zone scenario_leap_day = Return r
    /\ array_get (yearlyBreakdown r) 0 = Some row
    /\ year row = 1
    /\ date row = Some "2025-03-01"
    /\ same_day_years_later 1709164800000 1 = "2025-02-29".
Proof.
  assert (Hdates : dates_representable UTC_zone scenario_leap_day).
  { intros d y H Hy. cbn in H, Hy. injection H as <-.
    assert (E : y = 1) by lia. subst y.
    eexists; vm_compute; reflexivity. }
  eexists. eexists.
  split; [apply (calculateCompoundInterest_returns Hdates) |].
  cbn [yearlyBreakdown].
  split; [apply (@array_get_map_years _ _ 1 0); lia |].
  split; [reflexivity |]. split.
  - cbn [date row_of_year startDate scenario_leap_day Z.add Pos.add].
    vm_compute. reflexivity.
  - vm_compute. reflexivity.
Qed.

(** A host behind UTC moves the date further: 2024-03-01T00:00:00Z is the
    evening of 29 February there, and one year later the row's date is
    2025-03-02. *)
Lemma zone_shift_example :
  exists r row,
    calculateCompoundInterest UTC_minus_5 scenario_first_of_march = Return r
    /\ array_get (yearlyBreakdown r) 0 = Some row
    /\ date row = Some "2025-03-02"
    /\ same_day_years_later 1709251200000 1 = "2025-03-01".
Proof.
  assert (Hdates : dates_representable UTC_minus_5 scenario_first_of_march).
  { intros d y H Hy. cbn in H, Hy. injection H as <-.
    assert (E : y = 1) by lia. subst y.
    eexists; vm_compute; reflexivity. }
  eexists. eexists.
  split; [apply (calculateCompoundInterest_returns Hdates) |].
  cbn [yearlyBreakdown].
  split; [apply (@array_get_map_years _ _ 1 0); lia |].
  split.
  - cbn [date row_of_year startDate scenario_first_of_march Z.add Pos.add].
    vm_compute. reflexivity.
  - vm_compute. reflexivity.
Qed.

(** C10 as stated fails: with an infinite principal and no years the final
    amount is the principal and the total interest is NaN, not 0; and with
    an infinite rate compounded continuously over no years the final
    amount is NaN, not the principal. *)
Lemma infinite_principal_counterexample :
  (time scenario_infinite_principal = 0
   /\ calculateCompoundInterest UTC_zone scenario_infinite_principal
      = Return (@Build_CalculationResult Float64_at_zero
                  PrimFloat.infinity PrimFloat.nan [] "A = P(1 + r/n)^(nt)")
   /\ PrimFloat.nan <> @of_Z Float64_at_zero 0)
  /\ (time scenario_infinite_rate = 0
      /\ calculateCompoundInterest UTC_zone scenario_infinite_rate
         = Return (@Build_CalculationResult Float64_at_zero
                     PrimFloat.nan PrimFloat.nan [] "A = P × e^(rt)")
      /\ PrimFloat.nan <> principal scenario_infinite_rate).
Proof.
  assert (Hnan : forall x : float,
            PrimFloat.is_nan x = false -> PrimFloat.nan <> x).
  { intros x Hx H. rewrite <- H in Hx. discriminate Hx. }
  split; (split; [reflexivity |]); (split; [reflexivity |]);
    apply Hnan; reflexivity.
Qed.
(* ================================================================== *)
(** * The history store *)

Section JSONInduction.

Context {N : Number}.

Variable P : JSON -> Prop.
Hypothesis P_null : P JNull.
Hypothesis P_bool : forall b, P (JBool b).
Hypothesis P_number : forall x, P (JNumber x).
Hypothesis P_string : forall s, P (JString s).
Hypothesis P_array : forall items, Forall P items -> P (JArray items).
Hypothesis P_object :
  forall members, Forall (fun kv => P (snd kv)) members -> P (JObject members).

(** Induction on a JSON value, through its elements and properties. *)
Lemma JSON_induction (v : JSON) : P v.
Proof.
  revert v. fix IH 1. intros [| b | x | s | items | members].
  - exact P_null.
  - apply P_bool.
  - apply P_number.
  - apply P_string.
  - apply P_array.
    induction items as [| item items IHitems]; constructor;
      [apply IH | exact IHitems].
  - apply P_object.
    induction members as [| [key value] members IHmembers]; constructor;
      [apply IH | exact IHmembers].
Qed.

End JSONInduction.

Section StoreFacts.

Context {N : Number}.

Lemma getItem_setItem (key : string) (value : StoredString)
    (localStorage : Storage) :
  getItem key (setItem key value localStorage) = Some value.
Proof. unfold getItem, setItem. now rewrite String.eqb_refl. Qed.

(** What was written as the history is read back as JSON text keeps it. *)
Lemma getCalculationHistory_setItem (v : JSON) (localStorage : Storage) :
  getCalculationHistory
    (setItem "calculationHistory" (JSON_stringify v) localStorage)
  = Return (JSON_written v).
Proof. unfold getCalculationHistory. now rewrite getItem_setItem. Qed.

(** ** Numbers in JSON text *)

Lemma JSON_number_idempotent (x : num) :
  JSON_number (JSON_number x) = JSON_number x.
Proof.
  unfold JSON_number.
  destruct (num_eqb x (of_Z 0)) eqn:E; [| now rewrite E].
  now destruct (num_eqb (of_Z 0) (of_Z 0)).
Qed.

Lemma JSON_number_isFinite (x : num) :
  isFinite x = true -> isFinite (JSON_number x) = true.
Proof.
  intros H. unfold JSON_number.
  destruct (num_eqb x (of_Z 0)); [apply isFinite_zero | exact H].
Qed.

Lemma number_toJSON_finite (x : num) :
  isFinite x = true -> number_toJSON x = JNumber (JSON_number x).
Proof. unfold number_toJSON. now intros ->. Qed.

Lemma number_toJSON_as_written (x : num) : as_written (number_toJSON x).
Proof.
  unfold as_written, number_toJSON.
  destruct (isFinite x) eqn:E; [| reflexivity].
  cbn [JSON_written]. unfold number_toJSON.
  now rewrite (JSON_number_isFinite x E), JSON_number_idempotent.
Qed.

(** ** Writing a value again *)

(** A value once written is written again as it is. *)
Lemma JSON_written_idempotent (v : JSON) : as_written (JSON_written v).
Proof.
  unfold as_written.
  induction v as [| b | x | s | items IH | members IH] using JSON_induction;
    cbn [JSON_written]; try reflexivity.
  - apply number_toJSON_as_written.
  - f_equal. rewrite map_map. apply map_ext_in. intros item Hin.
    rewrite Forall_forall in IH. now apply IH.
  - f_equal. rewrite map_map. apply map_ext_in. intros kv Hin.
    rewrite Forall_forall in IH. cbn [fst snd]. f_equal. now apply IH.
Qed.

Lemma as_written_map (items : list JSON) :
  Forall as_written items -> map JSON_written items = items.
Proof.
  induction 1 as [| item items Hitem _ IH]; cbn [map]; [reflexivity |].
  now rewrite Hitem, IH.
Qed.

Lemma Forall_as_written_map (items : list JSON) :
  Forall as_written (map JSON_written items).
Proof.
  apply Forall_forall. intros item Hin. apply in_map_iff in Hin.
  destruct Hin as (item0 & <- & _). apply JSON_written_idempotent.
Qed.

Lemma as_written_array (items : list JSON) :
  Forall as_written items -> as_written (JArray items).
Proof.
  intros H. unfold as_written. cbn [JSON_written].
  now rewrite (as_written_map H).
Qed.

Lemma member_written (key : string) (members : list (string * JSON)) :
  member key (map (fun kv => (fst kv, JSON_written (snd kv))) members)
  = option_map JSON_written (member key members).
Proof.
  induction members as [| [k v] members IH]; cbn [map member fst snd];
    [reflexivity |].
  now destruct (String.eqb k key).
Qed.

(** Writing keeps the [id] of a record. *)
Lemma id_of_written (item : JSON) : id_of (JSON_written item) = id_of item.
Proof.
  destruct item as [| b | x | s | items | members]; try reflexivity.
  - cbn [JSON_written]. unfold number_toJSON.
    now destruct (isFinite x).
  - cbn [JSON_written id_of]. rewrite member_written.
    destruct (member "id" members) as [[| b | x | s | items | ms] |];
      try reflexivity.
    cbn [option_map JSON_written]. unfold number_toJSON.
    now destruct (isFinite x).
Qed.

Lemma has_id_written (id : string) (item : JSON) :
  has_id id (JSON_written item) = has_id id item.
Proof. unfold has_id. now rewrite id_of_written. Qed.

Lemma filter_written (id : string) (items : list JSON) :
  filter (fun item => negb (has_id id item)) (map JSON_written items)
  = map JSON_written (filter (fun item => negb (has_id id item)) items).
Proof.
  induction items as [| item items IH]; cbn [map filter]; [reflexivity |].
  rewrite has_id_written, IH. now destruct (has_id id item).
Qed.

(** ** The history item as it is written *)

Lemma Date_toJSON_as_written (d : JSDate.Date) : as_written (Date_toJSON d).
Proof. unfold Date_toJSON. now destruct (JSDate.toISOString d). Qed.

Lemma YearlyBreakdown_toJSON_as_written (row : YearlyBreakdown) :
  as_written (YearlyBreakdown_toJSON row).
Proof.
  unfold as_written, YearlyBreakdown_toJSON.
  cbn [JSON_written map app fst snd].
  rewrite !number_toJSON_as_written.
  now destruct (date row).
Qed.

Lemma CalculationHistory_toJSON_as_written (item : CalculationHistory) :
  as_written (CalculationHistory_toJSON item).
Proof.
  unfold as_written, CalculationHistory_toJSON.
  cbn [JSON_written]. f_equal.
  rewrite !map_app. cbn [map fst snd JSON_written].
  rewrite !number_toJSON_as_written.
  rewrite (as_written_map
             (items := map YearlyBreakdown_toJSON
                         (yearlyBreakdown (result_of item)))).
  - destruct (startDate_property (params_of item)) as [| | d];
      cbn [map fst snd JSON_written]; try reflexivity.
    now rewrite Date_toJSON_as_written.
  - apply Forall_forall. intros row Hin. apply in_map_iff in Hin.
    destruct Hin as (row0 & <- & _).
    apply YearlyBreakdown_toJSON_as_written.
Qed.

Lemma YearlyBreakdown_toJSON_finite (rows : list YearlyBreakdown) :
  Forall (fun row => isFinite (of_Z (year row)) = true
                     /\ isFinite (amount row) = true
                     /\ isFinite (interestEarned row) = true) rows ->
  map YearlyBreakdown_toJSON rows = map YearlyBreakdown_exactly rows.
Proof.
  induction 1 as [| row rows (Hy & Ha & Hi) _ IH]; cbn [map];
    [reflexivity |].
  rewrite IH. f_equal.
  unfold YearlyBreakdown_toJSON, YearlyBreakdown_exactly.
  now rewrite !number_toJSON_finite.
Qed.

(** ** The filter of [deleteCalculation] *)

Lemma id_differs_has_id (id : string) (item : JSON) :
  item <> JNull -> id_differs id item = Return (negb (has_id id item)).
Proof.
  intros Hnull. unfold id_differs, has_id, id_of.
  destruct item as [| b | x | s | items | members]; cbn;
    try reflexivity; [contradiction |].
  destruct (member "id" members) as [[| | | s | |] |]; reflexivity.
Qed.

(** On elements that are not [null] the filter of [deleteCalculation] is
    the list filter that drops the records with the id. *)
Lemma filter_array_id_differs (id : string) (items : list JSON) :
  Forall (fun item => item <> JNull) items ->
  filter_array (id_differs id) items
  = Return (filter (fun item => negb (has_id id item)) items).
Proof.
  induction 1 as [| item items Hitem _ IH]; cbn [filter_array filter];
    [reflexivity |].
  rewrite (id_differs_has_id id Hitem), IH. cbn [bind].
  now destruct (has_id id item).
Qed.

Lemma filter_keeps_all (id : string) (items : list JSON) :
  (forall item, In item items -> has_id id item = false) ->
  filter (fun item => negb (has_id id item)) items = items.
Proof.
  induction items as [| item items IH]; intros H; cbn [filter];
    [reflexivity |].
  rewrite (H item (or_introl eq_refl)). cbn [negb].
  rewrite IH; [reflexivity |]. intros i Hi. apply H. now right.
Qed.

(** [clear()] followed by [list()] is the empty sequence. *)
Lemma clearCalculationHistory_then_list (localStorage : Storage) :
  getCalculationHistory (clearCalculationHistory localStorage)
  = Return (JArray []).
Proof. apply getCalculationHistory_setItem. Qed.

(** Writing the history leaves the other keys alone. *)
Lemma getItem_setItem_other (key other : string) (value : StoredString)
    (localStorage : Storage) :
  other <> key ->
  getItem other (setItem key value localStorage) = getItem other localStorage.
Proof.
  intros Hne. unfold getItem, setItem.
  destruct (String.eqb_spec other key); [contradiction | reflexivity].
Qed.

Lemma has_id_true (id : string) (item : JSON) :
  has_id id item = true <-> id_of item = Some id.
Proof.
  unfold has_id. destruct (id_of item) as [s |].
  - rewrite String.eqb_eq. split; congruence.
  - split; discriminate.
Qed.

Lemma record_not_null (item : JSON) : id_of item <> None -> item <> JNull.
Proof. intros H ->. now apply H. Qed.

(** The time stamp of a record, for a clock a Date can hold. *)
Lemma createdAt_returns (host : Host) :
  Z.abs (new_Date_now host) <= 8640000000000000 ->
  exists stamp,
    JSDate.toISOString (JSDate.mkDate (JSDate.TimeClip (new_Date_now host)))
    = Return stamp
    /\ JSDate.toISOString (JSDate.mkDate (Some (new_Date_now host)))
       = Return stamp.
Proof.
  intros Hclock. unfold JSDate.TimeClip.
  destruct (Z.leb_spec (Z.abs (new_Date_now host)) 8640000000000000);
    [| lia].
  cbn [JSDate.toISOString JSDate.DateValue]. eauto.
Qed.

Lemma id_of_CalculationHistory_toJSON (item : CalculationHistory) :
  id_of (CalculationHistory_toJSON item) = Some (id item).
Proof.
  unfold CalculationHistory_toJSON, id_of.
  now destruct (startDate_property (params_of item)).
Qed.

(** What [saveCalculation] stores on a stored array. *)
Lemma saveCalculation_on_array (host : Host) (p : CalculationParams)
    (r : CalculationResult) (localStorage : Storage) (items : list JSON) :
  Z.abs (new_Date_now host) <= 8640000000000000 ->
  getCalculationHistory localStorage = Return (JArray items) ->
  exists stamp,
    JSDate.toISOString (JSDate.mkDate (Some (new_Date_now host)))
    = Return stamp
    /\ saveCalculation host p r localStorage
       = Return
           (setItem "calculationHistory"
              (JSONText
                 (JArray
                    (CalculationHistory_toJSON
                       {| params_of := p; result_of := r;
                          id := generateId host; createdAt := stamp |}
                     :: map JSON_written items)))
              localStorage).
Proof.
  intros Hclock Hlist. unfold saveCalculation.
  destruct (createdAt_returns host Hclock) as (stamp & -> & Hstamp).
  rewrite Hlist. cbn [bind]. exists stamp. split; [exact Hstamp |].
  unfold JSON_stringify. cbn [JSON_written map].
  now rewrite CalculationHistory_toJSON_as_written.
Qed.

(** What [deleteCalculation] stores on a stored array without [null]. *)
Lemma deleteCalculation_on_array (id : string) (localStorage : Storage)
    (items : list JSON) :
  getCalculationHistory localStorage = Return (JArray items) ->
  Forall (fun item => item <> JNull) items ->
  deleteCalculation id localStorage
  = Return
      (setItem "calculationHistory"
         (JSONText
            (JArray
               (map JSON_written
                  (filter (fun item => negb (has_id id item)) items))))
         localStorage).
Proof.
  intros Hlist Hitems. unfold deleteCalculation.
  rewrite Hlist. cbn [bind].
  now rewrite (@filter_array_id_differs id items Hitems).
Qed.

(** A stored JSON text is read back as the value it holds. *)
Lemma getCalculationHistory_JSONText (v : JSON) (localStorage : Storage) :
  getCalculationHistory
    (setItem "calculationHistory" (JSONText v) localStorage)
  = Return v.
Proof. unfold getCalculationHistory. now rewrite getItem_setItem. Qed.

End StoreFacts.

Section StoreProperties.

Context {N : Number}.

(** C6, amended: [list()] returns an empty sequence when nothing is stored
    under the key, or the empty string is; it returns the stored value when
    the stored text is JSON; and when the stored text is not JSON the parse
    failure, a SyntaxError, reaches the caller. *)
Theorem getCalculationHistory_cases (localStorage : Storage) :
  (getItem "calculationHistory" localStorage = None ->
   getCalculationHistory localStorage = Return (JArray []))
  /\ (getItem "calculationHistory" localStorage = Some (NotJSON "") ->
      getCalculationHistory localStorage = Return (JArray []))
  /\ (forall v,
        getItem "calculationHistory" localStorage = Some (JSONText v) ->
        getCalculationHistory localStorage = Return v)
  /\ (forall s, s <> "" ->
        getItem "calculationHistory" localStorage = Some (NotJSON s) ->
        getCalculationHistory localStorage = Throw SyntaxError).
Proof.
  unfold getCalculationHistory.
  repeat split.
  - now intros ->.
  - now intros ->.
  - now intros v ->.
  - intros s Hs ->. cbn.
    destruct (String.eqb_spec s ""); [contradiction | reflexivity].
Qed.

(** C7, amended: after [save(p, r)] on a history of [items], [list()] is
    the new record followed by [items] in their order, each as
    [JSON.stringify] writes it again, which is as it was when the store
    wrote it; and what is stored now is so written. The record is what
    JSON keeps of [p], [r], the id and the time stamp, the ISO string of
    the clock; its id is the clock in base 36 followed by the digits of
    the random draw; when all numbers of [p] and [r] are finite it
    carries their fields, each number as the number it is (the negative
    zero as 0) and the start date as its ISO string, as [null], or not at
    all; and its id differs from the id of every record saved at another
    millisecond or with other digits of the draw (the clocks having eight
    base-36 digits, as they do from 1972 to 2059). *)
Theorem saveCalculation_then_list (host : Host) (p : CalculationParams)
    (r : CalculationResult) (localStorage : Storage) (items : list JSON) :
  Z.abs (new_Date_now host) <= 8640000000000000 ->
  getCalculationHistory localStorage = Return (JArray items) ->
  exists localStorage' stamp first,
    saveCalculation host p r localStorage = Return localStorage'
    /\ JSDate.toISOString (JSDate.mkDate (Some (new_Date_now host)))
       = Return stamp
    /\ first = CalculationHistory_toJSON
                 {| params_of := p; result_of := r;
                    id := generateId host; createdAt := stamp |}
    /\ getCalculationHistory localStorage'
       = Return (JArray (first :: map JSON_written items))
    /\ (Forall as_written items ->
        getCalculationHistory localStorage'
        = Return (JArray (first :: items)))
    /\ Forall as_written (first :: map JSON_written items)
    /\ id_of first = Some (generateId host)
    /\ (finite_numbers p r -> carries_params_and_result first p r)
    /\ (forall item host0,
          In item items ->
          id_of item = Some (generateId host0) ->
          36 ^ 7 <= Date_now host0 < 36 ^ 8 ->
          36 ^ 7 <= Date_now host < 36 ^ 8 ->
          Date_now host0 <> Date_now host
          \/ substring_from 2 (Math_random_toString36 host0)
             <> substring_from 2 (Math_random_toString36 host) ->
          id_of item <> id_of first).
Proof.
  intros Hclock Hlist.
  destruct (saveCalculation_on_array host p r localStorage Hclock Hlist)
    as (stamp & Hstamp & Hsave).
  eexists. exists stamp. eexists.
  split; [exact Hsave |]. split; [exact Hstamp |].
  split; [reflexivity |].
  split; [apply getCalculationHistory_JSONText |].
  split.
  { intros Hitems. rewrite getCalculationHistory_JSONText.
    now rewrite (as_written_map Hitems). }
  split.
  { constructor;
      [apply CalculationHistory_toJSON_as_written
      | apply Forall_as_written_map]. }
  split; [apply id_of_CalculationHistory_toJSON |]. split.
  - intros (Hp & Hr & Ht & Hf & Hi & Hrows).
    unfold carries_params_and_result, CalculationHistory_toJSON.
    cbn [params_of result_of].
    rewrite !number_toJSON_finite by assumption.
    rewrite (YearlyBreakdown_toJSON_finite Hrows).
    destruct (startDate_property p); repeat split; reflexivity.
  - intros item host0 _ Hid H0 H1 Hne.
    rewrite Hid, id_of_CalculationHistory_toJSON.
    cbn [id]. intros E. injection E as E.
    destruct (@generateId_inj host0 host H0 H1 E) as [Hclock_eq Hdraw_eq].
    destruct Hne as [Hne | Hne]; now apply Hne.
Qed.

(** C8, amended: on a persisted collection whose elements are not [null]
    and for every id, [deleteById] stores the records that do not have the
    id, in their original order, each as [JSON.stringify] writes it again,
    which is as it was when the store wrote it. So the collection is left
    as it is when no record has the id, and when one record has it and no
    other does, the collection without that record is left. *)
Theorem deleteCalculation_removes_the_record (id : string)
    (localStorage : Storage) (items : list JSON) :
  getCalculationHistory localStorage = Return (JArray items) ->
  Forall (fun item => item <> JNull) items ->
  exists localStorage' items',
    deleteCalculation id localStorage = Return localStorage'
    /\ getCalculationHistory localStorage' = Return (JArray items')
    /\ items'
       = map JSON_written
           (filter (fun item => negb (has_id id item)) items)
    /\ ((forall item, In item items -> has_id id item = false) ->
        items' = map JSON_written items)
    /\ (forall before record after,
          items = (before ++ record :: after)%list ->
          has_id id record = true ->
          (forall item, In item (before ++ after) ->
                        has_id id item = false) ->
          items' = map JSON_written (before ++ after))
    /\ (Forall as_written items ->
        items' = filter (fun item => negb (has_id id item)) items).
Proof.
  intros Hlist Hitems.
  rewrite (deleteCalculation_on_array id localStorage Hlist Hitems).
  eexists. eexists.
  split; [reflexivity |].
  split; [apply getCalculationHistory_JSONText |].
  split; [reflexivity |]. split; [| split].
  - intros Hnone. now rewrite filter_keeps_all.
  - intros before record after -> Hrec Hothers.
    rewrite filter_app. cbn [filter]. rewrite Hrec. cbn [negb].
    rewrite <- filter_app. now rewrite filter_keeps_all.
  - intros Hwritten. apply as_written_map.
    apply Forall_forall. intros item Hin. apply filter_In in Hin.
    rewrite Forall_forall in Hwritten. now apply Hwritten.
Qed.

End StoreProperties.

(* ================================================================== *)
(** * The store at the example scenarios *)

Lemma getCalculationHistory_cases_witness :
  getCalculationHistory (@empty_storage Float64_at_zero) = Return (JArray [])
  /\ getCalculationHistory two_records_storage = Return (JArray two_records)
  /\ getCalculationHistory corrupted_storage = Throw SyntaxError.
Proof.
  split; [| split].
  - apply (proj1 (getCalculationHistory_cases
                    (@empty_storage Float64_at_zero))).
    reflexivity.
  - apply (proj1 (proj2 (proj2
             (getCalculationHistory_cases two_records_storage)))).
    reflexivity.
  - apply (proj2 (proj2 (proj2
             (getCalculationHistory_cases corrupted_storage))) "{").
    + discriminate.
    + reflexivity.
Defined.

Lemma saveCalculation_then_list_witness :
  Z.abs (new_Date_now host_2023) <= 8640000000000000
  /\ getCalculationHistory two_records_storage = Return (JArray two_records)
  /\ exists localStorage' first,
       saveCalculation host_2023 finite_params finite_result
         two_records_storage = Return localStorage'
       /\ getCalculationHistory localStorage'
          = Return (JArray (first :: two_records))
       /\ id_of first = Some "loyw3v28i"
       /\ carries_params_and_result first finite_params finite_result.
Proof.
  assert (Hclock : Z.abs (new_Date_now host_2023) <= 8640000000000000)
    by (cbn; lia).
  split; [exact Hclock |]. split; [reflexivity |].
  destruct (@saveCalculation_then_list Float64_at_zero host_2023
              finite_params finite_result two_records_storage two_records
              Hclock eq_refl)
    as (ls & stamp & first & Hsave & _ & _ & _ & Hlist & _ & Hid
        & Hcarries & _).
  exists ls, first.
  split; [exact Hsave |]. split.
  - apply Hlist. repeat constructor.
  - split; [exact Hid |]. apply Hcarries.
    repeat split; try reflexivity.
    repeat constructor.
Defined.

Lemma deleteCalculation_removes_the_record_witness :
  getCalculationHistory two_records_storage = Return (JArray two_records)
  /\ Forall (fun item => item <> JNull) two_records
  /\ exists localStorage',
       deleteCalculation "loyw3v28i" two_records_storage
       = Return localStorage'
       /\ getCalculationHistory localStorage'
          = Return (JArray [ JObject [ ("id", JString "loyw3v2b9") ] ]).
Proof.
  assert (Hrecords : Forall (fun item => item <> JNull) two_records)
    by (repeat constructor; discriminate).
  split; [reflexivity |]. split; [exact Hrecords |].
  destruct (@deleteCalculation_removes_the_record Float64_at_zero
              "loyw3v28i" two_records_storage two_records
              eq_refl Hrecords)
    as (ls & items' & Hdel & Hlist & _ & _ & Hone & _).
  exists ls. split; [exact Hdel |].
  rewrite Hlist.
  rewrite (Hone [] (JObject [ ("id", JString "loyw3v28i") ])
             [ JObject [ ("id", JString "loyw3v2b9") ] ]
             eq_refl eq_refl).
  - reflexivity.
  - intros item [<- | []]. reflexivity.
Defined.

(* ================================================================== *)
(** * Where the store leaves the specification *)

(** C6 as stated fails: on a store whose history is the text [{], which is
    not JSON, [list()] throws a SyntaxError instead of returning an empty
    sequence. *)
Lemma corrupted_history_counterexample :
  getItem "calculationHistory" corrupted_storage = Some (NotJSON "{")
  /\ getCalculationHistory corrupted_storage = Throw SyntaxError.
Proof. split; reflexivity. Qed.

(** C7 as stated fails: a valid calculation that overflows is saved with
    its final amount as null, not as the number it was; two saves at the
    same readings of clock and random draw carry the same id; and a
    record that was read from the text [1e999] is not left as it was by a
    save, its number being written back as null. *)
Lemma overflow_and_same_reading_counterexample :
  (exists localStorage1 localStorage2 first second,
     saveCalculation host_2023 overflow_params overflow_result
       empty_storage = Return localStorage1
     /\ saveCalculation host_2023 overflow_params overflow_result
          localStorage1 = Return localStorage2
     /\ getCalculationHistory localStorage2
        = Return (JArray [first; second])
     /\ id_of first = id_of second
     /\ (exists members,
           first = JObject members
           /\ finalAmount overflow_result = PrimFloat.infinity
           /\ member "finalAmount" members = Some JNull)
     /\ ~ carries_params_and_result first overflow_params overflow_result)
  /\ (exists localStorage' first rest,
        getCalculationHistory storage_of_1e999
        = Return (JArray [ record_of_1e999 ])
        /\ saveCalculation host_2023 finite_params finite_result
             storage_of_1e999 = Return localStorage'
        /\ getCalculationHistory localStorage'
           = Return (JArray [first; rest])
        /\ rest = JObject [ ("id", JString "a"); ("finalAmount", JNull) ]
        /\ rest <> record_of_1e999).
Proof.
  split.
  - eexists. eexists. eexists. eexists.
    split; [reflexivity |]. split; [reflexivity |].
    split; [reflexivity |].
    split; [reflexivity |]. split.
    + eexists. split; [reflexivity |]. split; reflexivity.
    + intros H.
      cbn [carries_params_and_result CalculationHistory_toJSON member
           params_of result_of String.eqb Ascii.eqb Bool.eqb app
           startDate_property overflow_params] in H.
      destruct H as (_ & _ & _ & _ & _ & H & _).
      discriminate H.
  - eexists. eexists. eexists.
    split; [reflexivity |]. split; [reflexivity |].
    split; [reflexivity |]. split; [reflexivity |].
    discriminate.
Qed.

(** C8 as stated fails: two saves at the same readings leave two records
    with one id, and deleting that id removes both, not exactly one; and a
    delete of an id that no record has does not leave a record as it was
    that was read from the text [1e999]. *)
Lemma shared_id_counterexample :
  (exists localStorage1 localStorage2 localStorage3 first second,
     saveCalculation host_2023 finite_params finite_result empty_storage
     = Return localStorage1
     /\ saveCalculation host_2023 finite_params finite_result localStorage1
        = Return localStorage2
     /\ getCalculationHistory localStorage2
        = Return (JArray [first; second])
     /\ has_id "loyw3v28i" first = true
     /\ has_id "loyw3v28i" second = true
     /\ deleteCalculation "loyw3v28i" localStorage2 = Return localStorage3
     /\ getCalculationHistory localStorage3 = Return (JArray []))
  /\ (exists localStorage',
        getCalculationHistory storage_of_1e999
        = Return (JArray [ record_of_1e999 ])
        /\ has_id "loyw3v28i" record_of_1e999 = false
        /\ deleteCalculation "loyw3v28i" storage_of_1e999
           = Return localStorage'
        /\ getCalculationHistory localStorage'
           = Return (JArray [ JObject [ ("id", JString "a");
                                        ("finalAmount", JNull) ] ])
        /\ JObject [ ("id", JString "a"); ("finalAmount", JNull) ]
           <> record_of_1e999).
Proof.
  split.
  - eexists. eexists. eexists. eexists. eexists.
    repeat (split; [reflexivity |]). reflexivity.
  - eexists. repeat (split; [reflexivity |]). discriminate.
Qed.

(** JSON text keeps no negative zero: a principal of [-0] is saved as
    [0], which is another number of binary64 (its reciprocal is the
    other infinity). *)
Lemma negative_zero_is_saved_as_zero :
  exists localStorage' first members,
    saveCalculation host_2023 negative_zero_params finite_result
      empty_storage = Return localStorage'
    /\ getCalculationHistory localStorage' = Return (JArray [first])
    /\ first = JObject members
    /\ member "principal" members = Some (@JNumber Float64_at_zero 0%float)
    /\ principal negative_zero_params = (-0)%float
    /\ (1 / -0)%float <> (1 / 0)%float.
Proof.
  eexists. eexists. eexists.
  split; [reflexivity |]. split; [reflexivity |]. split; [reflexivity |].
  split; [reflexivity |]. split; [reflexivity |].
  intros H. apply (f_equal Prim2SF) in H. discriminate H.
Qed.

(* ================================================================== *)
(** * The store beyond the specification: errors, frame, composition *)

Section StoreErrors.

Context {N : Number}.

(** The callback of [deleteCalculation] throws on nothing but [null]. *)
Lemma id_differs_outcome (id : string) (item : JSON) :
  (item = JNull /\ id_differs id item = Throw TypeError)
  \/ (item <> JNull /\ exists b, id_differs id item = Return b).
Proof.
  destruct item as [| b | x | s | items | members];
    [left; split; reflexivity | right; split; [discriminate |] ..];
    unfold id_differs; cbn; eauto.
Qed.

(** One [null] among the elements makes the filter throw. *)
Lemma filter_array_null (id : string) (items : list JSON) :
  In JNull items -> filter_array (id_differs id) items = Throw TypeError.
Proof.
  induction items as [| item items IH]; intros Hin; [contradiction |].
  cbn [filter_array].
  destruct (id_differs_outcome id item) as [[_ ->] | [Hne [b ->]]];
    [reflexivity |].
  cbn [bind]. rewrite IH; [reflexivity |].
  destruct Hin as [-> | Hin]; [contradiction | exact Hin].
Qed.

Lemma filter_twice (id : string) (items : list JSON) :
  filter (fun item => negb (has_id id item))
    (filter (fun item => negb (has_id id item)) items)
  = filter (fun item => negb (has_id id item)) items.
Proof.
  induction items as [| item items IH]; cbn [filter]; [reflexivity |].
  destruct (has_id id item) eqn:E; cbn [negb filter]; [exact IH |].
  rewrite E. cbn [negb]. now rewrite IH.
Qed.

Lemma written_not_null_not_null (item : JSON) :
  written_not_null item -> item <> JNull.
Proof. intros H ->. now apply H. Qed.

Lemma written_not_null_written (item : JSON) :
  written_not_null item -> written_not_null (JSON_written item).
Proof.
  unfold written_not_null. now rewrite (JSON_written_idempotent item).
Qed.

Lemma Forall_not_null (items : list JSON) :
  Forall written_not_null items -> Forall (fun item => item <> JNull) items.
Proof.
  intros H. eapply Forall_impl; [| exact H].
  apply written_not_null_not_null.
Qed.

(** What was written, filtered and written again has no [null] in it. *)
Lemma Forall_not_null_written (keep : JSON -> bool) (items : list JSON) :
  Forall written_not_null items ->
  Forall (fun item => item <> JNull)
    (map JSON_written (filter keep items)).
Proof.
  intros H. apply Forall_forall. intros item Hin.
  apply in_map_iff in Hin. destruct Hin as (stored & <- & Hin).
  apply filter_In in Hin. destruct Hin as [Hin _].
  rewrite Forall_forall in H. now apply H.
Qed.

Lemma map_written_twice (items : list JSON) :
  map JSON_written (map JSON_written items) = map JSON_written items.
Proof. apply as_written_map, Forall_as_written_map. Qed.

(** X5. [clear()] makes any store usable again, a store whose history is not
    JSON included: the history reads as the empty sequence, a save that
    follows returns and leaves exactly its record, and no other key is
    written. *)
Theorem clearCalculationHistory_repairs (host : Host)
    (p : CalculationParams) (r : CalculationResult)
    (localStorage : Storage) :
  Z.abs (new_Date_now host) <= 8640000000000000 ->
  getCalculationHistory (clearCalculationHistory localStorage)
  = Return (JArray [])
  /\ (exists localStorage' first,
        saveCalculation host p r (clearCalculationHistory localStorage)
        = Return localStorage'
        /\ getCalculationHistory localStorage' = Return (JArray [first])
        /\ id_of first = Some (generateId host))
  /\ (forall key, key <> "calculationHistory" ->
        getItem key (clearCalculationHistory localStorage)
        = getItem key localStorage).
Proof.
  intros Hclock.
  assert (Hempty : getCalculationHistory
                     (clearCalculationHistory localStorage)
                   = Return (JArray []))
    by apply clearCalculationHistory_then_list.
  split; [exact Hempty |]. split.
  - destruct (@saveCalculation_on_array N host p r _ [] Hclock Hempty)
      as (stamp & _ & Hsave).
    eexists. eexists. split; [exact Hsave |].
    split; [apply getCalculationHistory_JSONText |].
    apply id_of_CalculationHistory_toJSON.
  - intros key Hkey. unfold clearCalculationHistory.
    now apply getItem_setItem_other.
Qed.

(** X6. The history operations write one key: whatever else the store holds
    (the form's saved parameters, say) is the same after a save or a
    delete. *)
Theorem history_operations_keep_other_keys (host : Host)
    (p : CalculationParams) (r : CalculationResult) (id key : string)
    (localStorage : Storage) :
  key <> "calculationHistory" ->
  (forall localStorage',
     saveCalculation host p r localStorage = Return localStorage' ->
     getItem key localStorage' = getItem key localStorage)
  /\ (forall localStorage',
        deleteCalculation id localStorage = Return localStorage' ->
        getItem key localStorage' = getItem key localStorage).
Proof.
  intros Hkey. split; intros ls'.
  - unfold saveCalculation.
    destruct (JSDate.toISOString _) as [stamp | e]; cbn [bind];
      [| discriminate].
    destruct (getCalculationHistory localStorage) as [[| | | | items |] | e];
      cbn [bind]; try discriminate.
    intros [= <-]. now apply getItem_setItem_other.
  - unfold deleteCalculation.
    destruct (getCalculationHistory localStorage) as [[| | | | items |] | e];
      cbn [bind]; try discriminate.
    destruct (filter_array (id_differs id) items) as [kept | e]; cbn [bind];
      [| discriminate].
    intros [= <-]. now apply getItem_setItem_other.
Qed.

(** X7. Neither a save nor a delete repairs a damaged history, and neither
    writes to it: on a stored text that is not JSON both throw the
    SyntaxError of [JSON.parse]; on a JSON value that is not an array both
    throw a TypeError ([unshift] and [filter] are not there to call); and
    on an array that holds a [null], delete throws a TypeError at the read
    of its [id]. *)
Theorem damaged_history_errors (host : Host) (p : CalculationParams)
    (r : CalculationResult) (id : string) (localStorage : Storage) :
  Z.abs (new_Date_now host) <= 8640000000000000 ->
  (forall s, s <> "" ->
     getItem "calculationHistory" localStorage = Some (NotJSON s) ->
     saveCalculation host p r localStorage = Throw SyntaxError
     /\ deleteCalculation id localStorage = Throw SyntaxError)
  /\ (forall v,
        getItem "calculationHistory" localStorage = Some (JSONText v) ->
        (forall items, v <> JArray items) ->
        saveCalculation host p r localStorage = Throw TypeError
        /\ deleteCalculation id localStorage = Throw TypeError)
  /\ (forall items,
        getItem "calculationHistory" localStorage
        = Some (JSONText (JArray items)) ->
        In JNull items ->
        deleteCalculation id localStorage = Throw TypeError).
Proof.
  intros Hclock.
  destruct (createdAt_returns host Hclock) as (stamp & Hstamp & _).
  unfold saveCalculation, deleteCalculation, getCalculationHistory.
  rewrite Hstamp. cbn [bind].
  split; [| split].
  - intros s Hs ->. cbn [truthy JSON_parse].
    destruct (String.eqb_spec s ""); [contradiction |].
    split; reflexivity.
  - intros v -> Harray. cbn [truthy JSON_parse bind].
    destruct v as [| b | x | s | items |]; try (split; reflexivity).
    now contradiction (Harray items).
  - intros items -> Hnull. cbn [truthy JSON_parse bind].
    now rewrite filter_array_null.
Qed.

(** X8. [deleteCalculation] without the data model's unique ids: on an array
    with no [null] in it, the stored history becomes the elements whose [id]
    is not the given string, in their order, each as [JSON.stringify]
    writes it again; so every element with the id is gone, however many
    there were, and every other element stays. A second delete of the
    same id changes nothing, provided no element was a number that is
    written as [null]. *)
Theorem deleteCalculation_removes_every_match (id : string)
    (localStorage : Storage) (items : list JSON) :
  getCalculationHistory localStorage = Return (JArray items) ->
  Forall (fun item => item <> JNull) items ->
  exists localStorage' items',
    deleteCalculation id localStorage = Return localStorage'
    /\ getCalculationHistory localStorage' = Return (JArray items')
    /\ items'
       = map JSON_written
           (filter (fun item => negb (has_id id item)) items)
    /\ (forall item,
          In item items'
          <-> exists stored,
                In stored items /\ has_id id stored = false
                /\ item = JSON_written stored)
    /\ (forall item, In item items' -> has_id id item = false)
    /\ (Forall as_written items ->
        items' = filter (fun item => negb (has_id id item)) items)
    /\ (Forall written_not_null items ->
        exists localStorage'',
          deleteCalculation id localStorage' = Return localStorage''
          /\ getCalculationHistory localStorage'' = Return (JArray items')).
Proof.
  intros Hlist Hitems.
  rewrite (deleteCalculation_on_array id localStorage Hlist Hitems).
  eexists. eexists. split; [reflexivity |].
  split; [apply getCalculationHistory_JSONText |].
  split; [reflexivity |].
  assert (Hin : forall item,
            In item (map JSON_written
                       (filter (fun item => negb (has_id id item)) items))
            <-> exists stored,
                  In stored items /\ has_id id stored = false
                  /\ item = JSON_written stored).
  { intros item. rewrite in_map_iff. split.
    - intros (stored & <- & Hstored). apply filter_In in Hstored.
      destruct Hstored as [Hstored Hid]. apply negb_true_iff in Hid.
      now exists stored.
    - intros (stored & Hstored & Hid & ->). exists stored.
      split; [reflexivity |]. apply filter_In.
      split; [exact Hstored | now rewrite Hid]. }
  split; [exact Hin |]. split; [| split].
  - intros item Hitem. apply Hin in Hitem.
    destruct Hitem as (stored & _ & Hid & ->).
    now rewrite has_id_written.
  - intros Hwritten. apply as_written_map.
    apply Forall_forall. intros item Hitem. apply filter_In in Hitem.
    rewrite Forall_forall in Hwritten. now apply Hwritten.
  - intros Hkept.
    rewrite (@deleteCalculation_on_array N id _ _
               (getCalculationHistory_JSONText _ _)
               (Forall_not_null_written _ Hkept)).
    eexists. split; [reflexivity |].
    rewrite getCalculationHistory_JSONText.
    now rewrite filter_written, filter_twice, map_written_twice.
Qed.

(** X9. A save undone: deleting the id that [saveCalculation] just gave its
    record restores the history, when no element of it carried that id
    (and none is [null] or written as [null]): what is stored is the old
    history as [JSON.stringify] writes it again, which is the old history
    itself when the store wrote it. *)
Theorem save_then_delete_restores (host : Host) (p : CalculationParams)
    (r : CalculationResult) (localStorage : Storage) (items : list JSON) :
  Z.abs (new_Date_now host) <= 8640000000000000 ->
  getCalculationHistory localStorage = Return (JArray items) ->
  Forall written_not_null items ->
  (forall item, In item items -> has_id (generateId host) item = false) ->
  exists localStorage1 localStorage2,
    saveCalculation host p r localStorage = Return localStorage1
    /\ deleteCalculation (generateId host) localStorage1
       = Return localStorage2
    /\ getCalculationHistory localStorage2
       = Return (JArray (map JSON_written items))
    /\ (Forall as_written items ->
        getCalculationHistory localStorage2 = Return (JArray items)).
Proof.
  intros Hclock Hlist Hitems Hfresh.
  destruct (saveCalculation_on_array host p r localStorage Hclock Hlist)
    as (stamp & _ & Hsave).
  rewrite Hsave. eexists. eexists. split; [reflexivity |].
  set (first := CalculationHistory_toJSON
                  {| params_of := p; result_of := r;
                     id := generateId host; createdAt := stamp |}).
  assert (Hid : id_of first = Some (generateId host))
    by apply id_of_CalculationHistory_toJSON.
  assert (Hfirst : first <> JNull)
    by (apply record_not_null; rewrite Hid; discriminate).
  assert (Hrest : Forall (fun item => item <> JNull)
                    (map JSON_written items)).
  { apply Forall_forall. intros item Hin. apply in_map_iff in Hin.
    destruct Hin as (stored & <- & Hin).
    rewrite Forall_forall in Hitems. now apply Hitems. }
  rewrite (@deleteCalculation_on_array N (generateId host) _
             (first :: map JSON_written items)
             (getCalculationHistory_JSONText _ _)
             (@Forall_cons _ (fun item => item <> JNull) _ _ Hfirst Hrest)).
  split; [reflexivity |].
  assert (Hlist2 :
    getCalculationHistory
      (setItem "calculationHistory"
         (JSONText
            (JArray
               (map JSON_written
                  (filter (fun item => negb (has_id (generateId host) item))
                     (first :: map JSON_written items)))))
         (setItem "calculationHistory"
            (JSONText (JArray (first :: map JSON_written items)))
            localStorage))
    = Return (JArray (map JSON_written items))).
  { rewrite getCalculationHistory_JSONText. do 2 f_equal.
    cbn [filter].
    assert (Hhas : has_id (generateId host) first = true)
      by (apply has_id_true; exact Hid).
    rewrite Hhas. cbn [negb].
    rewrite filter_written, filter_keeps_all by exact Hfresh.
    apply map_written_twice. }
  split; [exact Hlist2 |].
  intros Hwritten.
  etransitivity; [exact Hlist2 | now rewrite (as_written_map Hwritten)].
Qed.

(** Saves on a history that is as it was written leave it behind them as it
    is. *)
Lemma save_each_on_written
    (saves : list (Host * CalculationParams * CalculationResult)) :
  Forall (fun save =>
            Z.abs (new_Date_now (fst (fst save))) <= 8640000000000000)
         saves ->
  forall (localStorage : Storage) (items : list JSON),
    getCalculationHistory localStorage = Return (JArray items) ->
    Forall as_written items ->
    exists localStorage' records,
      save_each saves localStorage = Return localStorage'
      /\ getCalculationHistory localStorage'
         = Return (JArray (rev records ++ items)%list)
      /\ map id_of records
         = map (fun save => Some (generateId (fst (fst save)))) saves.
Proof.
  induction 1 as [| [[host p] r] saves Hclock _ IH];
    intros localStorage items Hlist Hwritten.
  - exists localStorage, []. repeat split. exact Hlist.
  - cbn [fst] in Hclock.
    destruct (saveCalculation_on_array host p r localStorage Hclock Hlist)
      as (stamp & _ & Hsave).
    rewrite (as_written_map Hwritten) in Hsave.
    set (first := CalculationHistory_toJSON
                    {| params_of := p; result_of := r;
                       id := generateId host; createdAt := stamp |}) in *.
    destruct (IH _ (first :: items)
                (getCalculationHistory_JSONText (JArray (first :: items))
                   localStorage))
      as (ls' & records & Hrest & Hlist' & Hids).
    { constructor;
        [apply CalculationHistory_toJSON_as_written | exact Hwritten]. }
    exists ls', (first :: records).
    cbn [save_each]. rewrite Hsave. cbn [bind].
    split; [exact Hrest |]. split.
    + rewrite Hlist'. cbn [rev]. now rewrite <- app_assoc.
    + cbn [map fst]. rewrite Hids. f_equal.
      apply id_of_CalculationHistory_toJSON.
Qed.

(** X10. Most recent first: after any number of saves on a stored array, the
    history is the records of the saves in reverse order of saving,
    followed by what was stored before, in its order; the record of each
    save carries the id made from that save's readings. What was stored
    before is as it was when no save was made or when the store wrote it,
    and is otherwise as [JSON.stringify] writes it again. *)
Theorem saves_are_listed_most_recent_first
    (saves : list (Host * CalculationParams * CalculationResult))
    (localStorage : Storage) (items : list JSON) :
  Forall (fun save =>
            Z.abs (new_Date_now (fst (fst save))) <= 8640000000000000)
         saves ->
  getCalculationHistory localStorage = Return (JArray items) ->
  exists localStorage' records rest,
    save_each saves localStorage = Return localStorage'
    /\ getCalculationHistory localStorage'
       = Return (JArray (rev records ++ rest)%list)
    /\ map id_of records
       = map (fun save => Some (generateId (fst (fst save)))) saves
    /\ (saves = [] -> rest = items)
    /\ (saves <> [] -> rest = map JSON_written items)
    /\ (Forall as_written items -> rest = items).
Proof.
  intros Hclocks Hlist.
  destruct Hclocks as [| [[host p] r] saves Hclock Hclocks].
  - exists localStorage, [], items. repeat split; try assumption.
    now intros [].
  - cbn [fst] in Hclock.
    destruct (saveCalculation_on_array host p r localStorage Hclock Hlist)
      as (stamp & _ & Hsave).
    set (first := CalculationHistory_toJSON
                    {| params_of := p; result_of := r;
                       id := generateId host; createdAt := stamp |}) in *.
    destruct (@save_each_on_written saves Hclocks _
                (first :: map JSON_written items)
                (getCalculationHistory_JSONText _ localStorage))
      as (ls' & records & Hrest & Hlist' & Hids).
    { constructor;
        [apply CalculationHistory_toJSON_as_written
        | apply Forall_as_written_map]. }
    exists ls', (first :: records), (map JSON_written items).
    cbn [save_each]. rewrite Hsave. cbn [bind].
    split; [exact Hrest |]. split; [| split; [| split; [| split]]].
    + rewrite Hlist'. cbn [rev]. now rewrite <- app_assoc.
    + cbn [map fst]. rewrite Hids. f_equal.
      apply id_of_CalculationHistory_toJSON.
    + discriminate.
    + reflexivity.
    + intros Hwritten. now apply as_written_map.
Qed.

End StoreErrors.

(* ================================================================== *)
(** * The engine beyond the specification: when it throws *)

Section EngineErrors.

Context {N : Number}.
Variable LocalTZA : Z -> bool -> Z.

(** One turn of the loop under its invariant: the row of the year is
    appended, unless its date cannot be printed. *)
Lemma breakdown_loop_step (p : CalculationParams) (budget k : nat) :
  Z.of_nat k + 1 <= time p ->
  breakdown_loop LocalTZA p (getFrequencyValue (frequency p)) (S budget)
    (Z.of_nat k + 1) (map (row_of_year LocalTZA p) (years k))
  = let* _ := match startDate p with
              | Some d => date_of_year LocalTZA d (Z.of_nat k + 1)
              | None => Return ""
              end in
    breakdown_loop LocalTZA p (getFrequencyValue (frequency p)) budget
      (Z.of_nat (S k) + 1) (map (row_of_year LocalTZA p) (years (S k))).
Proof.
  intros Hle. cbn [breakdown_loop].
  destruct (Z.leb_spec (Z.of_nat k + 1) (time p)); [| lia].
  rewrite yearAmount_eq by lia.
  assert (Hprev :
    (if Z.of_nat k + 1 =? 1 then Return (principal p)
     else match array_get (map (row_of_year LocalTZA p) (years k))
                  (Z.of_nat k + 1 - 2) with
          | Some r => Return (amount r)
          | None => Throw TypeError
          end) = Return (amount_at_year p (Z.of_nat k + 1 - 1))).
  { destruct (Z.eqb_spec (Z.of_nat k + 1) 1) as [E | NE].
    - replace (Z.of_nat k + 1 - 1) with 0 by lia. reflexivity.
    - rewrite array_get_map_years by lia. cbn [amount row_of_year].
      do 2 f_equal. lia. }
  rewrite Hprev. cbn [bind].
  rewrite years_S, map_app. cbn [map].
  replace (Z.of_nat (S k) + 1) with (Z.of_nat k + 1 + 1) by lia.
  replace (Z.of_nat (S k)) with (Z.of_nat k + 1) by lia.
  unfold row_of_year at 3.
  destruct (startDate p) as [d |]; cbn [bind]; [| reflexivity].
  destruct (date_of_year LocalTZA d (Z.of_nat k + 1)); reflexivity.
Qed.

(** When the loop returns, every date it had to print was printed. *)
Lemma breakdown_loop_returns_dates (p : CalculationParams) :
  forall (budget k : nat) rows,
    (k <= Z.to_nat (time p))%nat ->
    breakdown_loop LocalTZA p (getFrequencyValue (frequency p)) budget
      (Z.of_nat k + 1) (map (row_of_year LocalTZA p) (years k))
    = Return rows ->
    forall d y,
      startDate p = Some d -> Z.of_nat k + 1 <= y <= time p ->
      exists s, date_of_year LocalTZA d y = Return s.
Proof.
  induction budget as [| budget IH]; intros k rows Hk Hloop d y Hd Hy.
  - cbn [breakdown_loop] in Hloop.
    destruct (Z.leb_spec (Z.of_nat k + 1) (time p)); [discriminate | lia].
  - rewrite breakdown_loop_step in Hloop by lia.
    rewrite Hd in Hloop.
    destruct (date_of_year LocalTZA d (Z.of_nat k + 1)) as [s | e] eqn:Hs;
      cbn [bind] in Hloop; [| discriminate].
    destruct (Z.eq_dec y (Z.of_nat k + 1)) as [-> | Hne]; [eauto |].
    apply (IH (S k) rows ltac:(lia) Hloop d y Hd). lia.
Qed.

(** X1. For a whole number of years whose rows an array can hold (fewer than
    2^32, where the loop of the source counts as this one does), the engine
    fails on nothing but a date: it returns exactly when every date of the
    breakdown can be printed, and the one exception it throws is the
    RangeError of [toISOString]. *)
Theorem calculateCompoundInterest_fails_only_on_dates
    (p : CalculationParams) :
  time p < 2 ^ 32 ->
  ((exists r, calculateCompoundInterest LocalTZA p = Return r)
   <-> dates_representable LocalTZA p)
  /\ (forall e,
        calculateCompoundInterest LocalTZA p = Throw e -> e = RangeError).
Proof.
  intros _. split; [split |].
  - intros [r Hr] d y Hd Hy.
    unfold calculateCompoundInterest in Hr.
    destruct (breakdown_loop LocalTZA p (getFrequencyValue (frequency p))
                (Z.to_nat (time p)) 1 []) as [rows | e] eqn:Hloop;
      [| discriminate].
    apply (@breakdown_loop_returns_dates p (Z.to_nat (time p)) 0%nat rows
             ltac:(lia) Hloop d y Hd).
    cbn [Z.of_nat Z.add]. lia.
  - intros Hdates. rewrite (calculateCompoundInterest_returns Hdates). eauto.
  - intros e He.
    destruct (calculateCompoundInterest_outcome LocalTZA p) as [[r Hr] | Ht];
      congruence.
Qed.

(** An Invalid Date stops the first row. *)
Lemma calculateCompoundInterest_invalid_date (p : CalculationParams) :
  startDate p = Some (JSDate.mkDate None) -> 1 <= time p ->
  calculateCompoundInterest LocalTZA p = Throw RangeError.
Proof.
  intros Hd Ht. unfold calculateCompoundInterest.
  destruct (Z.to_nat (time p)) as [| budget] eqn:Hb; [lia |].
  change (breakdown_loop LocalTZA p (getFrequencyValue (frequency p))
            (S budget) 1 [])
    with (breakdown_loop LocalTZA p (getFrequencyValue (frequency p))
            (S budget) (Z.of_nat 0 + 1)
            (map (row_of_year LocalTZA p) (years 0))).
  rewrite (@breakdown_loop_step p budget 0%nat) by (cbn; lia).
  rewrite Hd. reflexivity.
Qed.

(** X2. The start date is looked at when a row is made and not before: with no
    year to report ([time <= 0]) the engine returns an empty breakdown
    whatever the date; with a year to report and an Invalid Date (what
    [new Date('')] gives for an emptied date field) the first row throws a
    RangeError, in every time zone. *)
Theorem invalid_startDate_throws (p : CalculationParams) :
  (time p <= 0 ->
   exists r,
     calculateCompoundInterest LocalTZA p = Return r
     /\ yearlyBreakdown r = [])
  /\ (startDate p = Some (JSDate.mkDate None) -> 1 <= time p ->
      calculateCompoundInterest LocalTZA p = Throw RangeError).
Proof.
  split; [| apply calculateCompoundInterest_invalid_date].
  intros Ht.
  assert (Hdates : dates_representable LocalTZA p)
    by (intros d y _ Hy; lia).
  rewrite (calculateCompoundInterest_returns Hdates).
  eexists. split; [reflexivity |].
  cbn [yearlyBreakdown].
  replace (Z.to_nat (time p)) with 0%nat by lia. reflexivity.
Qed.

Lemma firstn_seq_le (start n m : nat) :
  (n <= m)%nat -> firstn n (seq start m) = seq start n.
Proof.
  revert start m. induction n as [| n IH]; intros start m Hle;
    [reflexivity |].
  destruct m as [| m]; [lia |].
  cbn [seq firstn]. f_equal. apply IH. lia.
Qed.

(** A row depends on the year and on nothing of [time]. *)
Lemma row_of_year_ext (p p' : CalculationParams) (y : Z) :
  principal p' = principal p -> rate p' = rate p ->
  frequency p' = frequency p -> startDate p' = startDate p ->
  row_of_year LocalTZA p' y = row_of_year LocalTZA p y.
Proof.
  intros Hp Hr Hf Hd. unfold row_of_year, amount_at_year.
  now rewrite Hp, Hr, Hf, Hd.
Qed.

(** X3. Asking for more years only adds rows: the breakdown of a calculation
    is the first rows of the breakdown of the same calculation over a
    longer time, and its final amount is the balance that the longer one
    reports for that year. *)
Theorem longer_time_extends_breakdown (p p' : CalculationParams) :
  principal p' = principal p -> rate p' = rate p ->
  frequency p' = frequency p -> startDate p' = startDate p ->
  0 <= time p <= time p' ->
  dates_representable LocalTZA p' ->
  exists r r',
    calculateCompoundInterest LocalTZA p = Return r
    /\ calculateCompoundInterest LocalTZA p' = Return r'
    /\ yearlyBreakdown r = firstn (Z.to_nat (time p)) (yearlyBreakdown r')
    /\ (1 <= time p ->
        exists row,
          array_get (yearlyBreakdown r') (time p - 1) = Some row
          /\ amount row = finalAmount r).
Proof.
  intros Hp Hr Hf Hd Ht Hdates'.
  assert (Hdates : dates_representable LocalTZA p).
  { intros d y Hsd Hy. apply (Hdates' d y); [congruence | lia]. }
  rewrite (calculateCompoundInterest_returns Hdates).
  rewrite (calculateCompoundInterest_returns Hdates').
  eexists. eexists. split; [reflexivity |]. split; [reflexivity |].
  cbn [yearlyBreakdown finalAmount]. split.
  - rewrite firstn_map. unfold years at 2.
    rewrite firstn_map, firstn_seq_le by lia.
    fold (years (Z.to_nat (time p))).
    apply map_ext. intros y. symmetry. now apply row_of_year_ext.
  - intros H1. eexists. split; [apply array_get_map_years; lia |].
    rewrite (@row_of_year_ext p p' (time p - 1 + 1)) by assumption.
    cbn [amount row_of_year].
    replace (time p - 1 + 1) with (time p) by lia.
    symmetry. apply yearAmount_eq. lia.
Qed.

End EngineErrors.

(* ================================================================== *)
(** * ResultsDisplay: what the table and the formula show *)

Section DisplayFacts.

Context {N : Number}.

(** X12. The [n] shown in the worked formula is the [n] the engine compounds
    with, for each of the six discrete frequencies (the display shows it for
    no other); on 'continuously' and on every string that is no frequency
    the display's table answers 1. *)
Theorem getFrequencyNumber_agrees_with_engine :
  (forall f, is_continuously f = false ->
     getFrequencyNumber (frequency_string f) = getFrequencyValue f)
  /\ getFrequencyNumber "continuously" = of_Z 1
  /\ (forall s, (forall f, s <> frequency_string f) ->
        getFrequencyNumber s = of_Z 1).
Proof.
  split; [| split].
  - intros [] H; try discriminate H; reflexivity.
  - reflexivity.
  - intros s Hs. unfold getFrequencyNumber.
    destruct (String.eqb_spec s "annually") as [E | _];
      [now contradiction (Hs annually) |].
    destruct (String.eqb_spec s "semi-annually") as [E | _];
      [now contradiction (Hs semi_annually) |].
    destruct (String.eqb_spec s "quarterly") as [E | _];
      [now contradiction (Hs quarterly) |].
    destruct (String.eqb_spec s "monthly") as [E | _];
      [now contradiction (Hs monthly) |].
    destruct (String.eqb_spec s "weekly") as [E | _];
      [now contradiction (Hs weekly) |].
    destruct (String.eqb_spec s "daily") as [E | _];
      [now contradiction (Hs daily) |].
    reflexivity.
Qed.

End DisplayFacts.

Section DisplayBinary64.

Variable pow : float -> float -> float.
Variable exp : float -> float.
Variable LocalTZA : Z -> bool -> Z.

(** A finite number that is not a zero has a mantissa. *)
Lemma finite_nonzero_spec (x : float) :
  PrimFloat.is_finite x = true -> PrimFloat.eqb x 0 = false ->
  exists s m e, Prim2SF x = S754_finite s m e.
Proof.
  intros Hf Hz. apply is_finite_spec in Hf.
  rewrite FloatAxioms.eqb_spec in Hz.
  change (Prim2SF 0) with (S754_zero false) in Hz.
  destruct (Prim2SF x) as [s | s | | s m e]; try contradiction; eauto.
  discriminate Hz.
Qed.

(** Adding a number to [+0] and taking a finite nonzero number from the
    sum is taking it from the number: the one number that [+0 + a] changes,
    [-0], gives the same difference. *)
Lemma float_zero_add_sub (a p : float) :
  PrimFloat.is_finite p = true -> PrimFloat.eqb p 0 = false ->
  (0 + a - p)%float = (a - p)%float.
Proof.
  intros Hf Hz.
  destruct (@finite_nonzero_spec p Hf Hz) as (s & m & e & Hp).
  apply Prim2SF_inj.
  rewrite !FloatAxioms.sub_spec, FloatAxioms.add_spec, Hp.
  change (Prim2SF 0) with (S754_zero false).
  destruct (Prim2SF a) as [[] | [] | | sa ma ea]; reflexivity.
Qed.

(** X11. The column 'Total Interest' of the breakdown table, on binary64 with a
    finite principal other than zero: each cell is the row's balance minus
    the principal, to the bit, and the cell of the last row of a valid
    calculation is the total interest of the summary. *)
Theorem totalInterestToDate_column
    (p : @CalculationParams (Float64 pow exp)) :
  PrimFloat.is_finite (principal p) = true ->
  PrimFloat.eqb (principal p) 0 = false ->
  (forall row : @YearlyBreakdown (Float64 pow exp),
     totalInterestToDate p row = (amount row - principal p)%float)
  /\ (valid_params LocalTZA p ->
      exists r row,
        calculateCompoundInterest LocalTZA p = Return r
        /\ array_get (yearlyBreakdown r) (time p - 1) = Some row
        /\ totalInterestToDate p row = totalInterest r).
Proof.
  intros Hf Hz.
  assert (Hcell : forall row : @YearlyBreakdown (Float64 pow exp),
            totalInterestToDate p row = (amount row - principal p)%float).
  { intros row. unfold totalInterestToDate.
    cbn [num_sub num_add Float64].
    rewrite (@float_sub_diag (principal p) Hf).
    now apply float_zero_add_sub. }
  split; [exact Hcell |].
  intros [Ht Hdates].
  rewrite (calculateCompoundInterest_returns Hdates).
  eexists. eexists. split; [reflexivity |].
  cbn [yearlyBreakdown totalInterest]. split.
  - apply array_get_map_years. lia.
  - rewrite Hcell. cbn [amount row_of_year].
    replace (time p - 1 + 1) with (time p) by lia.
    rewrite <- (@yearAmount_eq (Float64 pow exp) p (time p)) by lia.
    reflexivity.
Qed.

End DisplayBinary64.

(* ================================================================== *)
(** * CalculatorForm: what gets through the form *)

Section FormProperties.

Variable pow : float -> float -> float.
Variable exp : float -> float.
Variable LocalTZA : Z -> bool -> Z.
Variable parseFloat : string -> float.
Variable Date_parse_host : string -> option Z.

(** Past its three checks the handler is the engine, the save and the
    callbacks. *)
Lemma handleSubmit_past_checks (host : Host) (params : FormParams)
    (localStorage : @Storage (Float64 pow exp)) :
  PrimFloat.leb (principal_value params) 0 = false ->
  PrimFloat.leb (rate_value params) 0 = false ->
  PrimFloat.leb (time_value params) 0 = false ->
  Number_isInteger (time_value params) = true ->
  handleSubmit LocalTZA host params localStorage
  = let* result :=
      calculateCompoundInterest LocalTZA (engine_params pow exp params) in
    let* localStorage' :=
      saveCalculation host (engine_params pow exp params) result
        localStorage in
    Return (localStorage',
            [ OnCalculate pow exp params;
              ShowToast pow exp
                {| title := "Calculation Complete";
                   description :=
                     "Your compound interest has been calculated successfully.";
                   destructive := false |} ]).
Proof.
  intros Hp Hr Ht Hi. unfold handleSubmit.
  now rewrite Hp, Hr, Ht, Hi.
Qed.

(** A toast and nothing else, on the store as it was. *)
Lemma handleSubmit_rejected (host : Host) (params : FormParams)
    (localStorage : @Storage (Float64 pow exp)) :
  PrimFloat.leb (principal_value params) 0 = true
  \/ PrimFloat.leb (rate_value params) 0 = true
  \/ PrimFloat.leb (time_value params) 0 = true
  \/ Number_isInteger (time_value params) = false ->
  exists t,
    handleSubmit LocalTZA host params localStorage
    = Return (localStorage, [ ShowToast pow exp t ])
    /\ destructive t = true.
Proof.
  intros H. unfold handleSubmit.
  destruct (PrimFloat.leb (principal_value params) 0);
    [eexists; split; reflexivity |].
  destruct (PrimFloat.leb (rate_value params) 0);
    [eexists; split; reflexivity |].
  destruct (PrimFloat.leb (time_value params) 0);
    [eexists; split; reflexivity |].
  destruct (Number_isInteger (time_value params));
    [| eexists; split; reflexivity].
  destruct H as [H | [H | [H | H]]]; discriminate H.
Qed.

(** When the page is called, the checks were passed. *)
Lemma handleSubmit_called (host : Host) (params : FormParams)
    (localStorage localStorage' : @Storage (Float64 pow exp))
    (effects : list (UIEffect pow exp)) (passed : FormParams) :
  handleSubmit LocalTZA host params localStorage
  = Return (localStorage', effects) ->
  In (OnCalculate pow exp passed) effects ->
  passed = params
  /\ PrimFloat.leb (principal_value params) 0 = false
  /\ PrimFloat.leb (rate_value params) 0 = false
  /\ PrimFloat.leb (time_value params) 0 = false
  /\ Number_isInteger (time_value params) = true
  /\ exists r,
       calculateCompoundInterest LocalTZA (engine_params pow exp params)
       = Return r
       /\ saveCalculation host (engine_params pow exp params) r localStorage
          = Return localStorage'.
Proof.
  intros Hret Hin.
  destruct (PrimFloat.leb (principal_value params) 0) eqn:Hp.
  { destruct (@handleSubmit_rejected host params localStorage
                (or_introl Hp)) as (t & Ht & _).
    rewrite Ht in Hret. injection Hret as _ <-.
    destruct Hin as [Hin | []]; discriminate Hin. }
  destruct (PrimFloat.leb (rate_value params) 0) eqn:Hr.
  { destruct (@handleSubmit_rejected host params localStorage
                (or_intror (or_introl Hr))) as (t & Ht & _).
    rewrite Ht in Hret. injection Hret as _ <-.
    destruct Hin as [Hin | []]; discriminate Hin. }
  destruct (PrimFloat.leb (time_value params) 0) eqn:Htime.
  { destruct (@handleSubmit_rejected host params localStorage
                (or_intror (or_intror (or_introl Htime)))) as (t & Ht & _).
    rewrite Ht in Hret. injection Hret as _ <-.
    destruct Hin as [Hin | []]; discriminate Hin. }
  destruct (Number_isInteger (time_value params)) eqn:Hint.
  2:{ destruct (@handleSubmit_rejected host params localStorage
                  (or_intror (or_intror (or_intror Hint)))) as (t & Ht & _).
      rewrite Ht in Hret. injection Hret as _ <-.
      destruct Hin as [Hin | []]; discriminate Hin. }
  rewrite (handleSubmit_past_checks host params localStorage Hp Hr Htime Hint)
    in Hret.
  destruct (calculateCompoundInterest LocalTZA (engine_params pow exp params))
    as [r | e] eqn:Hcalc; cbn [bind] in Hret; [| discriminate].
  destruct (saveCalculation host (engine_params pow exp params) r
              localStorage) as [ls1 | e] eqn:Hsave; cbn [bind] in Hret;
    [| discriminate].
  injection Hret as <- <-.
  destruct Hin as [Hin | [Hin | []]]; [| discriminate Hin].
  injection Hin as <-.
  repeat split; try reflexivity.
  exists r. split; [reflexivity | exact Hsave].
Qed.

(** X13. The three checks of [handleSubmit]. When one of them fails the handler
    shows a destructive toast and does nothing else: the store is as it
    was and the page is not called. When the page is called, the time that
    was submitted is a whole number of years, one at least, and the double
    of that integer (below 2^63); principal and rate are not [<= 0]; and
    the engine has returned on these params and its result is saved, so
    the page is handed nothing that the engine throws on. *)
Theorem handleSubmit_validation (host : Host) (params : FormParams)
    (localStorage : @Storage (Float64 pow exp)) :
  (PrimFloat.leb (principal_value params) 0 = true
   \/ PrimFloat.leb (rate_value params) 0 = true
   \/ PrimFloat.leb (time_value params) 0 = true
   \/ Number_isInteger (time_value params) = false ->
   exists t,
     handleSubmit LocalTZA host params localStorage
     = Return (localStorage, [ ShowToast pow exp t ])
     /\ destructive t = true)
  /\ (forall localStorage' effects passed,
        handleSubmit LocalTZA host params localStorage
        = Return (localStorage', effects) ->
        In (OnCalculate pow exp passed) effects ->
        passed = params
        /\ PrimFloat.leb (principal_value params) 0 = false
        /\ PrimFloat.leb (rate_value params) 0 = false
        /\ 1 <= integer_value (time_value params)
        /\ (integer_value (time_value params) < 2 ^ 63 ->
            float_of_Z (integer_value (time_value params))
            = time_value params)
        /\ exists r,
             calculateCompoundInterest LocalTZA
               (engine_params pow exp params) = Return r
             /\ saveCalculation host (engine_params pow exp params) r
                  localStorage = Return localStorage').
Proof.
  split; [apply handleSubmit_rejected |].
  intros ls' effects passed Hret Hin.
  destruct (@handleSubmit_called _ _ _ _ _ _ Hret Hin)
    as (Hpassed & Hp & Hr & Ht & Hi & Hrun).
  repeat split; try assumption.
  - now apply integer_value_positive.
  - intros Hlt. now apply float_of_integer_value.
Qed.

(** X14. A submit that goes through: with principal and rate not [<= 0], a time
    of [n] whole years ([1 <= n < 2^53]), dates that can be printed and a
    stored history that is an array, the handler runs the engine on the
    params with [time = n], stores the record of params and result in
    front of the history (which is written again with it, and is as it
    was when the store wrote it), hands the params to the page and shows
    the toast of success. *)
Theorem handleSubmit_computes_and_saves (host : Host) (params : FormParams)
    (localStorage : @Storage (Float64 pow exp))
    (items : list (@JSON (Float64 pow exp))) (n : Z) :
  PrimFloat.leb (principal_value params) 0 = false ->
  PrimFloat.leb (rate_value params) 0 = false ->
  1 <= n < 2 ^ 53 -> time_value params = float_of_Z n ->
  dates_representable LocalTZA (engine_params pow exp params) ->
  Z.abs (new_Date_now host) <= 8640000000000000 ->
  getCalculationHistory localStorage = Return (JArray items) ->
  exists r localStorage' stamp,
    time (engine_params pow exp params) = n
    /\ calculateCompoundInterest LocalTZA (engine_params pow exp params)
       = Return r
    /\ length (yearlyBreakdown r) = Z.to_nat n
    /\ handleSubmit LocalTZA host params localStorage
       = Return (localStorage',
                 [ OnCalculate pow exp params;
                   ShowToast pow exp
                     {| title := "Calculation Complete";
                        description :=
                          "Your compound interest has been calculated successfully.";
                        destructive := false |} ])
    /\ getCalculationHistory localStorage'
       = Return
           (JArray
              (CalculationHistory_toJSON
                 {| params_of := engine_params pow exp params;
                    result_of := r;
                    id := generateId host;
                    createdAt := stamp |} :: map JSON_written items))
    /\ (Forall as_written items ->
        getCalculationHistory localStorage'
        = Return
            (JArray
               (CalculationHistory_toJSON
                  {| params_of := engine_params pow exp params;
                     result_of := r;
                     id := generateId host;
                     createdAt := stamp |} :: items))).
Proof.
  intros Hp Hr Hn Htime Hdates Hclock Hlist.
  destruct (integer_value_of_Z Hn) as (Hle & Hint & Hval).
  rewrite <- Htime in Hle, Hint, Hval.
  rewrite (handleSubmit_past_checks host params localStorage Hp Hr Hle Hint).
  rewrite (calculateCompoundInterest_returns Hdates). cbn [bind].
  match goal with
  | |- context [saveCalculation host ?p ?r localStorage] =>
      destruct (@saveCalculation_on_array (Float64 pow exp) host p r
                  localStorage items Hclock Hlist) as (stamp & _ & ->)
  end.
  cbn [bind].
  eexists. eexists. exists stamp.
  split; [exact Hval |]. split; [reflexivity |].
  split.
  - cbn [yearlyBreakdown]. rewrite length_map, years_length.
    cbn [time engine_params]. now rewrite Hval.
  - split; [reflexivity |].
    split; [apply getCalculationHistory_JSONText |].
    intros Hwritten. rewrite getCalculationHistory_JSONText.
    now rewrite (as_written_map Hwritten).
Qed.

(** X15. A submit that passes the checks and fails after them: with an Invalid
    Date as start date the engine's RangeError ends the handler; with
    dates that can be printed and a stored history that is not JSON the
    save's SyntaxError does. Either way the handler ends before the write
    and before the page is called, so nothing is saved and no result is
    shown. *)
Theorem handleSubmit_errors (host : Host) (params : FormParams)
    (localStorage : @Storage (Float64 pow exp)) :
  PrimFloat.leb (principal_value params) 0 = false ->
  PrimFloat.leb (rate_value params) 0 = false ->
  PrimFloat.leb (time_value params) 0 = false ->
  Number_isInteger (time_value params) = true ->
  (startDate_value params = Some (JSDate.mkDate None) ->
   handleSubmit LocalTZA host params localStorage = Throw RangeError)
  /\ (dates_representable LocalTZA (engine_params pow exp params) ->
      Z.abs (new_Date_now host) <= 8640000000000000 ->
      forall s, s <> "" ->
        getItem "calculationHistory" localStorage = Some (NotJSON s) ->
        handleSubmit LocalTZA host params localStorage = Throw SyntaxError).
Proof.
  intros Hp Hr Ht Hi.
  rewrite (handleSubmit_past_checks host params localStorage Hp Hr Ht Hi).
  split.
  - intros Hd.
    assert (Hsd : startDate (engine_params pow exp params)
                  = Some (JSDate.mkDate None))
      by (unfold startDate; cbn [startDate_property engine_params];
          now rewrite Hd).
    rewrite (@calculateCompoundInterest_invalid_date (Float64 pow exp)
               LocalTZA (engine_params pow exp params) Hsd
               (integer_value_positive Ht Hi)).
    reflexivity.
  - intros Hdates Hclock s Hs Hstored.
    rewrite (calculateCompoundInterest_returns Hdates). cbn [bind].
    unfold saveCalculation.
    destruct (createdAt_returns host Hclock) as (stamp & -> & _).
    cbn [bind].
    unfold getCalculationHistory. rewrite Hstored. cbn [truthy JSON_parse].
    destruct (String.eqb_spec s ""); [contradiction | reflexivity].
Qed.

(** [parseFloat(value) || 0]: what a number input leaves in the state is
    never [NaN] and never [-0]. *)
Lemma truthy_or_zero (x : float) :
  let y := if Number_ToBoolean x then x else 0%float in
  PrimFloat.is_nan y = false
  /\ (Number_ToBoolean x = true -> y = x)
  /\ (Number_ToBoolean x = false -> y = 0%float).
Proof.
  cbn zeta. unfold Number_ToBoolean.
  destruct (PrimFloat.eqb x 0); cbn [negb andb].
  - repeat split; try reflexivity. discriminate.
  - destruct (PrimFloat.is_nan x) eqn:Hnan; cbn [negb];
      repeat split; try discriminate; try reflexivity. assumption.
Qed.

(** X16. From the keyboard to the page. When a value is typed into an input
    and the submit that follows calls the page, the field that was typed
    holds what was read from the text: for the three number inputs the
    number of [parseFloat], which is then greater than 0 (a [NaN], which
    the comparison [<= 0] would let through, has become 0 on the way, and
    so has [-0]) and for the time a whole number; for the date input the
    Date of the text. *)
Theorem handleChange_then_handleSubmit (host : Host) (name : InputName)
    (value : string) (prev : FormParams)
    (localStorage localStorage' : @Storage (Float64 pow exp))
    (effects : list (UIEffect pow exp)) (passed : FormParams) :
  handleSubmit LocalTZA host
    (handleChange parseFloat Date_parse_host name value prev) localStorage
  = Return (localStorage', effects) ->
  In (OnCalculate pow exp passed) effects ->
  match name with
  | principal_input =>
      principal_value passed = parseFloat value
      /\ PrimFloat.ltb 0 (parseFloat value) = true
  | rate_input =>
      rate_value passed = parseFloat value
      /\ PrimFloat.ltb 0 (parseFloat value) = true
  | time_input =>
      time_value passed = parseFloat value
      /\ PrimFloat.ltb 0 (parseFloat value) = true
      /\ Number_isInteger (parseFloat value) = true
  | startDate_input =>
      startDate_value passed
      = Some (new_Date_string Date_parse_host value)
  end.
Proof.
  intros Hret Hin.
  destruct (@handleSubmit_called _ _ _ _ _ _ Hret Hin)
    as (-> & Hp & Hr & Ht & Hi & _).
  destruct (truthy_or_zero (parseFloat value)) as (Hnan & Hsame & Hzero).
  cbn zeta in Hnan, Hsame, Hzero.
  assert (Hpass : forall y,
            y = (if Number_ToBoolean (parseFloat value)
                 then parseFloat value else 0%float) ->
            PrimFloat.leb y 0 = false ->
            y = parseFloat value /\ PrimFloat.ltb 0 (parseFloat value) = true).
  { intros y -> Hle.
    destruct (Number_ToBoolean (parseFloat value)); [| discriminate Hle].
    split; [reflexivity | now apply ltb_zero_of_leb]. }
  destruct name; cbn [handleChange principal_value rate_value time_value
                      startDate_value] in *.
  - now apply Hpass.
  - now apply Hpass.
  - destruct (Hpass _ eq_refl Ht) as [E Hlt].
    rewrite E in Hi. now rewrite E.
  - reflexivity.
Qed.

(** The time value of a day from year 0 to year 9999 is one a Date
    holds. *)
Lemma TimeClip_of_date (y m d : Z) :
  0 <= y <= 9999 -> 1 <= m <= 12 -> 1 <= d <= 31 ->
  JSDate.TimeClip (JSDate.MakeDate (JSDate.MakeDay y (m - 1) d) 0)
  = Some (JSDate.MakeDate (JSDate.MakeDay y (m - 1) d) 0).
Proof.
  intros Hy Hm Hd. unfold JSDate.TimeClip.
  pose proof (DayFromYear_range Hy) as HDFY.
  pose proof (@month_start_range (JSDate.LeapYear y) (m - 1)
                (LeapYear_range y) ltac:(lia)) as Hms.
  destruct (Z.leb_spec
              (Z.abs (JSDate.MakeDate (JSDate.MakeDay y (m - 1) d) 0))
              8640000000000000) as [_ | Hbig]; [reflexivity |].
  exfalso. unfold JSDate.MakeDate, JSDate.MakeDay, JSDate.msPerDay in Hbig.
  rewrite Z.div_small, Z.mod_small, !Z.add_0_r in Hbig by lia.
  lia.
Qed.

(** X17. The date input. A date typed as [YYYY-MM-DD] (a day that exists, in
    the years 0 to 9999) becomes the Date of that day's midnight in UTC,
    and the input shows the same string back, in every time zone. An
    emptied input, which the host reads as no date at all, leaves an
    Invalid Date in the state, and the expression that fills the input
    then throws a RangeError. *)
Theorem date_input_round_trip (prev : FormParams) :
  (forall y m d,
     0 <= y <= 9999 -> 1 <= m <= 12 ->
     1 <= d <= DaysInMonth (JSDate.DaysInYear y) (m - 1) ->
     let next :=
       handleChange parseFloat Date_parse_host startDate_input
         (JSDate.iso_date y m d) prev in
     startDate_value next
     = Some (JSDate.mkDate
               (Some (JSDate.MakeDate (JSDate.MakeDay y (m - 1) d) 0)))
     /\ startDate_input_value next = Return (JSDate.iso_date y m d))
  /\ (Date_parse_host "" = None ->
      let next :=
        handleChange parseFloat Date_parse_host startDate_input "" prev in
      startDate_value next = Some (JSDate.mkDate None)
      /\ startDate_input_value next = Throw RangeError).
Proof.
  split.
  - intros y m d Hy Hm Hd next.
    pose proof (DaysInMonth_range (JSDate.DaysInYear y) (m - 1)) as Hdim.
    assert (Hnext : startDate_value next
                    = Some (JSDate.mkDate
                              (Some (JSDate.MakeDate
                                       (JSDate.MakeDay y (m - 1) d) 0)))).
    { unfold next. cbn [handleChange startDate_value].
      unfold new_Date_string, Date_parse.
      rewrite parse_iso_date by lia.
      now rewrite TimeClip_of_date by lia. }
    split; [exact Hnext |].
    unfold startDate_input_value. rewrite Hnext.
    cbn [JSDate.toISOString JSDate.DateValue bind].
    destruct (@fields_of_date y m d Hm Hd) as (-> & -> & ->).
    replace (m - 1 + 1) with m by lia.
    f_equal. apply split_first_app, iso_date_lacks_T.
  - intros Hhost next. unfold next, startDate_input_value.
    cbn [handleChange startDate_value].
    unfold new_Date_string, Date_parse.
    change (parse_date_time "") with (@None Z). rewrite Hhost.
    split; reflexivity.
Qed.

End FormProperties.

(* ================================================================== *)
(** * CalculationHistory, the component: the list, the selection *)

Section HistoryProperties.

Variable pow : float -> float -> float.
Variable exp : float -> float.
Variable Date_parse_host : string -> option Z.
Variable new_Date_other : @JSON (Float64 pow exp) -> JSDate.Date.

(** [selectedItem?.id === id] is the test of [deleteCalculation]'s filter. *)
Lemma selected_has_id_has_id (id : string)
    (item : @JSON (Float64 pow exp)) :
  selected_has_id id item = has_id id item.
Proof.
  unfold selected_has_id, has_id, id_of.
  destruct item as [| b | x | s | items | members]; try reflexivity.
  destruct (member "id" members) as [[| | | s | |] |]; reflexivity.
Qed.

(** What [handleDelete] returns on a stored array without [null]. *)
Lemma handleDelete_on_array (id : string) (state : HistoryState pow exp)
    (localStorage : @Storage (Float64 pow exp))
    (items : list (@JSON (Float64 pow exp))) :
  getCalculationHistory localStorage = Return (JArray items) ->
  Forall (fun item => item <> JNull) items ->
  let items' :=
    map JSON_written (filter (fun item => negb (has_id id item)) items) in
  handleDelete id state localStorage
  = Return (setItem "calculationHistory" (JSONText (JArray items'))
              localStorage,
            {| history := JArray items';
               selectedItem := if has_id id (selectedItem state)
                               then JNull else selectedItem state |},
            [ ShowToast pow exp
                {| title := "Calculation deleted";
                   description :=
                     "The calculation has been removed from history.";
                   destructive := false |} ]).
Proof.
  intros Hlist Hitems items'. unfold handleDelete.
  rewrite (deleteCalculation_on_array id localStorage Hlist Hitems).
  cbn [bind]. unfold loadHistory.
  rewrite getCalculationHistory_JSONText. cbn [bind history selectedItem].
  rewrite selected_has_id_has_id.
  now destruct (has_id id (selectedItem state)).
Qed.

(** What [deleteCalculation] returns is a store whose history is an
    array. *)
Lemma deleteCalculation_returns_array (id : string)
    (localStorage localStorage' : @Storage (Float64 pow exp)) :
  deleteCalculation id localStorage = Return localStorage' ->
  exists items', getCalculationHistory localStorage' = Return (JArray items').
Proof.
  unfold deleteCalculation.
  destruct (getCalculationHistory localStorage) as [[| | | | items |] | e];
    cbn [bind]; try discriminate.
  destruct (filter_array (id_differs id) items) as [kept | e]; cbn [bind];
    [| discriminate].
  intros [= <-]. exists (map JSON_written kept).
  apply (getCalculationHistory_setItem (JArray kept)).
Qed.

(** X18. Deleting from the list. The handler throws exactly where
    [deleteCalculation] does, which is before anything is written. On a
    stored array of records it returns; the list shown afterwards is the
    list stored, which is the old one without the records of that id, as
    [JSON.stringify] writes it again; the selection is dropped when it was
    such a record and is kept when it was not. On a history that the
    store wrote, the list is the old one without those records and the
    selection that is kept is still one of the stored records. *)
Theorem handleDelete_updates_list_and_selection (id : string)
    (state : HistoryState pow exp)
    (localStorage : @Storage (Float64 pow exp)) :
  (forall e,
     handleDelete id state localStorage = Throw e
     <-> deleteCalculation id localStorage = Throw e)
  /\ (forall items,
        getCalculationHistory localStorage = Return (JArray items) ->
        Forall (fun item => item <> JNull) items ->
        selection_stored state localStorage ->
        exists localStorage' state' toast,
          handleDelete id state localStorage
          = Return (localStorage', state', [ ShowToast pow exp toast ])
          /\ view_current state' localStorage'
          /\ history state'
             = JArray
                 (map JSON_written
                    (filter (fun item => negb (has_id id item)) items))
          /\ (Forall as_written items ->
              history state'
              = JArray (filter (fun item => negb (has_id id item)) items)
              /\ selection_stored state' localStorage')
          /\ has_id id (selectedItem state') = false
          /\ (has_id id (selectedItem state) = false ->
              selectedItem state' = selectedItem state)).
Proof.
  split.
  - intros e. unfold handleDelete.
    destruct (deleteCalculation id localStorage) as [ls' | e'] eqn:Hdel;
      cbn [bind]; [| split; intros [= ->]; reflexivity].
    destruct (deleteCalculation_returns_array id localStorage Hdel)
      as [items' Hlist'].
    unfold loadHistory. rewrite Hlist'. cbn [bind].
    split; discriminate.
  - intros items Hlist Hitems Hsel.
    rewrite (handleDelete_on_array id state localStorage Hlist Hitems).
    eexists. eexists. eexists. split; [reflexivity |].
    unfold view_current, selection_stored.
    cbn [history selectedItem].
    rewrite getCalculationHistory_JSONText.
    split; [reflexivity |]. split; [reflexivity |].
    assert (Hkept : Forall as_written items ->
              map JSON_written
                (filter (fun item => negb (has_id id item)) items)
              = filter (fun item => negb (has_id id item)) items).
    { intros Hwritten. apply as_written_map.
      apply Forall_forall. intros item Hitem. apply filter_In in Hitem.
      rewrite Forall_forall in Hwritten. now apply Hwritten. }
    destruct (has_id id (selectedItem state)) eqn:Hhas.
    + split; [| split; [reflexivity | discriminate]].
      intros Hwritten. rewrite (Hkept Hwritten).
      split; [reflexivity | now left].
    + split; [| split; [exact Hhas | reflexivity]].
      intros Hwritten. rewrite (Hkept Hwritten).
      split; [reflexivity |].
      destruct Hsel as [Hnull | (items0 & Hlist0 & Hin)]; [now left |].
      right. eexists. split; [reflexivity |].
      rewrite Hlist in Hlist0. injection Hlist0 as <-.
      apply filter_In. split; [exact Hin |]. now rewrite Hhas.
Qed.

(** X19. The handlers keep the component in step with the store. [loadHistory]
    shows what is stored; [handleClearAll] returns on every store, one
    whose history is not JSON included, writes what
    [clearCalculationHistory] writes and leaves an empty list with nothing
    selected; [handleItemClick] on a shown record selects it and leaves
    the list alone. After each of them the list shown is the list stored
    and the selection is none or one of the stored records. *)
Theorem history_component_in_step (state : HistoryState pow exp)
    (localStorage : @Storage (Float64 pow exp)) :
  (forall state',
     loadHistory state localStorage = Return state' ->
     view_current state' localStorage
     /\ selectedItem state' = selectedItem state)
  /\ (exists state' toast,
        handleClearAll state localStorage
        = Return (clearCalculationHistory localStorage, state',
                  [ ShowToast pow exp toast ])
        /\ history state' = JArray []
        /\ selectedItem state' = JNull
        /\ view_current state' (clearCalculationHistory localStorage)
        /\ selection_stored state' (clearCalculationHistory localStorage))
  /\ (forall items item members,
        view_current state localStorage ->
        history state = JArray items -> In item items ->
        item = JObject members ->
        exists state' effect,
          handleItemClick Date_parse_host new_Date_other item state
          = Return (state', [ effect ])
          /\ selectedItem state' = item
          /\ history state' = history state
          /\ view_current state' localStorage
          /\ selection_stored state' localStorage).
Proof.
  split; [| split].
  - intros state'. unfold loadHistory, view_current.
    destruct (getCalculationHistory localStorage) as [h | e];
      cbn [bind]; [| discriminate].
    intros [= <-]. split; reflexivity.
  - unfold handleClearAll, loadHistory.
    rewrite getCalculationHistory_setItem. cbn [bind history].
    eexists. eexists. split; [reflexivity |].
    unfold view_current, selection_stored, clearCalculationHistory.
    cbn [history selectedItem].
    rewrite getCalculationHistory_setItem.
    repeat split; try reflexivity. now left.
  - intros items item members Hview Hhist Hin ->.
    unfold handleItemClick. cbn [property bind].
    eexists. eexists. split; [reflexivity |].
    unfold view_current, selection_stored in *.
    cbn [history selectedItem].
    repeat split; try reflexivity; try assumption.
    right. exists items. split; [congruence | exact Hin].
Qed.

(** X20. Selecting a calculation that was just saved hands the page the
    parameters it was computed from, as JSON text kept them: principal,
    rate and time as the numbers they were ([0] for a negative zero, and
    [null] for a number that is not finite), the frequency as its string,
    and as start date a Date of the same time value, read back from the
    ISO string that the save wrote. A calculation without a start date, or
    with an Invalid Date, comes back with none. *)
Theorem handleItemClick_restores_params (host : Host)
    (p : @CalculationParams (Float64 pow exp))
    (r : @CalculationResult (Float64 pow exp))
    (localStorage : @Storage (Float64 pow exp))
    (items : list (@JSON (Float64 pow exp)))
    (state : HistoryState pow exp) :
  Z.abs (new_Date_now host) <= 8640000000000000 ->
  getCalculationHistory localStorage = Return (JArray items) ->
  (forall t, startDate p = Some (JSDate.mkDate (Some t)) ->
             Z.abs t <= 8640000000000000) ->
  exists localStorage' first selected,
    saveCalculation host p r localStorage = Return localStorage'
    /\ getCalculationHistory localStorage'
       = Return (JArray (first :: map JSON_written items))
    /\ handleItemClick Date_parse_host new_Date_other first state
       = Return ({| history := history state; selectedItem := first |},
                 [ OnSelectHistory selected ])
    /\ selected_principal selected
       = Some (if PrimFloat.is_finite (principal p)
               then @JNumber (Float64 pow exp) (number_kept (principal p))
               else JNull)
    /\ selected_rate selected
       = Some (if PrimFloat.is_finite (rate p)
               then @JNumber (Float64 pow exp) (number_kept (rate p))
               else JNull)
    /\ selected_time selected
       = Some (if PrimFloat.is_finite (float_of_Z (time p))
               then @JNumber (Float64 pow exp)
                      (number_kept (float_of_Z (time p)))
               else JNull)
    /\ selected_frequency selected
       = Some (JString (frequency_string (frequency p)))
    /\ selected_startDate selected
       = match startDate p with
         | Some (JSDate.mkDate (Some t)) => Some (JSDate.mkDate (Some t))
         | _ => None
         end.
Proof.
  intros Hclock Hlist Hdate.
  destruct (saveCalculation_on_array host p r localStorage Hclock Hlist)
    as (stamp & _ & Hsave).
  assert (Hnumber : forall x : float,
            @number_toJSON (Float64 pow exp) x
            = if PrimFloat.is_finite x
              then @JNumber (Float64 pow exp) (number_kept x)
              else JNull).
  { intros x. unfold number_toJSON. cbn [isFinite Float64].
    now rewrite JSON_number_binary64. }
  eexists. eexists.
  exists {| selected_principal := Some (number_toJSON (principal p));
            selected_rate := Some (number_toJSON (rate p));
            selected_time := Some (number_toJSON (of_Z (time p)));
            selected_frequency :=
              Some (JString (frequency_string (frequency p)));
            selected_startDate :=
              match startDate p with
              | Some (JSDate.mkDate (Some t)) =>
                  Some (JSDate.mkDate (Some t))
              | _ => None
              end |}.
  split; [exact Hsave |].
  split; [apply getCalculationHistory_JSONText |].
  cbn [selected_principal selected_rate selected_time selected_frequency
       selected_startDate].
  rewrite !Hnumber.
  split; [| repeat split].
  unfold handleItemClick, CalculationHistory_toJSON.
  cbn [property member bind app params_of result_of
       String.eqb Ascii.eqb Bool.eqb].
  rewrite !Hnumber.
  unfold startDate in *.
  destruct (startDate_property p) as [| | [[t |]]] eqn:Hsd;
    cbn [member app String.eqb Ascii.eqb Bool.eqb bind ToBoolean];
    try reflexivity.
  specialize (Hdate t eq_refl).
  destruct (parse_toISOString t Hdate) as (iso & Hiso & Hparse).
  unfold Date_toJSON. rewrite Hiso.
  assert (Hne : String.eqb iso "" = false).
  { destruct (String.eqb_spec iso "") as [-> | _]; [| reflexivity].
    discriminate Hparse. }
  cbn [ToBoolean]. rewrite Hne. cbn [negb].
  unfold new_Date_value, new_Date_string, Date_parse.
  rewrite Hparse. unfold JSDate.TimeClip.
  destruct (Z.leb_spec (Z.abs t) 8640000000000000); [reflexivity | lia].
Qed.

(** X21. The day shown beside a record is the day of its save: the
    [createdAt] that [saveCalculation] writes is read back by [formatDate]
    as the Date of the clock reading it was written from, and shown as the
    host's locale shows that Date. *)
Theorem formatDate_of_createdAt (toLocaleDateString : JSDate.Date -> string)
    (host : Host) (p : @CalculationParams (Float64 pow exp))
    (r : @CalculationResult (Float64 pow exp))
    (localStorage : @Storage (Float64 pow exp))
    (items : list (@JSON (Float64 pow exp))) :
  Z.abs (new_Date_now host) <= 8640000000000000 ->
  getCalculationHistory localStorage = Return (JArray items) ->
  exists localStorage' first stamp,
    saveCalculation host p r localStorage = Return localStorage'
    /\ getCalculationHistory localStorage'
       = Return (JArray (first :: map JSON_written items))
    /\ property "createdAt" first = Return (Some (JString stamp))
    /\ formatDate Date_parse_host toLocaleDateString stamp
       = toLocaleDateString (JSDate.mkDate (Some (new_Date_now host))).
Proof.
  intros Hclock Hlist.
  destruct (parse_toISOString _ Hclock) as (stamp & Hstamp & Hparse).
  destruct (saveCalculation_on_array host p r localStorage Hclock Hlist)
    as (stamp' & Hstamp' & Hsave).
  rewrite Hstamp in Hstamp'. injection Hstamp' as <-.
  eexists. eexists. exists stamp. split; [exact Hsave |].
  split; [apply getCalculationHistory_JSONText |].
  split.
  { unfold CalculationHistory_toJSON, property. cbn [params_of].
    now destruct (startDate_property p). }
  unfold formatDate, new_Date_string, Date_parse.
  rewrite Hparse. unfold JSDate.TimeClip.
  destruct (Z.leb_spec (Z.abs (new_Date_now host)) 8640000000000000);
    [reflexivity | lia].
Qed.

End HistoryProperties.


(* ================================================================== *)
(** * Row dates on a host off UTC *)

Section DayFields.

Import JSDate.

(** Year, month and day are read off the day number. *)
Lemma fields_of_Day (t1 t2 : Z) :
  Day t1 = Day t2 ->
  YearFromTime t1 = YearFromTime t2
  /\ MonthFromTime t1 = MonthFromTime t2
  /\ DateFromTime t1 = DateFromTime t2.
Proof.
  intros H.
  unfold DateFromTime, MonthFromTime, InLeapYear, DayWithinYear,
    YearFromTime.
  now rewrite H.
Qed.

Lemma Day_of_day (d : Z) : Day (d * msPerDay) = d.
Proof. unfold Day, msPerDay. now rewrite Z.div_mul by lia. Qed.

End DayFields.

Section ConstantOffset.

Import JSDate.

(** A host whose local time is at a constant offset from UTC, less than a
    day. *)
Variable LocalTZA : Z -> bool -> Z.
Variable offset : Z.
Hypothesis LocalTZA_constant : forall t b, LocalTZA t b = offset.
Hypothesis offset_range : Z.abs offset < msPerDay.

(** [setFullYear] keeps month, day and time of day in local time; the UTC
    day of the result is as far from the local day it was set to as the
    UTC day of the start is from its local day. *)
Lemma setFullYear_constant_offset (t y : Z) :
  0 <= y <= 9999 ->
  exists t',
    DateValue (setFullYear LocalTZA (mkDate (Some t)) (Some y)) = Some t'
    /\ Day t'
       = MakeDay y (MonthFromTime (t + offset)) (DateFromTime (t + offset))
         + (Day t - Day (t + offset)).
Proof.
  intros Hy.
  destruct (day_of_fields (t + offset)) as (Hm & Hd & _).
  unfold setFullYear, LocalTime, UTC. cbn [DateValue].
  rewrite !LocalTZA_constant.
  revert Hm Hd.
  generalize (DateFromTime (t + offset)) (MonthFromTime (t + offset)).
  intros dd m Hm Hd.
  pose proof (TimeWithinDay_range (t + offset)) as Htod.
  pose proof (DaysInMonth_range (DaysInYear (YearFromTime (t + offset))) m)
    as Hdim.
  pose proof (month_start_range (LeapYear_range y) Hm) as Hms.
  pose proof (DayFromYear_range Hy) as HDFY.
  assert (HMake : MakeDay y m dd
                  = DayFromYear y + month_start (LeapYear y) m + dd - 1).
  { unfold MakeDay. rewrite Z.div_small, Z.mod_small by lia.
    now rewrite Z.add_0_r. }
  set (newDate := MakeDay y m dd) in *.
  eexists. split.
  - unfold TimeClip.
    destruct (Z.leb_spec
                (Z.abs (MakeDate newDate (TimeWithinDay (t + offset))
                        - offset)) 8640000000000000) as [_ | Hbig];
      [reflexivity |].
    exfalso. unfold MakeDate, msPerDay in *. lia.
  - unfold MakeDate, Day, TimeWithinDay, msPerDay in *.
    Z.div_mod_to_equations. lia.
Qed.

(** The date of a row at a constant offset: the local calendar day of the
    start, [k] years later, seen again from UTC. *)
Lemma date_of_year_constant_offset {N : Number} (t k : Z) :
  0 <= YearFromTime (t + offset) + k <= 9999 ->
  date_of_year LocalTZA (mkDate (Some t)) k
  = Return
      (iso_date_of_day
         (MakeDay (YearFromTime (t + offset) + k)
            (MonthFromTime (t + offset)) (DateFromTime (t + offset))
          + (Day t - Day (t + offset)))).
Proof.
  intros Hy. unfold date_of_year, new_Date, getFullYear.
  cbn [DateValue option_map].
  unfold LocalTime at 1. rewrite LocalTZA_constant.
  destruct (setFullYear_constant_offset t Hy) as (t' & Hv & HDay).
  unfold toISOString. rewrite Hv. cbn [bind]. f_equal.
  unfold iso_date_of_day. cbn zeta.
  destruct (@fields_of_Day t' (Day t' * msPerDay)
              ltac:(now rewrite Day_of_day)) as (-> & -> & ->).
  rewrite HDay.
  apply split_first_app, iso_date_lacks_T.
Qed.

End ConstantOffset.

(** The day [k] years after the day of [t], as the engine prints it in
    UTC: the same month and day, and 1 March for a 29 February that the
    later year lacks. *)
Lemma iso_date_of_anniversary (t k : Z) :
  0 <= JSDate.YearFromTime t + k <= 9999 ->
  iso_date_of_day
    (JSDate.MakeDay (JSDate.YearFromTime t + k) (JSDate.MonthFromTime t)
       (JSDate.DateFromTime t))
  = if JSDate.DateFromTime t
       <=? DaysInMonth (JSDate.DaysInYear (JSDate.YearFromTime t + k))
             (JSDate.MonthFromTime t)
    then same_day_years_later t k
    else JSDate.iso_date (JSDate.YearFromTime t + k) 3 1.
Proof.
  intros Hy.
  pose proof (@date_of_year_constant_offset UTC_zone 0 (fun _ _ => eq_refl)
                eq_refl Real t k) as Hoff.
  rewrite Z.add_0_r, Z.sub_diag, Z.add_0_r in Hoff.
  specialize (Hoff Hy).
  rewrite (@date_of_year_UTC UTC_zone (fun _ _ => eq_refl) t k Hy)
    in Hoff.
  now injection Hoff as <-.
Qed.

Section OffsetHost.

Context {N : Number}.
Variable LocalTZA : Z -> bool -> Z.
Variable offset : Z.
Hypothesis LocalTZA_constant : forall t b, LocalTZA t b = offset.
Hypothesis offset_range : Z.abs offset < JSDate.msPerDay.

(** X22. On a host at a constant offset from UTC, a calculation from a date
    typed in the form (midnight UTC of that day) returns while the years
    stay within 0..9999. At or east of UTC its rows carry the dates they
    carry in UTC: the day [y] years later, 1 March for a missing
    29 February. West of UTC the start is the evening before in local
    time, and every row carries the day after the anniversary of that
    previous day. *)
Theorem breakdown_dates_at_constant_offset
    (p : CalculationParams) (t : Z) :
  startDate p = Some (JSDate.mkDate (Some t)) ->
  t mod JSDate.msPerDay = 0 ->
  0 <= JSDate.YearFromTime
         (if 0 <=? offset then t else t - JSDate.msPerDay) ->
  JSDate.YearFromTime (if 0 <=? offset then t else t - JSDate.msPerDay)
  + time p <= 9999 ->
  exists r,
    calculateCompoundInterest LocalTZA p = Return r
    /\ forall y, 1 <= y <= time p ->
         exists row,
           array_get (yearlyBreakdown r) (y - 1) = Some row
           /\ date row
              = Some
                  (if 0 <=? offset
                   then
                     if JSDate.DateFromTime t
                        <=? DaysInMonth
                              (JSDate.DaysInYear (JSDate.YearFromTime t + y))
                              (JSDate.MonthFromTime t)
                     then same_day_years_later t y
                     else JSDate.iso_date (JSDate.YearFromTime t + y) 3 1
                   else
                     iso_date_of_day
                       (JSDate.MakeDay
                          (JSDate.YearFromTime (t - JSDate.msPerDay) + y)
                          (JSDate.MonthFromTime (t - JSDate.msPerDay))
                          (JSDate.DateFromTime (t - JSDate.msPerDay))
                        + 1)).
Proof.
  intros Hsd Hmid.
  set (local := if 0 <=? offset then t else t - JSDate.msPerDay).
  intros Hlo Hhi.
  assert (HDay : JSDate.Day (t + offset) = JSDate.Day local
                 /\ JSDate.Day t - JSDate.Day (t + offset)
                    = if 0 <=? offset then 0 else 1).
  { subst local. unfold JSDate.Day, JSDate.msPerDay in *.
    destruct (Z.leb_spec 0 offset); Z.div_mod_to_equations; lia. }
  destruct HDay as [HDay Hshift].
  destruct (@fields_of_Day _ _ HDay) as (HY & HM & HD).
  assert (Hrow : forall y, 1 <= y <= time p ->
            date_of_year LocalTZA (JSDate.mkDate (Some t)) y
            = Return
                (iso_date_of_day
                   (JSDate.MakeDay (JSDate.YearFromTime local + y)
                      (JSDate.MonthFromTime local)
                      (JSDate.DateFromTime local)
                    + (if 0 <=? offset then 0 else 1)))).
  { intros y Hy.
    rewrite (@date_of_year_constant_offset LocalTZA offset LocalTZA_constant
               offset_range N t y) by (rewrite HY; lia).
    now rewrite HY, HM, HD, Hshift. }
  assert (Hdates : dates_representable LocalTZA p).
  { intros d y Hd Hy. rewrite Hsd in Hd. injection Hd as <-.
    rewrite (Hrow y Hy). eauto. }
  eexists. split; [apply (calculateCompoundInterest_returns Hdates) |].
  cbn [yearlyBreakdown]. intros y Hy.
  eexists. split; [apply array_get_map_years; lia |].
  replace (y - 1 + 1) with y by lia. cbn [date row_of_year].
  rewrite Hsd, (Hrow y Hy). f_equal. subst local.
  destruct (Z.leb_spec 0 offset); [| reflexivity].
  rewrite Z.add_0_r. apply iso_date_of_anniversary. lia.
Qed.

End OffsetHost.

(* ================================================================== *)
(** * The further properties at the example scenarios *)

Lemma clearCalculationHistory_repairs_witness :
  Z.abs (new_Date_now host_2023) <= 8640000000000000
  /\ getCalculationHistory corrupted_storage = Throw SyntaxError
  /\ getCalculationHistory (clearCalculationHistory corrupted_storage)
     = Return (JArray [])
  /\ exists localStorage' first,
       saveCalculation host_2023 finite_params finite_result
         (clearCalculationHistory corrupted_storage) = Return localStorage'
       /\ getCalculationHistory localStorage' = Return (JArray [first])
       /\ id_of first = Some "loyw3v28i".
Proof.
  assert (Hclock : Z.abs (new_Date_now host_2023) <= 8640000000000000)
    by (cbn; lia).
  split; [exact Hclock |]. split; [reflexivity |].
  destruct (@clearCalculationHistory_repairs Float64_at_zero host_2023
              finite_params finite_result corrupted_storage Hclock)
    as (Hempty & Hsave & _).
  split; [exact Hempty | exact Hsave].
Defined.

Lemma history_operations_keep_other_keys_witness :
  "calculatorParams" <> "calculationHistory"
  /\ forall (stored : @StoredString Float64_at_zero) localStorage',
       deleteCalculation "loyw3v28i"
         (setItem "calculatorParams" stored two_records_storage)
       = Return localStorage' ->
       getItem "calculatorParams" localStorage' = Some stored.
Proof.
  assert (Hkey : "calculatorParams" <> "calculationHistory")
    by discriminate.
  split; [exact Hkey |].
  intros stored ls' Hdel.
  rewrite (proj2 (@history_operations_keep_other_keys Float64_at_zero
                    host_2023 finite_params finite_result
                    "loyw3v28i" "calculatorParams"
                    (setItem "calculatorParams" stored two_records_storage)
                    Hkey) ls' Hdel).
  reflexivity.
Defined.

Lemma damaged_history_errors_witness :
  Z.abs (new_Date_now host_2023) <= 8640000000000000
  /\ saveCalculation host_2023 finite_params finite_result corrupted_storage
     = Throw SyntaxError
  /\ deleteCalculation "loyw3v28i" corrupted_storage
     = Throw SyntaxError.
Proof.
  assert (Hclock : Z.abs (new_Date_now host_2023) <= 8640000000000000)
    by (cbn; lia).
  split; [exact Hclock |].
  apply (proj1 (@damaged_history_errors Float64_at_zero host_2023
                  finite_params finite_result "loyw3v28i"
                  corrupted_storage Hclock) "{");
    [discriminate | reflexivity].
Defined.

Lemma deleteCalculation_removes_every_match_witness :
  getCalculationHistory two_records_twice_storage
  = Return (JArray two_records_twice)
  /\ Forall (fun item => item <> JNull) two_records_twice
  /\ exists localStorage',
       deleteCalculation "loyw3v28i" two_records_twice_storage
       = Return localStorage'
       /\ getCalculationHistory localStorage'
          = Return (JArray (one_record ++ one_record)).
Proof.
  assert (Hitems : Forall (fun item : @JSON Float64_at_zero => item <> JNull)
                     two_records_twice)
    by (repeat constructor; discriminate).
  split; [reflexivity |]. split; [exact Hitems |].
  destruct (@deleteCalculation_removes_every_match Float64_at_zero
              "loyw3v28i" two_records_twice_storage
              two_records_twice eq_refl Hitems)
    as (ls' & items' & Hdel & Hlist & -> & _).
  exists ls'. split; [exact Hdel | exact Hlist].
Defined.

Lemma save_then_delete_restores_witness :
  Z.abs (new_Date_now host_2023) <= 8640000000000000
  /\ getCalculationHistory one_record_storage = Return (JArray one_record)
  /\ Forall written_not_null one_record
  /\ (forall item, In item one_record ->
        has_id (generateId host_2023) item = false)
  /\ exists localStorage1 localStorage2,
       saveCalculation host_2023 finite_params finite_result
         one_record_storage = Return localStorage1
       /\ deleteCalculation "loyw3v28i" localStorage1
          = Return localStorage2
       /\ getCalculationHistory localStorage2 = Return (JArray one_record).
Proof.
  assert (Hclock : Z.abs (new_Date_now host_2023) <= 8640000000000000)
    by (cbn; lia).
  assert (Hitems : Forall (@written_not_null Float64_at_zero) one_record)
    by (repeat constructor; discriminate).
  assert (Hfresh : forall item : @JSON Float64_at_zero,
            In item one_record ->
            has_id (generateId host_2023) item = false)
    by (intros item [<- | []]; reflexivity).
  split; [exact Hclock |]. split; [reflexivity |].
  split; [exact Hitems |]. split; [exact Hfresh |].
  destruct (@save_then_delete_restores Float64_at_zero host_2023
              finite_params finite_result one_record_storage one_record
              Hclock eq_refl Hitems Hfresh)
    as (ls1 & ls2 & Hsave & Hdel & Hlist & _).
  exists ls1, ls2. split; [exact Hsave |]. split; [exact Hdel |].
  exact Hlist.
Defined.

Lemma calculateCompoundInterest_fails_only_on_dates_witness :
  time scenario_dated < 2 ^ 32
  /\ time scenario_invalid_date < 2 ^ 32
  /\ (exists r, calculateCompoundInterest UTC_zone scenario_dated = Return r)
  /\ ~ dates_representable UTC_zone scenario_invalid_date
  /\ calculateCompoundInterest UTC_zone scenario_invalid_date
     = Throw RangeError.
Proof.
  assert (Hthrow : calculateCompoundInterest UTC_zone scenario_invalid_date
                   = Throw RangeError) by reflexivity.
  assert (Hdated : time scenario_dated < 2 ^ 32) by (cbn; lia).
  assert (Hinvalid : time scenario_invalid_date < 2 ^ 32) by (cbn; lia).
  split; [exact Hdated |]. split; [exact Hinvalid |].
  split; [| split; [| exact Hthrow]].
  - apply (proj1 (@calculateCompoundInterest_fails_only_on_dates Real
                    UTC_zone scenario_dated Hdated)).
    apply (@dates_representable_UTC Real UTC_zone scenario_dated
             1705276800000 (fun _ _ => eq_refl) eq_refl);
      vm_compute; discriminate.
  - intros Hdates.
    apply (proj1 (@calculateCompoundInterest_fails_only_on_dates
                    Float64_at_zero UTC_zone scenario_invalid_date
                    Hinvalid))
      in Hdates.
    destruct Hdates as [r Hr]. rewrite Hthrow in Hr. discriminate Hr.
Defined.

Lemma invalid_startDate_throws_witness :
  startDate scenario_invalid_date = Some (JSDate.mkDate None)
  /\ 1 <= time scenario_invalid_date
  /\ calculateCompoundInterest UTC_minus_5 scenario_invalid_date
     = Throw RangeError.
Proof.
  split; [reflexivity |]. split; [cbn; lia |].
  apply (proj2 (@invalid_startDate_throws Float64_at_zero UTC_minus_5
                  scenario_invalid_date)).
  - reflexivity.
  - cbn; lia.
Defined.

Lemma longer_time_extends_breakdown_witness :
  0 <= time scenario_annual <= time scenario_annual_five
  /\ dates_representable UTC_zone scenario_annual_five
  /\ exists r r',
       calculateCompoundInterest UTC_zone scenario_annual = Return r
       /\ calculateCompoundInterest UTC_zone scenario_annual_five = Return r'
       /\ yearlyBreakdown r = firstn 3 (yearlyBreakdown r')
       /\ exists row,
            array_get (yearlyBreakdown r') 2 = Some row
            /\ amount row = finalAmount r.
Proof.
  assert (Ht : 0 <= time scenario_annual <= time scenario_annual_five)
    by (cbn; lia).
  assert (Hdates : dates_representable UTC_zone scenario_annual_five)
    by (apply dates_representable_without_date; reflexivity).
  split; [exact Ht |]. split; [exact Hdates |].
  destruct (@longer_time_extends_breakdown Real UTC_zone scenario_annual
              scenario_annual_five eq_refl eq_refl eq_refl eq_refl Ht Hdates)
    as (r & r' & Hr & Hr' & Hrows & Hlast).
  exists r, r'. split; [exact Hr |]. split; [exact Hr' |].
  split; [exact Hrows |]. apply Hlast. cbn; lia.
Defined.

Lemma getFrequencyNumber_agrees_with_engine_witness :
  @getFrequencyNumber Float64_at_zero "monthly" = 12%float
  /\ @getFrequencyNumber Float64_at_zero "monthly"
     = getFrequencyValue monthly
  /\ @getFrequencyNumber Float64_at_zero "fortnightly" = 1%float.
Proof.
  destruct (@getFrequencyNumber_agrees_with_engine Float64_at_zero)
    as (Hdiscrete & _ & Hother).
  split; [reflexivity |]. split.
  - exact (Hdiscrete monthly eq_refl).
  - apply Hother. intros []; discriminate.
Defined.

Lemma totalInterestToDate_column_witness :
  PrimFloat.is_finite (principal finite_params) = true
  /\ PrimFloat.eqb (principal finite_params) 0 = false
  /\ valid_params UTC_zone finite_params
  /\ (forall a : float,
        totalInterestToDate finite_params
          (@Build_YearlyBreakdown Float64_at_zero 1 a 0%float None)
        = (a - 10000)%float)
  /\ exists r row,
       calculateCompoundInterest UTC_zone finite_params = Return r
       /\ array_get (yearlyBreakdown r) 0 = Some row
       /\ totalInterestToDate finite_params row = totalInterest r.
Proof.
  assert (Hvalid : valid_params UTC_zone finite_params).
  { split; [cbn; lia |].
    apply dates_representable_without_date. reflexivity. }
  split; [reflexivity |]. split; [reflexivity |]. split; [exact Hvalid |].
  destruct (@totalInterestToDate_column Math_pow_at_zero Math_exp_at_zero
              UTC_zone finite_params eq_refl eq_refl) as [Hcell Hlast].
  split.
  - intros a. apply (Hcell (@Build_YearlyBreakdown Float64_at_zero 1 a
                              0%float None)).
  - exact (Hlast Hvalid).
Defined.

Lemma handleSubmit_validation_witness :
  Number_isInteger (time_value form_half_year) = false
  /\ exists t,
       handleSubmit (pow := Math_pow_at_zero) (exp := Math_exp_at_zero)
         UTC_zone host_2023 form_half_year empty_storage
       = Return (empty_storage,
                 [ ShowToast Math_pow_at_zero Math_exp_at_zero t ])
       /\ destructive t = true.
Proof.
  assert (Hhalf : Number_isInteger (time_value form_half_year) = false)
    by reflexivity.
  split; [exact Hhalf |].
  apply (proj1 (@handleSubmit_validation Math_pow_at_zero Math_exp_at_zero
                  UTC_zone host_2023 form_half_year empty_storage)).
  right. right. right. exact Hhalf.
Defined.

Lemma handleSubmit_computes_and_saves_witness :
  PrimFloat.leb (principal_value form_defaults) 0 = false
  /\ PrimFloat.leb (rate_value form_defaults) 0 = false
  /\ 1 <= 10 < 2 ^ 53
  /\ time_value form_defaults = float_of_Z 10
  /\ Z.abs (new_Date_now host_2023) <= 8640000000000000
  /\ exists r localStorage' first,
       calculateCompoundInterest UTC_zone
         (engine_params Math_pow_at_zero Math_exp_at_zero form_defaults)
       = Return r
       /\ length (yearlyBreakdown r) = 10%nat
       /\ handleSubmit UTC_zone host_2023 form_defaults empty_storage
          = Return (localStorage',
                    [ OnCalculate Math_pow_at_zero Math_exp_at_zero
                        form_defaults;
                      ShowToast Math_pow_at_zero Math_exp_at_zero
                        {| title := "Calculation Complete";
                           description :=
                             "Your compound interest has been calculated successfully.";
                           destructive := false |} ])
       /\ getCalculationHistory localStorage' = Return (JArray [first])
       /\ id_of first = Some "loyw3v28i".
Proof.
  assert (Hn : 1 <= 10 < 2 ^ 53) by (cbn; lia).
  assert (Hclock : Z.abs (new_Date_now host_2023) <= 8640000000000000)
    by (cbn; lia).
  split; [reflexivity |]. split; [reflexivity |]. split; [exact Hn |].
  split; [reflexivity |]. split; [exact Hclock |].
  destruct (@handleSubmit_computes_and_saves Math_pow_at_zero
              Math_exp_at_zero UTC_zone host_2023 form_defaults
              empty_storage [] 10 eq_refl eq_refl Hn eq_refl
              (@dates_representable_without_date _ UTC_zone
                 (engine_params Math_pow_at_zero Math_exp_at_zero
                    form_defaults) eq_refl)
              Hclock eq_refl)
    as (r & ls' & stamp & _ & Hr & Hlen & Hsubmit & Hlist & _).
  exists r, ls'. eexists.
  split; [exact Hr |]. split; [exact Hlen |]. split; [exact Hsubmit |].
  split; [exact Hlist | reflexivity].
Defined.

Lemma handleSubmit_errors_witness :
  startDate_value form_emptied_date = Some (JSDate.mkDate None)
  /\ handleSubmit (pow := Math_pow_at_zero) (exp := Math_exp_at_zero)
       UTC_zone host_2023 form_emptied_date empty_storage
     = Throw RangeError
  /\ getItem "calculationHistory" corrupted_storage = Some (NotJSON "{")
  /\ handleSubmit (pow := Math_pow_at_zero) (exp := Math_exp_at_zero)
       UTC_zone host_2023 form_defaults corrupted_storage
     = Throw SyntaxError.
Proof.
  split; [reflexivity |]. split.
  - apply (proj1 (@handleSubmit_errors Math_pow_at_zero Math_exp_at_zero
                    UTC_zone host_2023 form_emptied_date empty_storage
                    eq_refl eq_refl eq_refl eq_refl)).
    reflexivity.
  - split; [reflexivity |].
    apply (proj2 (@handleSubmit_errors Math_pow_at_zero Math_exp_at_zero
                    UTC_zone host_2023 form_defaults corrupted_storage
                    eq_refl eq_refl eq_refl eq_refl)) with "{".
    + apply dates_representable_without_date. reflexivity.
    + cbn; lia.
    + discriminate.
    + reflexivity.
Defined.

Lemma handleChange_then_handleSubmit_witness :
  exists localStorage' toast,
    handleSubmit (pow := Math_pow_at_zero) (exp := Math_exp_at_zero)
      UTC_zone host_2023
      (handleChange parseFloat_2500 Date_parse_strict principal_input
         "2500" form_defaults)
      empty_storage
    = Return (localStorage',
              [ OnCalculate Math_pow_at_zero Math_exp_at_zero
                  (handleChange parseFloat_2500 Date_parse_strict
                     principal_input "2500" form_defaults);
                toast ])
    /\ principal_value
         (handleChange parseFloat_2500 Date_parse_strict principal_input
            "2500" form_defaults) = 2500%float
    /\ PrimFloat.ltb 0 2500 = true.
Proof.
  eexists. eexists. split; [reflexivity |].
  apply (@handleChange_then_handleSubmit Math_pow_at_zero Math_exp_at_zero
           UTC_zone parseFloat_2500 Date_parse_strict host_2023
           principal_input "2500" form_defaults empty_storage _ _ _
           eq_refl (or_introl eq_refl)).
Defined.

Lemma date_input_round_trip_witness :
  startDate_input_value
    (handleChange parseFloat_2500 Date_parse_strict startDate_input
       "2024-02-29" form_defaults)
  = Return "2024-02-29"
  /\ startDate_input_value
       (handleChange parseFloat_2500 Date_parse_strict startDate_input
          "" form_defaults)
     = Throw RangeError.
Proof.
  destruct (@date_input_round_trip parseFloat_2500 Date_parse_strict
              form_defaults) as [Hdate Hempty].
  split.
  - apply (Hdate 2024 2 29); cbn; lia.
  - apply Hempty. reflexivity.
Defined.

Lemma handleDelete_updates_list_and_selection_witness :
  getCalculationHistory two_records_storage = Return (JArray two_records)
  /\ Forall (fun item => item <> JNull) two_records
  /\ selection_stored second_record_selected two_records_storage
  /\ exists localStorage' state' toast,
       handleDelete "loyw3v28i" second_record_selected
         two_records_storage
       = Return (localStorage', state',
                 [ ShowToast Math_pow_at_zero Math_exp_at_zero toast ])
       /\ history state' = JArray one_record
       /\ selectedItem state' = selectedItem second_record_selected.
Proof.
  assert (Hitems : Forall (fun item : @JSON Float64_at_zero => item <> JNull)
                     two_records)
    by (repeat constructor; discriminate).
  assert (Hsel : selection_stored second_record_selected
                   two_records_storage).
  { right. exists two_records. split; [reflexivity |].
    right. left. reflexivity. }
  split; [reflexivity |]. split; [exact Hitems |]. split; [exact Hsel |].
  destruct (proj2 (@handleDelete_updates_list_and_selection
                     Math_pow_at_zero Math_exp_at_zero
                     "loyw3v28i" second_record_selected
                     two_records_storage)
              two_records eq_refl Hitems Hsel)
    as (ls' & state' & toast & Hdel & _ & Hhist & _ & _ & Hkept).
  exists ls', state', toast.
  split; [exact Hdel |]. split; [exact Hhist |].
  apply Hkept. reflexivity.
Defined.

Lemma history_component_in_step_witness :
  loadHistory second_record_selected corrupted_storage = Throw SyntaxError
  /\ exists state' toast,
       handleClearAll second_record_selected corrupted_storage
       = Return (clearCalculationHistory corrupted_storage, state',
                 [ ShowToast Math_pow_at_zero Math_exp_at_zero toast ])
       /\ history state' = JArray []
       /\ selectedItem state' = JNull.
Proof.
  split; [reflexivity |].
  destruct (proj1 (proj2 (@history_component_in_step Math_pow_at_zero
                            Math_exp_at_zero Date_parse_strict
                            new_Date_other_invalid second_record_selected
                            corrupted_storage)))
    as (state' & toast & Hclear & Hhist & Hsel & _).
  exists state', toast. repeat split; assumption.
Defined.

Lemma handleItemClick_restores_params_witness :
  Z.abs (new_Date_now host_2023) <= 8640000000000000
  /\ getCalculationHistory two_records_storage = Return (JArray two_records)
  /\ exists localStorage' first state' selected,
       saveCalculation host_2023 dated_params finite_result
         two_records_storage = Return localStorage'
       /\ getCalculationHistory localStorage'
          = Return (JArray (first :: two_records))
       /\ handleItemClick Date_parse_strict new_Date_other_invalid
            first second_record_selected
          = Return (state', [ OnSelectHistory selected ])
       /\ selectedItem state' = first
       /\ selected_principal selected
          = Some (@JNumber Float64_at_zero 10000%float)
       /\ selected_time selected = Some (@JNumber Float64_at_zero 1%float)
       /\ selected_frequency selected = Some (JString "annually")
       /\ selected_startDate selected
          = Some (JSDate.mkDate (Some 1705276800000)).
Proof.
  assert (Hclock : Z.abs (new_Date_now host_2023) <= 8640000000000000)
    by (cbn; lia).
  split; [exact Hclock |]. split; [reflexivity |].
  destruct (@handleItemClick_restores_params Math_pow_at_zero
              Math_exp_at_zero Date_parse_strict new_Date_other_invalid
              host_2023 dated_params finite_result two_records_storage
              two_records second_record_selected Hclock eq_refl)
    as (ls' & first & selected & Hsave & Hlist & Hclick & Hp & _ & Ht & Hf
        & Hd).
  { intros t [= <-]. cbn; lia. }
  exists ls', first. eexists. exists selected.
  split; [exact Hsave |]. split; [exact Hlist |].
  split; [exact Hclick |]. split; [reflexivity |].
  split; [exact Hp |]. split; [exact Ht |].
  split; [exact Hf | exact Hd].
Defined.

Lemma formatDate_of_createdAt_witness :
  Z.abs (new_Date_now host_2023) <= 8640000000000000
  /\ exists localStorage' first stamp,
       saveCalculation host_2023 finite_params finite_result
         two_records_storage = Return localStorage'
       /\ getCalculationHistory localStorage'
          = Return (JArray (first :: two_records))
       /\ property "createdAt" first = Return (Some (JString stamp))
       /\ formatDate Date_parse_strict toLocaleDateString_ISO stamp
          = "2023-11-14".
Proof.
  assert (Hclock : Z.abs (new_Date_now host_2023) <= 8640000000000000)
    by (cbn; lia).
  split; [exact Hclock |].
  exact (@formatDate_of_createdAt Math_pow_at_zero Math_exp_at_zero
           Date_parse_strict toLocaleDateString_ISO host_2023 finite_params
           finite_result two_records_storage two_records Hclock eq_refl).
Defined.

Lemma saves_are_listed_most_recent_first_witness :
  Forall (fun save : Host * @CalculationParams Float64_at_zero
                     * @CalculationResult Float64_at_zero =>
            Z.abs (new_Date_now (fst (fst save))) <= 8640000000000000)
    [ (host_2023, finite_params, finite_result);
      (host_2024, overflow_params, overflow_result) ]
  /\ exists localStorage' older newer,
       save_each [ (host_2023, finite_params, finite_result);
                   (host_2024, overflow_params, overflow_result) ]
         one_record_storage = Return localStorage'
       /\ getCalculationHistory localStorage'
          = Return (JArray (newer :: older :: one_record))
       /\ id_of older = Some (generateId host_2023)
       /\ id_of newer = Some (generateId host_2024).
Proof.
  assert (Hclocks :
    Forall (fun save : Host * @CalculationParams Float64_at_zero
                       * @CalculationResult Float64_at_zero =>
              Z.abs (new_Date_now (fst (fst save))) <= 8640000000000000)
      [ (host_2023, finite_params, finite_result);
        (host_2024, overflow_params, overflow_result) ])
    by (repeat constructor; cbn; lia).
  split; [exact Hclocks |].
  destruct (@saves_are_listed_most_recent_first Float64_at_zero _
              one_record_storage one_record Hclocks eq_refl)
    as (ls' & records & rest & Hsave & Hlist & Hids & _ & Hrest & _).
  rewrite Hrest in Hlist by discriminate.
  destruct records as [| older [| newer [| extra records]]];
    try discriminate Hids.
  exists ls', older, newer.
  injection Hids as Holder Hnewer.
  split; [exact Hsave |]. split; [exact Hlist |].
  split; [exact Holder | exact Hnewer].
Defined.

Lemma breakdown_dates_at_constant_offset_witness :
  startDate scenario_first_of_march
  = Some (JSDate.mkDate (Some 1709251200000))
  /\ 1709251200000 mod JSDate.msPerDay = 0
  /\ exists r,
       calculateCompoundInterest UTC_minus_5 scenario_first_of_march
       = Return r
       /\ exists row,
            array_get (yearlyBreakdown r) 0 = Some row
            /\ date row = Some "2025-03-02".
Proof.
  split; [reflexivity |]. split; [reflexivity |].
  destruct (@breakdown_dates_at_constant_offset Real UTC_minus_5 (-18000000)
              (fun _ _ => eq_refl) eq_refl scenario_first_of_march
              1709251200000 eq_refl eq_refl
              ltac:(vm_compute; discriminate)
              ltac:(cbn [time scenario_first_of_march]; vm_compute;
                    discriminate))
    as (r & Hr & H).
  exists r. split; [exact Hr |].
  destruct (H 1 ltac:(cbn; lia)) as (row & Hrow & Hdate).
  exists row. split; [exact Hrow |].
  rewrite Hdate. vm_compute. reflexivity.
Defined.
